(** * Source-package assembly and patch-bundle construction

    A shallow embedding of [build-tools/stx/debrepack.py] (class [Parser]
    and its helpers) and of [build-tools/stx/patch/patch_builder.py]
    (class [PatchBuilder]).

    The Python code works on three pieces of process-wide state: the file
    system, the current working directory and the external commands it
    launches.  They are gathered in a record [Sys]; every method becomes
    a function in a state-and-exception monad whose state survives a
    raised exception, exactly as the process state survives a Python
    [raise].  External tools (curl, patch, git, dpkg-source, md5, ...)
    are oracles collected in a record [Env]. *)

From Stdlib Require Import ZArith Lia List Permutation Ascii String.
From Stdlib Require Import DecimalString HexadecimalString.
From stdpp Require Import base gmap strings list.

Open Scope string_scope.

(** ** Python strings and POSIX paths *)

Module Py.

Definition LF : ascii := "010"%char.
Definition CR : ascii := "013"%char.
Definition nl : string := String LF EmptyString.
Definition dquote : string := String (ascii_of_nat 34) EmptyString.

(** [s.startswith(p)] and [s.endswith(p)]. *)
Definition startswith (s p : string) : bool := String.prefix p s.
Definition endswith (s p : string) : bool :=
  String.prefix (String.rev p) (String.rev s).

(** [str.isspace] on the ASCII range: TAB, LF, VT, FF, CR, FS, GS, RS, US
    and the blank. *)
Definition isspace (c : ascii) : bool :=
  let n := nat_of_ascii c in
  (Nat.leb 9 n && Nat.leb n 13) || (Nat.leb 28 n && Nat.leb n 32).

Fixpoint lstrip_chars (f : ascii -> bool) (s : string) : string :=
  match s with
  | EmptyString => EmptyString
  | String c s' => if f c then lstrip_chars f s' else s
  end.

Definition rstrip_chars (f : ascii -> bool) (s : string) : string :=
  String.rev (lstrip_chars f (String.rev s)).

Definition strip_chars (f : ascii -> bool) (s : string) : string :=
  rstrip_chars f (lstrip_chars f s).

(** [s.strip()]. *)
Definition strip (s : string) : string := strip_chars isspace s.

(** [s.strip(cs)]. *)
Definition strip_set (cs s : string) : string :=
  strip_chars (fun c => existsb (Ascii.eqb c) (list_ascii_of_string cs)) s.

(** [s.split(sep)] for a one-character separator: every occurrence cuts,
    so consecutive separators give empty fields. *)
Fixpoint split (sep : ascii) (s : string) : list string :=
  match s with
  | EmptyString => [EmptyString]
  | String c s' =>
      if Ascii.eqb c sep then EmptyString :: split sep s'
      else match split sep s' with
           | h :: t => String c h :: t
           | [] => [String c EmptyString]
           end
  end.

(** [f.readlines()] of a file opened in text mode: the line terminators
    CR LF and CR are read as LF, and every line keeps its terminator. *)
Fixpoint readlines (s : string) : list string :=
  match s with
  | EmptyString => []
  | String c s' =>
      if Ascii.eqb c LF then nl :: readlines s'
      else if Ascii.eqb c CR then
        match s' with
        | String c' s'' =>
            if Ascii.eqb c' LF then nl :: readlines s'' else nl :: readlines s'
        | EmptyString => [nl]
        end
      else match readlines s' with
           | h :: t => String c h :: t
           | [] => [String c EmptyString]
           end
  end.

(** Truth value of a string or of an optional string ([None] and the
    empty string are false). *)
Definition truthy (o : option string) : bool :=
  match o with
  | Some (String _ _) => true
  | _ => false
  end.

(** [str(n)] and ["%x" % n] for integers. *)
Definition str_of_int (n : Z) : string :=
  DecimalString.NilZero.string_of_int (Z.to_int n).
Definition hex_of_int (n : Z) : string :=
  HexadecimalString.NilZero.string_of_int (Z.to_hex_int n).

(** [s[n:]]. *)
Fixpoint drop (n : nat) (s : string) : string :=
  match n, s with
  | O, _ => s
  | S n', String _ s' => drop n' s'
  | S _, EmptyString => EmptyString
  end.

(** *** posixpath *)

Fixpoint span_not_slash (s : string) : string * string :=
  match s with
  | EmptyString => (EmptyString, EmptyString)
  | String c s' =>
      if Ascii.eqb c "/" then (EmptyString, s)
      else let '(a, b) := span_not_slash s' in (String c a, b)
  end.

Fixpoint all_slashes (s : string) : bool :=
  match s with
  | EmptyString => true
  | String c s' => Ascii.eqb c "/" && all_slashes s'
  end.

(** [os.path.basename]: what follows the last slash. *)
Definition basename (p : string) : string :=
  String.rev (fst (span_not_slash (String.rev p))).

(** [os.path.dirname]: what precedes the last slash, without trailing
    slashes unless it consists of slashes only. *)
Definition dirname (p : string) : string :=
  let head := String.rev (snd (span_not_slash (String.rev p))) in
  if all_slashes head then head else rstrip_chars (Ascii.eqb "/") head.

(** [os.path.join(a, b)]. *)
Definition join (a b : string) : string :=
  if startswith b "/" then b
  else if String.eqb a EmptyString || endswith a "/" then a +:+ b
  else a +:+ "/" +:+ b.

End Py.

(** ** Exceptions and results *)

Inductive exn : Type :=
| Exception (msg : string)
| ValueError (msg : string)
| IOError (msg : string)
| KeyError (key : string)
| FileNotFoundError (msg : string)
| FileExistsError (msg : string)
| NotADirectoryError (msg : string)
| IsADirectoryError (msg : string)
| CalledProcessError (cmd : string).

Inductive result (A : Type) : Type :=
| Returned (a : A)
| Raised (e : exn).
Arguments Returned {A} a.
Arguments Raised {A} e.

Definition is_raised {A} (r : result A) : bool :=
  match r with Raised _ => true | Returned _ => false end.

(** ** The process state *)

Inductive node : Type :=
| File (content : string)
| Dir.

(** The external commands the two programs launch; each constructor
    stands for one command line of the source. *)
Inductive command : Type :=
| CmdChecksum (tool file : string)   (* '%s %s |cut -d' ' -f1' *)
| CmdCurl (url savepath : string)    (* curl --fail ... -o savepath url *)
| CmdPatch (patch : string)          (* 'patch -p1 < %s' *)
| CmdCp (flags src dst : string)     (* 'cp <flags> %s %s' *)
| CmdCpGlob (src dst : string)       (* 'cp -r %s/* %s' *)
| CmdPrintFormat (srcdir : string)   (* 'dpkg-source --print-format %s' *)
| CmdGitRevList (dir : string) (base : option string)
                                     (* 'cd %s;git rev-list --count [%s..]HEAD .' *)
| CmdGitStatus (dir : string)        (* 'cd %s;git status --porcelain . | wc -l' *)
| CmdShell (line : string).          (* any other command line *)

Record Sys : Type := mkSys {
  fs : gmap string node;
  cwd : string;
  trace : list command
}.

Definition set_fs (m : gmap string node) (w : Sys) : Sys :=
  mkSys m (cwd w) (trace w).
Definition set_cwd (d : string) (w : Sys) : Sys :=
  mkSys (fs w) d (trace w).
Definition log_cmd (c : command) (w : Sys) : Sys :=
  mkSys (fs w) (cwd w) (trace w ++ [c])%list.

(** A relative path is taken from the current working directory; a
    leading [./] changes nothing and [.] is that directory itself. *)
Fixpoint drop_dot_slash (p : string) : string :=
  match p with
  | String a (String b r as p') =>
      if Ascii.eqb a "." && Ascii.eqb b "/" then drop_dot_slash r else p
  | String a EmptyString => if Ascii.eqb a "." then EmptyString else p
  | EmptyString => p
  end.

Definition resolve (w : Sys) (p : string) : string :=
  match drop_dot_slash p with
  | EmptyString => cwd w
  | p' => Py.join (cwd w) p'
  end.

(** [q] lies strictly below the directory [p]. *)
Definition under (p q : string) : bool := Py.startswith q (p +:+ "/").
Definition in_tree (p q : string) : bool := String.eqb p q || under p q.

(** ** The metadata of a package ([meta_data.yaml])

    A YAML mapping is a record of optional fields: [None] says that the
    key is absent.  A field of type [option (option _)] tells an absent
    key from a key whose value is null. *)

(** An entry of [dl_files], and [dl_path]. *)
Record DlInfo : Type := mkDlInfo {
  dl_url : string;
  dl_sha256sum : option string;
  dl_md5sum : option string;
  dl_topdir : option string
}.

Record DlPath : Type := mkDlPath {
  dp_name : string;
  dp_url : string;
  dp_sha256sum : option string;
  dp_md5sum : option string
}.

(** The scalar values YAML can give to [stx_patch]. *)
Inductive yaml_scalar : Type :=
| YInt (n : Z)
| YBool (b : bool)
| YStr (s : string)
| YNull.

Record SrcGitRevCount : Type := mkSrcGitRevCount {
  SRC_BASE_SRCREV : option string
}.

Record GitRevCount : Type := mkGitRevCount {
  SRC_DIR : option string;
  BASE_SRCREV : option string
}.

Record RevisionData : Type := mkRevisionData {
  rd_dist : option (option string);
  PKG_GITREVCOUNT : bool;
  PKG_BASE_SRCREV : option string;
  SRC_GITREVCOUNT : option SrcGitRevCount;
  GITREVCOUNT : option GitRevCount;
  stx_patch : option yaml_scalar
}.

Record MetaData : Type := mkMetaData {
  debver : option string;
  debname : option string;
  src_path : option (option string);
  src_files : option (list string);
  revision : option RevisionData;
  dl_files : option (list (string * DlInfo));
  dl_path : option DlPath;
  archive : option string;
  dl_hook : option string
}.

Definition empty_meta_data : MetaData :=
  mkMetaData None None None None None None None None None.

Inductive curl_result : Type :=
| CurlOk (body : string)
| CurlFail (partial : option string).

(** The network transfers recorded in a trace: the addresses given to
    curl, in order. *)
Definition downloads (tr : list command) : list string :=
  omap (fun c => match c with CmdCurl url _ => Some url | _ => None end) tr.

(** The patches applied to the working tree recorded in a trace. *)
Definition applied_patches (tr : list command) : list string :=
  omap (fun c => match c with CmdPatch p => Some p | _ => None end) tr.

(** The oracles: what the tools outside this repository answer. *)
Record Env : Type := mkEnv {
  (* md5sum / sha256sum: the digest the tool prints for a content *)
  digest_of : string -> string -> string;
  (* curl: the transfer of a URL, as it goes in the present state *)
  curl_fetch : string -> Sys -> curl_result;
  (* patch -p1 run in the working directory: its success and the tree it
     leaves *)
  patch_apply : string -> Sys -> bool * gmap string node;
  (* dpkg-source --print-format *)
  print_format : string -> Sys -> option string;
  (* git rev-list --count and git status --porcelain | wc -l *)
  git_rev_count : string -> option string -> Sys -> option N;
  git_status_count : string -> Sys -> N;
  (* every other command line: its output, or none when it fails, and
     the tree it leaves *)
  shell_other : string -> Sys -> option string * gmap string node;
  (* the exception with which utils.run_shell_cmd reports a command line
     that exits with a non-zero status *)
  shell_error : string -> exn;
  (* os.path.expandvars *)
  expandvars : string -> string;
  (* utils.get_download_url(url, strategy) *)
  get_download_url : string -> string -> string * option string;
  (* yaml.full_load of the content of meta_data.yaml *)
  yaml_full_load : string -> MetaData;
  (* discovery.package_dir_to_package_name(pkgpath, 'debian') *)
  package_dir_to_package_name : string -> string;
  (* the names and sha256 digests a .dsc file lists under
     Checksums-Sha256, and the names it lists under Files; none when
     the file has no such field *)
  dsc_checksums : string -> option (list (string * string));
  dsc_files : string -> option (list string);
  (* apt_pkg.SourceRecords: the versions found for a source name, in
     the order of the successive lookups *)
  apt_source_versions : string -> list string;
  (* git.Repo(path) opens without InvalidGitRepositoryError *)
  git_repo_at : string -> Sys -> bool;
  (* os.access(path, os.X_OK) *)
  access_x_ok : string -> Sys -> bool;
  (* RELEASENOTES, built from the environment when the module is loaded *)
  RELEASENOTES : string
}.

(** ** The monad of methods

    A method of an object of type [O] reads and changes the process state
    and the object; it returns or raises.  The state it leaves behind is
    kept in both cases. *)

Record State (O : Type) : Type := mkState { sys : Sys; self : O }.
Arguments mkState {O} sys self.
Arguments sys {O} s.
Arguments self {O} s.

Definition M (O A : Type) : Type := State O -> result A * State O.

Section Monad.
Context {O : Type}.

Definition ret {A} (a : A) : M O A := fun s => (Returned a, s).
Definition raise {A} (e : exn) : M O A := fun s => (Raised e, s).
Definition bind {A B} (m : M O A) (k : A -> M O B) : M O B :=
  fun s => match m s with
           | (Returned a, s') => k a s'
           | (Raised e, s') => (Raised e, s')
           end.

(** [try: m except: h] with a bare [except]. *)
Definition try_except {A} (m h : M O A) : M O A :=
  fun s => match m s with
           | (Returned a, s') => (Returned a, s')
           | (Raised _, s') => h s'
           end.

Definition get_sys : M O Sys := fun s => (Returned (sys s), s).
Definition put_sys (w : Sys) : M O unit :=
  fun s => (Returned tt, mkState w (self s)).
Definition get_self : M O O := fun s => (Returned (self s), s).
Definition put_self (o : O) : M O unit :=
  fun s => (Returned tt, mkState (sys s) o).

End Monad.

Declare Scope method_scope.
Delimit Scope method_scope with method.
Notation "x <- m ;; k" := (bind m (fun x => k))
  (at level 100, m at next level, right associativity) : method_scope.
Notation "m ;;; k" := (bind m (fun _ => k))
  (at level 100, right associativity) : method_scope.
Open Scope method_scope.

Section Primitives.
Context {O : Type}.

(** [for x in l: body x]. *)
Fixpoint foreach {A} (l : list A) (body : A -> M O unit) : M O unit :=
  match l with
  | [] => ret tt
  | x :: l' => body x ;;; foreach l' body
  end.

Definition when (b : bool) (m : M O unit) : M O unit :=
  if b then m else ret tt.

(** *** os and shutil *)

Definition lookup_path (w : Sys) (p : string) : option node :=
  fs w !! resolve w p.

Definition os_path_exists (p : string) : M O bool :=
  w <- get_sys ;;
  ret (match lookup_path w p with Some _ => true | None => false end).

Definition os_path_isdir (p : string) : M O bool :=
  w <- get_sys ;;
  ret (match lookup_path w p with Some Dir => true | _ => false end).

Definition os_path_isfile (p : string) : M O bool :=
  w <- get_sys ;;
  ret (match lookup_path w p with Some (File _) => true | _ => false end).

Definition os_getcwd : M O string :=
  w <- get_sys ;; ret (cwd w).

Definition os_chdir (p : string) : M O unit :=
  w <- get_sys ;;
  match lookup_path w p with
  | Some Dir => put_sys (set_cwd (resolve w p) w)
  | Some (File _) => raise (NotADirectoryError p)
  | None => raise (FileNotFoundError p)
  end.

(** A new entry needs a free name in an existing directory. *)
Definition create_entry (p : string) (n : node) : M O unit :=
  w <- get_sys ;;
  let q := resolve w p in
  match fs w !! q with
  | Some _ => raise (FileExistsError p)
  | None =>
      match fs w !! Py.dirname q with
      | Some Dir => put_sys (set_fs (<[q := n]> (fs w)) w)
      | _ => raise (FileNotFoundError p)
      end
  end.

Definition os_mkdir (p : string) : M O unit := create_entry p Dir.
Definition os_mknod (p : string) : M O unit := create_entry p (File EmptyString).

Definition os_remove (p : string) : M O unit :=
  w <- get_sys ;;
  let q := resolve w p in
  match fs w !! q with
  | Some (File _) => put_sys (set_fs (delete q (fs w)) w)
  | Some Dir => raise (IsADirectoryError p)
  | None => raise (FileNotFoundError p)
  end.

(** [shutil.rmtree]: the directory and everything below it go. *)
Definition rmtree_fs (q : string) (m : gmap string node) : gmap string node :=
  filter (fun kv => negb (in_tree q kv.1) = true) m.

Definition shutil_rmtree (p : string) : M O unit :=
  w <- get_sys ;;
  let q := resolve w p in
  match fs w !! q with
  | Some Dir => put_sys (set_fs (rmtree_fs q (fs w)) w)
  | Some (File _) => raise (NotADirectoryError p)
  | None => raise (FileNotFoundError p)
  end.

(** [os.listdir]: the names directly below a directory. *)
Definition child_name (q k : string) : option string :=
  if under q k then
    let rest := Py.drop (String.length q + 1) k in
    if String.eqb (Py.basename rest) rest then Some rest else None
  else None.

Definition listdir_fs (q : string) (m : gmap string node) : list string :=
  omap (fun kv => child_name q kv.1) (map_to_list m).

Definition os_listdir (p : string) : M O (list string) :=
  w <- get_sys ;;
  let q := resolve w p in
  match fs w !! q with
  | Some Dir => ret (listdir_fs q (fs w))
  | Some (File _) => raise (NotADirectoryError p)
  | None => raise (FileNotFoundError p)
  end.

(** [open(p).read()], [open(p, 'w').write(c)], [open(p, 'a').write(c)]. *)
Definition read_file (p : string) : M O string :=
  w <- get_sys ;;
  match lookup_path w p with
  | Some (File c) => ret c
  | Some Dir => raise (IsADirectoryError p)
  | None => raise (FileNotFoundError p)
  end.

Definition store_file (p : string) (c : string) : M O unit :=
  w <- get_sys ;;
  let q := resolve w p in
  match fs w !! Py.dirname q with
  | Some Dir => put_sys (set_fs (<[q := File c]> (fs w)) w)
  | _ => raise (FileNotFoundError p)
  end.

Definition write_file (p : string) (c : string) : M O unit :=
  w <- get_sys ;;
  match lookup_path w p with
  | Some Dir => raise (IsADirectoryError p)
  | _ => store_file p c
  end.

Definition append_file (p : string) (c : string) : M O unit :=
  w <- get_sys ;;
  match lookup_path w p with
  | Some Dir => raise (IsADirectoryError p)
  | Some (File old) => store_file p (old +:+ c)
  | None => store_file p c
  end.

End Primitives.

(** ** Running external commands

    [utils.run_shell_cmd] is not part of the sources at hand; by its uses
    it runs a command line, returns what the command prints and raises
    when the command exits with a non-zero status.  The effect of a
    command on the process state is given here for the commands whose
    effect the programs rely on (checksum tools, curl, cp, patch); the
    other ones are answered by the oracles of [Env].  No command can
    change the working directory of the process that launched it. *)

Definition render (c : command) : string :=
  match c with
  | CmdChecksum tool file => tool +:+ " " +:+ file +:+ " |cut -d' ' -f1"
  | CmdCurl url savepath => "curl --fail --location -o " +:+ savepath +:+ " " +:+ url
  | CmdPatch patch => "patch -p1 < " +:+ patch
  | CmdCp flags src dst => "cp " +:+ flags +:+ " " +:+ src +:+ " " +:+ dst
  | CmdCpGlob src dst => "cp -r " +:+ src +:+ "/* " +:+ dst
  | CmdPrintFormat srcdir => "dpkg-source --print-format " +:+ srcdir
  | CmdGitRevList dir None => "cd " +:+ dir +:+ ";git rev-list --count HEAD ."
  | CmdGitRevList dir (Some base) =>
      "cd " +:+ dir +:+ ";git rev-list --count " +:+ base +:+ "..HEAD ."
  | CmdGitStatus dir => "cd " +:+ dir +:+ ";git status --porcelain . | wc -l"
  | CmdShell line => line
  end.

(** [cp -r src dst] on the tree: into [dst] when it is a directory, onto
    [dst] otherwise. *)
Definition cp_target (m : gmap string node) (src dst : string) : string :=
  match m !! dst with
  | Some Dir => Py.join dst (Py.basename src)
  | _ => dst
  end.

Definition copy_tree (src target : string) (m : gmap string node)
  : gmap string node :=
  foldr (fun kv acc =>
           if in_tree src kv.1
           then <[target +:+ Py.drop (String.length src) kv.1 := kv.2]> acc
           else acc)
        m (map_to_list m).

Definition cp_fs (src dst : string) (m : gmap string node)
  : option (gmap string node) :=
  let target := cp_target m src dst in
  match m !! Py.dirname target with
  | Some Dir =>
      match m !! src, m !! target with
      | None, _ => None
      | Some (File _), Some Dir => None
      | Some (File c), _ => Some (<[target := File c]> m)
      | Some Dir, Some (File _) => None
      | Some Dir, _ => Some (copy_tree src target m)
      end
  | _ => None
  end.

(** [cp -r src/* dst]: the shell expands the star to the entries of
    [src] whose name does not start with a dot. *)
Definition cp_glob_fs (src dst : string) (m : gmap string node)
  : option (gmap string node) :=
  match List.filter (fun n => negb (Py.startswith n ".")) (listdir_fs src m) with
  | [] => None
  | names =>
      foldl (fun acc n =>
               match acc with
               | Some m' => cp_fs (Py.join src n) dst m'
               | None => None
               end)
            (Some m) names
  end.

Section Shell.
Context (E : Env) {O : Type}.

(** A command that exits with a non-zero status. *)
Definition fail_cmd {A} (c : command) : M O A :=
  raise (shell_error E (render c)).

Definition commit_fs (c : command) (o : option (gmap string node)) : M O string :=
  match o with
  | Some m => w <- get_sys ;; put_sys (set_fs m w) ;;; ret EmptyString
  | None => fail_cmd c
  end.

(** What curl leaves at [savepath]: nothing when the place cannot be
    written. *)
Definition curl_store (w : Sys) (savepath body : string)
  : option (gmap string node) :=
  let q := resolve w savepath in
  match fs w !! Py.dirname q, fs w !! q with
  | Some Dir, Some Dir => None
  | Some Dir, _ => Some (<[q := File body]> (fs w))
  | _, _ => None
  end.

(** Modelled from the spec: [utils.run_shell_cmd], which both pipelines
    import and which is not under src/.  The spec's external process
    runner "runs an external command, captures stdout, raises on nonzero
    exit": the command is recorded, its output is the value, and a
    command that fails raises.  The spec does not say which exception
    that is: it is [shell_error]. *)
Definition run_shell_cmd (c : command) : M O string :=
  w0 <- get_sys ;;
  let w := log_cmd c w0 in
  put_sys w ;;;
  match c with
  | CmdChecksum tool file =>
      (* the status of the pipeline is that of cut: an unreadable file
         gives an empty output, not an error *)
      match lookup_path w file with
      | Some (File body) => ret (digest_of E tool body)
      | _ => ret EmptyString
      end
  | CmdCurl url savepath =>
      match curl_fetch E url w with
      | CurlOk body => commit_fs c (curl_store w savepath body)
      | CurlFail None => fail_cmd c
      | CurlFail (Some part) =>
          match curl_store w savepath part with
          | Some m => put_sys (set_fs m w) ;;; fail_cmd c
          | None => fail_cmd c
          end
      end
  | CmdPatch patch =>
      let '(ok, m) := patch_apply E patch w in
      put_sys (set_fs m w) ;;;
      if ok then ret EmptyString else fail_cmd c
  | CmdCp _ src dst =>
      commit_fs c (cp_fs (resolve w src) (resolve w dst) (fs w))
  | CmdCpGlob src dst =>
      commit_fs c (cp_glob_fs (resolve w src) (resolve w dst) (fs w))
  | CmdPrintFormat srcdir =>
      match print_format E srcdir w with
      | Some out => ret out
      | None => fail_cmd c
      end
  | CmdGitRevList dir base =>
      match git_rev_count E dir base w with
      | Some n => ret (Py.str_of_int (Z.of_N n))
      | None => fail_cmd c
      end
  | CmdGitStatus dir => ret (Py.str_of_int (Z.of_N (git_status_count E dir w)))
  | CmdShell line =>
      let '(out, m) := shell_other E line w in
      put_sys (set_fs m w) ;;;
      match out with
      | Some s => ret s
      | None => fail_cmd c
      end
  end.

(** [int(run_shell_cmd(c))] for the two counting commands, which print a
    natural number. *)
Definition run_count_cmd (c : command) : M O Z :=
  w0 <- get_sys ;;
  let w := log_cmd c w0 in
  put_sys w ;;;
  match c with
  | CmdGitRevList dir base =>
      match git_rev_count E dir base w with
      | Some n => ret (Z.of_N n)
      | None => fail_cmd c
      end
  | CmdGitStatus dir => ret (Z.of_N (git_status_count E dir w))
  | _ => raise (ValueError "invalid literal for int()")
  end.

End Shell.

(** ** Debian version strings

    [debian.debian_support.BaseVersion] belongs to python-debian, not to
    this repository.  It splits a version with the regular expression
    [^((?P<epoch>\d+):)?(?P<upstream_version>[A-Za-z0-9.+:~-]+?)(-(?P<debian_revision>[A-Za-z0-9+.~]+))?$]
    and refuses a colon in the upstream part when there is no epoch. *)

Module BaseVersion.

Definition between (lo hi : nat) (c : ascii) : bool :=
  let n := nat_of_ascii c in Nat.leb lo n && Nat.leb n hi.
Definition is_digit (c : ascii) : bool := between 48 57 c.
Definition is_alnum (c : ascii) : bool :=
  is_digit c || between 65 90 c || between 97 122 c.
Definition one_of (cs : string) (c : ascii) : bool :=
  existsb (Ascii.eqb c) (list_ascii_of_string cs).
Definition upstream_char (c : ascii) : bool := is_alnum c || one_of ".+:~-" c.
Definition revision_char (c : ascii) : bool := is_alnum c || one_of "+.~" c.

Definition all_chars (f : ascii -> bool) (s : string) : bool :=
  forallb f (list_ascii_of_string s).
Definition nonempty (s : string) : bool :=
  match s with EmptyString => false | String _ _ => true end.

Fixpoint span (f : ascii -> bool) (s : string) : string * string :=
  match s with
  | EmptyString => (EmptyString, EmptyString)
  | String c s' =>
      if f c then let '(a, b) := span f s' in (String c a, b)
      else (EmptyString, s)
  end.

(** The lazy upstream part followed by the optional revision: the
    revision is what follows the last hyphen, when that is a non-empty
    run of revision characters and something precedes the hyphen. *)
Definition upstream_and_revision (t : string) : option (string * option string) :=
  if nonempty t && all_chars upstream_char t then
    let '(tail_rev, head_rev) :=
      span (fun c => negb (Ascii.eqb c "-")) (String.rev t) in
    match head_rev with
    | String _ up_rev =>
        let tail := String.rev tail_rev in
        if nonempty tail && all_chars revision_char tail && nonempty up_rev
        then Some (String.rev up_rev, Some tail)
        else Some (t, None)
    | EmptyString => Some (t, None)
    end
  else None.

(** The dollar of the expression also matches before a final line feed. *)
Definition chop_newline (s : string) : string :=
  match String.rev s with
  | String c r => if Ascii.eqb c Py.LF then String.rev r else s
  | EmptyString => s
  end.

Record t : Type := mk {
  epoch : option string;
  upstream_version : string;
  debian_revision : option string
}.

Definition without_epoch (s : string) : result t :=
  match upstream_and_revision s with
  | Some (up, rev) =>
      if one_of up ":"%char then Raised (ValueError "Invalid version string")
      else Returned (mk None up rev)
  | None => Raised (ValueError "Invalid version string")
  end.

Definition parse (version : string) : result t :=
  let s := chop_newline version in
  let '(digits, rest) := span is_digit s in
  match digits, rest with
  | String _ _, String c rest' =>
      if Ascii.eqb c ":" then
        match upstream_and_revision rest' with
        | Some (up, rev) => Returned (mk (Some digits) up rev)
        | None => without_epoch s
        end
      else without_epoch s
  | _, _ => without_epoch s
  end.

End BaseVersion.

(** ** debrepack.py *)

Module Debrepack.

Record Versions : Type := mkVersions {
  full_version : string;
  upstream_version : string;
  debian_revision : option string;
  epoch : option string
}.

Record PkgInfo : Type := mkPkgInfo {
  pkgpath : string;
  pkgname : string;
  packdir : string;
  debfolder : string;
  pi_debname : string;
  srcdir : string
}.

(** The object [self] of class [Parser]. *)
Record Parser : Type := mkParser {
  basedir : string;
  output : string;
  srcrepo : option string;
  btype : string;
  strategy : string;
  meta_data : MetaData;
  versions : Versions;
  pkginfo : PkgInfo
}.

Definition with_meta_data (md : MetaData) (P : Parser) : Parser :=
  mkParser (basedir P) (output P) (srcrepo P) (btype P) (strategy P)
           md (versions P) (pkginfo P).
Definition with_versions (v : Versions) (P : Parser) : Parser :=
  mkParser (basedir P) (output P) (srcrepo P) (btype P) (strategy P)
           (meta_data P) v (pkginfo P).
Definition with_pkginfo (i : PkgInfo) (P : Parser) : Parser :=
  mkParser (basedir P) (output P) (srcrepo P) (btype P) (strategy P)
           (meta_data P) (versions P) i.
Definition with_debfolder (d : string) (P : Parser) : Parser :=
  let i := pkginfo P in
  with_pkginfo (mkPkgInfo (pkgpath i) (pkgname i) (packdir i) d
                          (pi_debname i) (srcdir i)) P.
Definition with_src_path (sp : option (option string)) (md : MetaData) : MetaData :=
  mkMetaData (debver md) (debname md) sp (src_files md) (revision md)
             (dl_files md) (dl_path md) (archive md) (dl_hook md).
Definition with_src_files (sf : option (list string)) (md : MetaData) : MetaData :=
  mkMetaData (debver md) (debname md) (src_path md) sf (revision md)
             (dl_files md) (dl_path md) (archive md) (dl_hook md).

Definition BTYPE : string := "@KERNEL_TYPE@".

(** [os.path.isabs] and [os.path.abspath] (the latter without the
    normalisation of dots and double slashes). *)
Definition isabs (p : string) : bool := Py.startswith p "/".
Definition abspath (w : Sys) (p : string) : string := resolve w p.

(** What ["%s" % x] prints for an optional string. *)
Definition str_of_option (o : option string) : string :=
  match o with Some s => s | None => "None" end.

(** [full_version.split(":")[-1]]: the version without its epoch. *)
Definition strip_epoch (v : string) : string :=
  List.last (Py.split ":" v) v.

Section Methods.
Context (E : Env).

Abbreviation M := (M Parser).

(** *** Module-level helpers *)

(** [checksum(dl_file, checksum, cmd, logger)] *)
Definition checksum (dl_file expected cmd : string) : M bool :=
  present <- os_path_exists dl_file ;;
  if negb present then ret false
  else
    check_sum <- run_shell_cmd E (CmdChecksum cmd dl_file) ;;
    if negb (String.eqb check_sum expected) then ret false
    else ret true.

(** [checksum_dsc(dsc_file, logger)] *)
Fixpoint checksum_dsc_members (base_dir : string) (l : list (string * string))
  : M bool :=
  match l with
  | [] => ret true
  | (name, sha256) :: l' =>
      ok <- checksum (Py.join base_dir name) sha256 "sha256sum" ;;
      if negb ok then ret false else checksum_dsc_members base_dir l'
  end.

Definition checksum_dsc (dsc_file : string) : M bool :=
  present <- os_path_exists dsc_file ;;
  if negb present then ret false
  else
    f <- read_file dsc_file ;;
    match dsc_checksums E f with
    | None => raise (KeyError "Checksums-Sha256")
    | Some members => checksum_dsc_members (Py.dirname dsc_file) members
    end.

(** [tar_cmd(tarball_name, logger)]: the three command lines, each
    waiting for its arguments. *)
Definition has_suffix (name suffix : string) : bool :=
  Py.endswith name suffix && Nat.ltb (String.length suffix) (String.length name).

Definition tar_cmd (tarball_name : string)
  : M ((string -> string) * (string -> string) * (string -> string -> string)) :=
  let mk (flag : string) :=
    (fun f => "tar " +:+ flag +:+ "xf " +:+ f +:+ " ",
     fun f => "tar " +:+ flag +:+ "tf " +:+ f +:+ " ",
     fun f d => "tar " +:+ flag +:+ "cf " +:+ f +:+ " " +:+ d +:+ " ") in
  if has_suffix tarball_name "tar.bz2" then ret (mk "--bzip2 -")
  else if has_suffix tarball_name "tar.xz" then ret (mk "--xz -")
  else if has_suffix tarball_name "tar.gz" || has_suffix tarball_name "tgz"
  then ret (fun f => "tar -xzf " +:+ f +:+ " ",
            fun f => "tar -tzf " +:+ f +:+ " ",
            fun f d => "tar -czf " +:+ f +:+ " " +:+ d +:+ " ")
  else raise (ValueError (tarball_name +:+ " type is not supported")).

(** [get_topdir(tarball_file, logger)] *)
Definition get_topdir (tarball_file : string) : M (option string) :=
  present <- os_path_exists tarball_file ;;
  if negb present then raise (IOError EmptyString)
  else
    cmds <- tar_cmd (Py.basename tarball_file) ;;
    let '(_, cmdx, _) := cmds in
    let field (n : string) :=
      cmdx tarball_file +:+ "| awk -F '/' '{print $" +:+ n +:+ "}' | sort | uniq" in
    topdir <- run_shell_cmd E (CmdShell (field "1")) ;;
    subdir <- run_shell_cmd E (CmdShell (field "2")) ;;
    match Py.split Py.LF topdir with
    | [top] => if negb (String.eqb subdir EmptyString) then ret (Some top)
               else ret None
    | _ => ret None
    end.

(** [download(url, savepath, logger)] *)
Definition download (url savepath : string) : M bool :=
  run_shell_cmd E (CmdCurl url savepath) ;;;
  ret true.

(** [is_git_repo(path)] *)
Definition is_git_repo (path : string) : M bool :=
  w <- get_sys ;; ret (git_repo_at E path w).

(** *** Parser.setup *)

Fixpoint setup_src_files (pkgpath_abs : string) (files : list string)
  : M unit :=
  match files with
  | [] => ret tt
  | src_file :: rest =>
      let src_path := expandvars E src_file in
      let src_path :=
        if negb (isabs src_path) then Py.join pkgpath_abs src_file
        else src_path in
      present <- os_path_exists src_path ;;
      if negb present then raise (IOError EmptyString)
      else
        P <- get_self ;;
        let md := meta_data P in
        put_self (with_meta_data
                    (with_src_files
                       (Some (default [] (src_files md) ++ [src_path])%list) md)
                    P) ;;;
        setup_src_files pkgpath_abs rest
  end.


Definition setup (pkgpath_arg : string) : M unit :=
  isd <- os_path_isdir pkgpath_arg ;;
  if negb isd
  then raise (Exception (pkgpath_arg +:+ ": No such file or directory"))
  else
  w <- get_sys ;;
  P <- get_self ;;
  let pkgpath_abs := abspath w pkgpath_arg in
  let name := package_dir_to_package_name E pkgpath_arg in
  let pack := Py.join (basedir P) name in
  let deb := Py.join pkgpath_abs "debian" in
  put_self (with_pkginfo
              (mkPkgInfo pkgpath_abs name pack deb
                         (pi_debname (pkginfo P)) (srcdir (pkginfo P))) P) ;;;
  isd <- os_path_isdir deb ;;
  if negb isd then raise (Exception "No debian folder")
  else
  let meta_file := Py.join deb "meta_data.yaml" in
  present <- os_path_exists meta_file ;;
  if negb present then raise (Exception "Not find meta_data.yaml")
  else
  f <- read_file meta_file ;;
  let md := yaml_full_load E f in
  P <- get_self ;;
  put_self (with_meta_data md P) ;;;
  match debver md with
  | None => raise (Exception "No debver defined in meta_data.yaml")
  | Some ver =>
      let dname := match debname md with Some n => n | None => name end in
      P <- get_self ;;
      put_self (with_pkginfo
                  (mkPkgInfo pkgpath_abs name pack deb dname
                             (srcdir (pkginfo P))) P) ;;;
      (match src_path md with
       | Some (Some src_dirname) =>
           let sp := expandvars E src_dirname in
           if negb (isabs sp) then
             let sp := abspath w (Py.join pkgpath_abs src_dirname) in
             present <- os_path_exists sp ;;
             if negb present
             then raise (ValueError (sp +:+ ": No such directory"))
             else P <- get_self ;;
                  put_self (with_meta_data
                              (with_src_path (Some (Some sp)) (meta_data P)) P)
           else P <- get_self ;;
                put_self (with_meta_data
                            (with_src_path (Some (Some sp)) (meta_data P)) P)
       | _ => ret tt
       end) ;;;
      (match src_files md with
       | Some files =>
           P <- get_self ;;
           put_self (with_meta_data (with_src_files (Some []) (meta_data P)) P) ;;;
           setup_src_files pkgpath_abs files
       | None => ret tt
       end) ;;;
      match BaseVersion.parse ver with
      | Raised e => raise e
      | Returned bv =>
          let up := BaseVersion.upstream_version bv in
          P <- get_self ;;
          let P := with_versions
                     (mkVersions ver up (BaseVersion.debian_revision bv)
                                 (BaseVersion.epoch bv)) P in
          put_self (with_pkginfo
                      (mkPkgInfo pkgpath_abs name pack deb dname
                                 (Py.join pack (dname +:+ "-" +:+ up))) P)
      end
  end.

(** [os.walk(root)] as far as the loops below use it: the files found
    below [root], each with its full path. *)
Definition walk_files (root : string) : M (list string) :=
  w <- get_sys ;;
  let r := resolve w root in
  ret (omap (fun kv => match kv.2 with
                       | File _ => if under r kv.1 then Some kv.1 else None
                       | Dir => None
                       end)
            (map_to_list (fs w))).

(** *** Parser.set_build_type *)
Definition set_build_type : M unit :=
  P <- get_self ;;
  let local_debian := Py.join (packdir (pkginfo P)) "local_debian" in
  run_shell_cmd E (CmdCp "-r" (debfolder (pkginfo P)) local_debian) ;;;
  (* clean @KERNEL_TYPE@ if build type is std *)
  let bt := if String.eqb (btype P) "std" then EmptyString
            else "-" +:+ btype P in
  files <- walk_files local_debian ;;
  foreach files (fun name =>
    run_shell_cmd E (CmdShell ("sed -i s#" +:+ BTYPE +:+ "#" +:+ bt +:+ "#g " +:+ name)) ;;;
    ret tt) ;;;
  P <- get_self ;;
  put_self (with_debfolder local_debian P).

(** *** Parser.set_revision *)

(** The commits that touch a directory, since a base revision when one
    is given, and the lines of [git status --porcelain] there. *)
Definition count_commits_and_changes (dir : string) (base : option string)
    (rev : Z) : M Z :=
  n <- run_count_cmd E (CmdGitRevList dir base) ;;
  d <- run_count_cmd E (CmdGitStatus dir) ;;
  ret (rev + n + d)%Z.

(** The four blocks that add to the variable [revision], in the order of
    the source. *)
Definition add_pkg_gitrevcount (rd : RevisionData) (rev : Z) : M Z :=
  if PKG_GITREVCOUNT rd then
    P <- get_self ;;
    count_commits_and_changes (debfolder (pkginfo P)) (PKG_BASE_SRCREV rd) rev
  else ret rev.

Definition add_src_gitrevcount (rd : RevisionData) (rev : Z) : M Z :=
  match SRC_GITREVCOUNT rd with
  | Some src_gitrevcount =>
      P <- get_self ;;
      match src_path (meta_data P) with
      | None =>
          raise (Exception ("SRC_GITREVCOUNT is set, but no " +:+ Py.dquote
                            +:+ "src_path" +:+ Py.dquote +:+ " in meta_data.yaml"))
      | Some sp =>
          count_commits_and_changes (str_of_option sp)
                                    (SRC_BASE_SRCREV src_gitrevcount) rev
      end
  | None => ret rev
  end.

Definition add_gitrevcount (rd : RevisionData) (rev : Z) : M Z :=
  match GITREVCOUNT rd with
  | Some gitrevcount =>
      match SRC_DIR gitrevcount, BASE_SRCREV gitrevcount with
      | None, _ => raise (Exception "Not set SRC_DIR in GITREVCOUNT")
      | Some _, None => raise (Exception "Not set BASE_SRCREV in GITREVCOUNT")
      | Some dir, Some base =>
          count_commits_and_changes (expandvars E dir) (Some base) rev
      end
  | None => ret rev
  end.

Definition add_stx_patch (rd : RevisionData) (rev : Z) : M Z :=
  match stx_patch rd with
  | Some (YInt n) => ret (rev + n)%Z
  | Some _ =>
      raise (Exception "The stx_patch in meta_data.yaml is not an int value")
  | None => ret rev
  end.

(** The integer accumulated in the variable [revision]. *)
Definition revision_count (rd : RevisionData) : M Z :=
  let rev := 0%Z in
  rev <- add_pkg_gitrevcount rd rev ;;
  rev <- add_src_gitrevcount rd rev ;;
  rev <- add_gitrevcount rd rev ;;
  add_stx_patch rd rev.

(** The directories whose commits and changes are counted. *)
Definition counted_paths (P : Parser) (rd : RevisionData) : list string :=
  ((if PKG_GITREVCOUNT rd then [debfolder (pkginfo P)] else [])
   ++ match SRC_GITREVCOUNT rd, src_path (meta_data P) with
      | Some _, Some sp => [str_of_option sp]
      | _, _ => []
      end
   ++ match GITREVCOUNT rd with
      | Some g => match SRC_DIR g with
                  | Some dir => [expandvars E dir]
                  | None => []
                  end
      | None => []
      end)%list.

(** The distribution tag: empty unless [dist] is there and not null. *)
Definition revision_dist (rd : RevisionData) : string :=
  match rd_dist rd with
  | Some (Some d) => expandvars E d
  | _ => EmptyString
  end.

Definition set_revision : M string :=
  P <- get_self ;;
  match revision (meta_data P) with
  | None => ret EmptyString
  | Some revision_data =>
      (* reset the debfolder *)
      put_self (with_debfolder (Py.join (pkgpath (pkginfo P)) "debian") P) ;;;
      let dist := revision_dist revision_data in
      rev <- revision_count revision_data ;;
      ret (dist +:+ "." +:+ Py.str_of_int rev)
  end.


(** *** Parser.set_deb_format *)

(** [re.match("1.0", s)]: a 1, any character but a line feed, a 0. *)
Definition matches_1_0 (s : string) : bool :=
  match s with
  | String a (String b (String c _)) =>
      Ascii.eqb a "1" && negb (Ascii.eqb b Py.LF) && Ascii.eqb c "0"
  | _ => false
  end.

(** What [set_deb_format] makes of the line that dpkg-source prints. *)
Definition parse_deb_format (deb_format : string) : result (string * option string) :=
  if matches_1_0 deb_format then Returned ("1.0", None)
  else
    match Py.split " " deb_format with
    | [format_ver; format_type] =>
        Returned (Py.strip format_ver, Some (Py.strip_set "()" format_type))
    | [_] => Raised (ValueError "not enough values to unpack (expected 2, got 1)")
    | _ => Raised (ValueError "too many values to unpack (expected 2)")
    end.

Definition set_deb_format : M (string * option string) :=
  P <- get_self ;;
  deb_format <- run_shell_cmd E (CmdPrintFormat (srcdir (pkginfo P))) ;;
  match parse_deb_format deb_format with
  | Returned fmt => ret fmt
  | Raised e => raise e
  end.

(** A line of a series file that the loops pass over: a comment or a
    blank line. *)
Definition skipped (patch_file : string) : bool :=
  Py.startswith patch_file "#" || String.eqb patch_file EmptyString.

(** *** Parser.update_deb_folder *)
Definition update_deb_folder : M bool :=
  P <- get_self ;;
  let metadata := Py.join (debfolder (pkginfo P)) "deb_folder" in
  isd <- os_path_isdir metadata ;;
  if negb isd then ret true
  else
  let deb_folder := Py.join (srcdir (pkginfo P)) "debian" in
  present <- os_path_exists deb_folder ;;
  when (negb present) (os_mkdir deb_folder) ;;;
  run_shell_cmd E (CmdCpGlob metadata deb_folder) ;;;
  let series := Py.join metadata "patches/series" in
  isf <- os_path_isfile series ;;
  if negb isf then ret true
  else
  fmt <- set_deb_format ;;
  let '(format_ver, format_type) := fmt in
  if match format_type with
     | Some ty => String.eqb ty "quilt" && String.eqb format_ver "3.0"
     | None => false
     end
  then ret true
  else
  f <- read_file series ;;
  let patches := Py.readlines f in
  let patches_src := Py.dirname series in
  pwd <- os_getcwd ;;
  os_chdir (srcdir (pkginfo P)) ;;;
  foreach patches (fun patch =>
    let patch_file := Py.strip patch in
    (* Skip comment lines and blank lines *)
    if skipped patch_file then ret tt
    else
      let patch := Py.join patches_src patch_file in
      run_shell_cmd E (CmdPatch patch) ;;; ret tt) ;;;
  os_chdir pwd ;;;
  ret true.

(** *** Parser.apply_src_patches *)

(** The body of the loop for a line that is not passed over. *)
Definition apply_src_patch (format_ver : string) (format_type : option string)
    (patches_src patches_folder series_file patch_file : string) : M unit :=
  let patch := Py.join patches_src patch_file in
  if String.eqb format_ver "1.0" then
    run_shell_cmd E (CmdPatch patch) ;;; ret tt
  else
    match format_type with
    | Some ty =>
        if String.eqb ty "quilt" then
          run_shell_cmd E (CmdCp "-r" patch patches_folder) ;;;
          append_file series_file (patch_file +:+ Py.nl)
        else if String.eqb ty "native" then
          run_shell_cmd E (CmdPatch patch) ;;; ret tt
        else
          raise (Exception ("[ Invalid deb format: " +:+ format_ver +:+ " "
                            +:+ ty +:+ " ]"))
    | None =>
        raise (Exception ("[ Invalid deb format: " +:+ format_ver
                          +:+ " None ]"))
    end.

Definition apply_src_patches : M bool :=
  fmt <- set_deb_format ;;
  let '(format_ver, format_type) := fmt in
  P <- get_self ;;
  let series := Py.join (debfolder (pkginfo P)) "patches/series" in
  isf <- os_path_isfile series ;;
  if negb isf then ret true
  else
  f <- read_file series ;;
  let patches := Py.readlines f in
  let patches_src := Py.dirname series in
  let patches_folder := Py.join (srcdir (pkginfo P)) "debian/patches" in
  let series_file := Py.join (srcdir (pkginfo P)) "debian/patches/series" in
  isd <- os_path_isdir patches_folder ;;
  when (negb isd) (os_mkdir patches_folder ;;; os_mknod series_file) ;;;
  pwd <- os_getcwd ;;
  os_chdir (srcdir (pkginfo P)) ;;;
  foreach patches (fun patch =>
    let patch_file := Py.strip patch in
    (* Skip comment lines and blank lines *)
    if skipped patch_file then ret tt
    else apply_src_patch format_ver format_type patches_src patches_folder
                         series_file patch_file) ;;;
  os_chdir pwd ;;;
  ret true.

(** *** Parser.apply_deb_patches *)
Definition apply_deb_patches : M bool :=
  P <- get_self ;;
  let series := Py.join (debfolder (pkginfo P)) "deb_patches/series" in
  isf <- os_path_isfile series ;;
  if negb isf then ret true
  else
  f <- read_file series ;;
  let patches := Py.readlines f in
  let patches_src := Py.dirname series in
  pwd <- os_getcwd ;;
  os_chdir (srcdir (pkginfo P)) ;;;
  foreach patches (fun patch =>
    let patch_file := Py.strip patch in
    (* Skip comment lines and blank lines *)
    if skipped patch_file then ret tt
    else
      let patch := Py.join patches_src patch_file in
      run_shell_cmd E (CmdPatch patch) ;;; ret tt) ;;;
  os_chdir pwd ;;;
  ret true.


(** *** Parser.copy_custom_files *)
Definition copy_custom_files : M bool :=
  P <- get_self ;;
  let src := srcdir (pkginfo P) in
  (match src_files (meta_data P) with
   | Some files =>
       foreach files (fun src_file =>
         run_shell_cmd E (CmdCp "-rL" src_file src) ;;; ret tt)
   | None => ret tt
   end) ;;;
  (match dl_files (meta_data P) with
   | Some entries =>
       pwd <- os_getcwd ;;
       os_chdir (packdir (pkginfo P)) ;;;
       foreach entries (fun entry =>
         let '(dl_file, info) := entry in
         let dir_name := dl_topdir info in
         let dl_path := Py.join (packdir (pkginfo P)) dl_file in
         present <- os_path_exists dl_path ;;
         if negb present then raise (IOError EmptyString)
         else
           (match dir_name with
            | Some dir_name =>
                cmds <- tar_cmd dl_path ;;
                let '(cmd, _, cmdc) := cmds in
                top <- get_topdir dl_path ;;
                let cmd := fun f d =>
                  match top with
                  | Some _ => cmd f +:+ "--strip-components 1 -C " +:+ d
                  | None => cmd f +:+ "-C " +:+ d
                  end in
                run_shell_cmd E (CmdShell ("mkdir -p " +:+ dir_name)) ;;;
                run_shell_cmd E (CmdShell (cmd dl_path dir_name)) ;;;
                run_shell_cmd E (CmdShell (cmdc dl_path dir_name)) ;;;
                ret tt
            | None => ret tt
            end) ;;;
           run_shell_cmd E (CmdCp "-rL" dl_path src) ;;; ret tt) ;;;
       os_chdir pwd
   | None => ret tt
   end) ;;;
  let files := Py.join (debfolder (pkginfo P)) "files" in
  isd <- os_path_isdir files ;;
  present <- os_path_exists files ;;
  if negb isd || negb present then ret true
  else
    names <- walk_files files ;;
    foreach names (fun name =>
      run_shell_cmd E (CmdCp "-rL" name src) ;;; ret tt) ;;;
    ret true.

(** *** Parser.create_orig_tarball *)
Definition create_orig_tarball : M unit :=
  P <- get_self ;;
  let src := srcdir (pkginfo P) in
  present <- os_path_exists src ;;
  if negb present then raise (ValueError (src +:+ ": no such directory"))
  else
  let plain_tar :=
    let srcname := Py.basename src in
    let origtargz := pi_debname (pkginfo P) +:+ "_"
                     +:+ upstream_version (versions P) +:+ ".orig.tar.gz" in
    run_shell_cmd E (CmdShell ("cd " +:+ packdir (pkginfo P) +:+ "; tar czf "
                               +:+ origtargz +:+ " " +:+ srcname)) ;;;
    ret tt in
  git <- is_git_repo src ;;
  if git then
    let debian_folder := Py.join src "debian" in
    has_debian <- os_path_exists debian_folder ;;
    if has_debian then
      run_shell_cmd E (CmdShell ("cd " +:+ src
                                 +:+ "; gbp export-orig --upstream-tree=HEAD")) ;;;
      ret tt
    else
      (* remove .git directory *)
      run_shell_cmd E (CmdShell ("rm -rf " +:+ Py.join src ".git")) ;;;
      plain_tar
  else plain_tar.

(** *** Parser.extract_tarball *)
Definition extract_tarball : M bool :=
  P <- get_self ;;
  match dl_path (meta_data P) with
  | None => raise (KeyError "dl_path")
  | Some dp =>
      let tarball_name := dp_name dp in
      let tarball_file := Py.join (packdir (pkginfo P)) tarball_name in
      cmds <- tar_cmd tarball_name ;;
      let '(cmd, _, _) := cmds in
      top <- get_topdir tarball_file ;;
      let cmd := fun f d =>
        match top with
        | Some _ => cmd f +:+ "--strip-components 1 -C " +:+ d
        | None => cmd f +:+ "-C " +:+ d
        end in
      os_mkdir (srcdir (pkginfo P)) ;;;
      run_shell_cmd E (CmdShell (cmd tarball_file (srcdir (pkginfo P)))) ;;;
      copy_custom_files ;;;
      create_orig_tarball ;;;
      update_deb_folder ;;;
      apply_deb_patches ;;;
      ret true
  end.

(** *** Parser.upload_deb_package *)
Definition upload_deb_package : M bool :=
  P <- get_self ;;
  (* strip epoch *)
  let ver := strip_epoch (full_version (versions P)) in
  let dsc_file := Py.join (packdir (pkginfo P))
                          (pi_debname (pkginfo P) +:+ "_" +:+ ver +:+ ".dsc") in
  run_shell_cmd E (CmdShell ("repo_manage.py upload_pkg -p " +:+ dsc_file
                             +:+ "  -r " +:+ str_of_option (srcrepo P))) ;;;
  ret true.

(** *** Parser.create_src_package *)
Definition create_src_package : M bool :=
  P <- get_self ;;
  match src_path (meta_data P) with
  | None => raise (KeyError "src_path")
  | Some sp =>
      (match sp with
       | None => os_mkdir (srcdir (pkginfo P))
       | Some sp =>
           (* cp the .git folder, the git meta files in .git are symbol
              link, so need -L *)
           run_shell_cmd E (CmdCp "-rL" sp (srcdir (pkginfo P))) ;;; ret tt
       end) ;;;
      copy_custom_files ;;;
      create_orig_tarball ;;;
      update_deb_folder ;;;
      ret true
  end.

(** *** Parser.run_dl_hook *)
Definition run_dl_hook : M unit :=
  P <- get_self ;;
  match dl_hook (meta_data P) with
  | None => raise (KeyError "dl_hook")
  | Some hook =>
      let hook := if negb (isabs hook)
                  then Py.join (debfolder (pkginfo P)) hook else hook in
      present <- os_path_exists hook ;;
      if negb present then raise (ValueError (hook +:+ " doesn't exist"))
      else
      run_shell_cmd E (CmdCp "-r" hook (packdir (pkginfo P))) ;;;
      pwd <- os_getcwd ;;
      os_chdir (packdir (pkginfo P)) ;;;
      w <- get_sys ;;
      if negb (access_x_ok E (resolve w "dl_hook") w)
      then raise (ValueError "dl_hook can't execute")
      else
      run_shell_cmd E (CmdShell ("./dl_hook " +:+ Py.basename (srcdir (pkginfo P)))) ;;;
      let origtar := pkgname (pkginfo P) +:+ "_" +:+ upstream_version (versions P) in
      let origtargz := origtar +:+ ".orig.tar.gz" in
      let origtarxz := origtar +:+ ".orig.tar.xz" in
      has_gz <- os_path_exists origtargz ;;
      has_xz <- os_path_exists origtarxz ;;
      when (negb has_gz && negb has_xz) create_orig_tarball ;;;
      os_chdir pwd ;;;
      update_deb_folder ;;;
      apply_deb_patches ;;;
      ret tt
  end.


(** *** Parser.download *)

(** The fetch of one entry.  The source writes these lines twice, for
    an entry of [dl_files] and for [dl_path]; the two copies differ in
    the text of the final error only. *)
Definition declared_digest (sha256sum md5sum : option string)
  : option (string * string) :=
  match sha256sum, md5sum with
  | Some sum, _ => Some ("sha256sum", sum)
  | None, Some sum => Some ("md5sum", sum)
  | None, None => None
  end.

(** The download proper: the primary address, and the alternate one
    when there is one and the primary raises. *)
Definition download_phase (dl_url : string) (alt_dl_url : option string)
    (dl_file : string) : M bool :=
  if Py.truthy alt_dl_url then
    try_except (download dl_url dl_file)
               (download (default EmptyString alt_dl_url) dl_file)
  else download dl_url dl_file.

(** The check that follows the download. *)
Definition verify_download (dl_file check_sum check_cmd failure : string)
  : M unit :=
  ok <- checksum dl_file check_sum check_cmd ;;
  if negb ok then raise (Exception (failure +:+ dl_file))
  else ret tt.

Definition fetch_entry (dl_file url : string)
    (sha256sum md5sum : option string) (failure : string) : M unit :=
  P <- get_self ;;
  match declared_digest sha256sum md5sum with
  | None => raise (KeyError "md5sum")
  | Some (check_cmd, check_sum) =>
      ok <- checksum dl_file check_sum check_cmd ;;
      if negb ok then
        let '(dl_url, alt_dl_url) := get_download_url E url (strategy P) in
        download_phase dl_url alt_dl_url dl_file ;;;
        verify_download dl_file check_sum check_cmd failure
      else ret tt
  end.

(** [dget -d] on the primary address, then on the alternate one. *)
Definition dget (url : string) : M unit :=
  P <- get_self ;;
  let '(dl_url, alt_dl_url) := get_download_url E url (strategy P) in
  if Py.truthy alt_dl_url then
    try_except (run_shell_cmd E (CmdShell ("dget -d " +:+ dl_url)) ;;; ret tt)
               (run_shell_cmd E (CmdShell ("dget -d " +:+ default EmptyString alt_dl_url)) ;;;
                ret tt)
  else run_shell_cmd E (CmdShell ("dget -d " +:+ dl_url)) ;;; ret tt.

Definition Parser_download (pkgpath_arg mirror : string) : M unit :=
  setup pkgpath_arg ;;;
  present <- os_path_exists mirror ;;
  if negb present then raise (ValueError ("No such " +:+ mirror +:+ " directory"))
  else
  P <- get_self ;;
  let saveto := Py.join mirror (pkgname (pkginfo P)) in
  present <- os_path_exists saveto ;;
  when (negb present) (os_mkdir saveto) ;;;
  pwd <- os_getcwd ;;
  os_chdir saveto ;;;
  (match dl_files (meta_data P) with
   | Some entries =>
       foreach entries (fun entry =>
         let '(dl_file, info) := entry in
         fetch_entry dl_file (dl_url info) (dl_sha256sum info) (dl_md5sum info)
                     "Fail to download ")
   | None => ret tt
   end) ;;;
  let dsc_filename :=
    pi_debname (pkginfo P) +:+ "_" +:+ strip_epoch (full_version (versions P))
    +:+ ".dsc" in
  match dl_path (meta_data P), archive (meta_data P) with
  | Some dp, _ =>
      fetch_entry (dp_name dp) (dp_url dp) (dp_sha256sum dp) (dp_md5sum dp)
                  "Failed to download " ;;;
      os_chdir pwd
  | None, Some arch =>
      ok <- checksum_dsc dsc_filename ;;
      when (negb ok) (dget (Py.join arch dsc_filename)) ;;;
      os_chdir pwd
  | None, None =>
      match src_path (meta_data P), dl_hook (meta_data P) with
      | None, None =>
          ok <- checksum_dsc dsc_filename ;;
          if ok then os_chdir pwd
          else
            let fullname := pi_debname (pkginfo P) +:+ "="
                            +:+ full_version (versions P) in
            if negb (existsb (String.eqb (full_version (versions P)))
                             (apt_source_versions E (pi_debname (pkginfo P))))
            then raise (ValueError ("No source for " +:+ fullname))
            else
              run_shell_cmd E (CmdShell ("apt-get source -d " +:+ fullname)) ;;;
              (match srcrepo P with
               | Some _ => upload_deb_package ;;; ret tt
               | None => ret tt
               end) ;;;
              os_chdir pwd
      | _, _ => os_chdir pwd
      end
  end.

(** *** Parser.package *)

(** The first lines of [package]: the working directory of the package
    is emptied. *)
Definition reset_packdir : M unit :=
  P <- get_self ;;
  present <- os_path_exists (packdir (pkginfo P)) ;;
  when present (shutil_rmtree (packdir (pkginfo P))) ;;;
  os_mkdir (packdir (pkginfo P)).

(** The branch on the origin of the sources. *)
Definition resolve_origin : M unit :=
  P <- get_self ;;
  match dl_hook (meta_data P), dl_path (meta_data P), src_path (meta_data P) with
  | Some _, _, _ => run_dl_hook
  | None, Some _, _ => extract_tarball ;;; ret tt
  | None, None, Some _ => create_src_package ;;; ret tt
  | None, None, None =>
      let ver := strip_epoch (full_version (versions P)) in
      let dsc_filename := pi_debname (pkginfo P) +:+ "_" +:+ ver +:+ ".dsc" in
      let dsc_file := Py.join (packdir (pkginfo P)) dsc_filename in
      present <- os_path_exists dsc_file ;;
      if negb present then raise (IOError EmptyString)
      else
        run_shell_cmd E (CmdShell ("cd " +:+ packdir (pkginfo P)
                                   +:+ ";dpkg-source -x " +:+ dsc_filename)) ;;;
        apply_deb_patches ;;; ret tt
  end.

(** What [package] does between the reset of the working directory and
    the branch on the origin: the build type, the log file, the copy of
    the mirror. *)
Definition prepare_packdir (mirror : string) : M unit :=
  set_build_type ;;;
  P <- get_self ;;
  let logfile := Py.join (packdir (pkginfo P)) (pkgname (pkginfo P) +:+ ".log") in
  present <- os_path_exists logfile ;;
  when present (os_remove logfile) ;;;
  write_file logfile EmptyString ;;;
  present <- os_path_exists mirror ;;
  if negb present then raise (ValueError ("No such " +:+ mirror +:+ " directory"))
  else
    let sources := Py.join mirror (pkgname (pkginfo P)) in
    present <- os_path_exists sources ;;
    when present (run_shell_cmd E (CmdCp "-r" sources (basedir P)) ;;; ret tt).

(** The command that writes the new entry of the changelog. *)
Definition dch_command (src_dir ver notes : string) : command :=
  CmdShell ("cd " +:+ src_dir +:+ "; dch -p -D bullseye -v " +:+ ver +:+ " " +:+ notes).

Definition parsechangelog_command (changelog field : string) : command :=
  CmdShell ("dpkg-parsechangelog -l " +:+ changelog +:+ " --show-field " +:+ field).

(** The new entry of the changelog: the source name and the version are
    read from the changelog of the tree, the revision suffix is added to
    the version.  The value is the source name and the new version. *)
Definition update_changelog : M (string * string) :=
  P <- get_self ;;
  let src_dir := srcdir (pkginfo P) in
  let changelog := Py.join src_dir "debian/changelog" in
  src <- run_shell_cmd E (parsechangelog_command changelog "source") ;;
  ver <- run_shell_cmd E (parsechangelog_command changelog "version") ;;
  suffix <- set_revision ;;
  let ver := ver +:+ suffix in
  run_shell_cmd E (dch_command src_dir ver (RELEASENOTES E)) ;;;
  ret (src, ver).

(** The rest of [package]: the changelog, the source package, the
    harvest of the files the .dsc lists. *)
Definition repackage : M (list string) :=
  P <- get_self ;;
  let src_dir := srcdir (pkginfo P) in
  changed <- update_changelog ;;
  let '(src, ver) := changed in
  (* strip epoch *)
  let ver := strip_epoch ver in
  (* Skip building(-S) and skip checking dependence(-d) *)
  run_shell_cmd E (CmdShell ("cd " +:+ src_dir
                             +:+ "; dpkg-buildpackage -nc -us -uc -S -d")) ;;;
  let dsc_file := src +:+ "_" +:+ ver +:+ ".dsc" in
  c <- read_file (Py.join (packdir (pkginfo P)) dsc_file) ;;
  match dsc_files E c with
  | None => raise (KeyError "Files")
  | Some names =>
  let files := dsc_file :: names in
  foreach files (fun f =>
    let source := Py.join (packdir (pkginfo P)) f in
    run_shell_cmd E (CmdCp "-Lr" source (output P)) ;;; ret tt) ;;;
  ret files
  end.

(** What [package] does once [setup] has returned. *)
Definition assemble_package (mirror : string) : M (list string) :=
  reset_packdir ;;;
  prepare_packdir mirror ;;;
  resolve_origin ;;;
  apply_src_patches ;;;
  repackage.

Definition package (pkgpath_arg mirror : string) : M (list string) :=
  setup pkgpath_arg ;;;
  assemble_package mirror.

(** *** Parser.dummy_package *)
Definition dummy_package (pkgfiles : list string) (pkgname pkgver : string)
  : M (list string) :=
  foreach pkgfiles (fun pfile =>
    present <- os_path_exists pfile ;;
    if negb present then raise (IOError ("No such " +:+ pfile +:+ " file"))
    else ret tt) ;;;
  P <- get_self ;;
  let packdir := Py.join (basedir P) pkgname in
  present <- os_path_exists packdir ;;
  when present (shutil_rmtree packdir) ;;;
  os_mkdir packdir ;;;
  match BaseVersion.parse pkgver with
  | Raised e => raise e
  | Returned bv =>
      let upstream_version := BaseVersion.upstream_version bv in
      let srcdir := pkgname +:+ "-" +:+ upstream_version in
      let tarfile := srcdir +:+ ".tar.gz" in
      pwd <- os_getcwd ;;
      os_chdir packdir ;;;
      foreach pkgfiles (fun pfile =>
        run_shell_cmd E (CmdShell ("mkdir -p " +:+ srcdir +:+ "; cp " +:+ pfile
                                   +:+ " " +:+ srcdir)) ;;;
        ret tt) ;;;
      run_shell_cmd E (CmdShell ("tar czvf " +:+ tarfile +:+ " " +:+ srcdir
                                 +:+ "; rm -rf " +:+ srcdir)) ;;;
      run_shell_cmd E (CmdShell ("debmake -a " +:+ tarfile)) ;;;
      run_shell_cmd E (dch_command srcdir pkgver (RELEASENOTES E)) ;;;
      run_shell_cmd E (CmdShell ("cd " +:+ srcdir
                                 +:+ "; dpkg-buildpackage -nc -us -uc -S -d")) ;;;
      (* strip epoch *)
      let ver := strip_epoch pkgver in
      let dsc_file := pkgname +:+ "_" +:+ ver +:+ ".dsc" in
      c <- read_file dsc_file ;;
      os_chdir pwd ;;;
      match dsc_files E c with
      | None => raise (KeyError "Files")
      | Some names =>
          ret (Py.join packdir dsc_file
               :: List.map (fun name => Py.join packdir name) names)
      end
  end.

End Methods.
End Debrepack.

(** ** patch_builder.py *)

Module PatchBuilder.

(** What [metadata.PatchMetadata] keeps of the recipe. *)
Record PatchMetadata : Type := mkPatchMetadata {
  patch_id : string;
  stx_packages : list string;
  binary_packages : list string;
  pre_install : option string;
  post_install : option string;
  reboot_required : string;
  debs : list string
}.

(** The object [self] of class [PatchBuilder]; [output_dir] is that of
    its [fetch_debs] member. *)
Record Builder : Type := mkBuilder {
  metadata : PatchMetadata;
  output_dir : string;
  patch_name : string
}.

Definition append_deb (file : string) (B : Builder) : Builder :=
  let md := metadata B in
  mkBuilder (mkPatchMetadata (patch_id md) (stx_packages md) (binary_packages md)
                             (pre_install md) (post_install md)
                             (reboot_required md) (debs md ++ [file])%list)
            (output_dir B) (patch_name B).

(** The collaborators of the patch builder that live outside the file. *)
Record Tools : Type := mkTools {
  (* int(hashlib.md5(content).hexdigest(), 16) *)
  md5_int : string -> Z;
  (* FetchDebs.fetch_stx_packages and fetch_external_binaries: whether
     they return, and the tree they leave *)
  fetch_stx_packages : Builder -> Sys -> bool * gmap string node;
  fetch_external_binaries : Builder -> Sys -> bool * gmap string node;
  (* tempfile.mkdtemp(prefix=...): the name of the new directory *)
  mkdtemp : string -> Sys -> string;
  (* the bytes of a tar archive made of the given members of the tree *)
  tar_archive : list string -> Sys -> string;
  (* the members of the data.tar.xz found in a directory: names and
     contents *)
  tar_members : string -> list (string * string);
  (* ar -x deb, run in a directory: its success and the tree it leaves *)
  ar_extract : string -> string -> Sys -> bool * gmap string node;
  (* PatchMetadata.generate_patch_metadata: the text of metadata.xml *)
  generate_patch_metadata : PatchMetadata -> string;
  (* signing.patch_signing.sign_files: the detached signature and
     need_resign_with_formal, or a failure *)
  sign_files : list string -> Sys -> option (string * bool);
  (* PATCH_OUTPUT, built from the environment when the module is loaded *)
  PATCH_OUTPUT : string
}.

(** Patch signature files *)
Definition detached_signature_file : string := "signature.v2".
Definition mdsum_signature_file : string := "signature".

(** Default names for every script type *)
Definition PATCH_SCRIPTS (key : string) : option string :=
  if String.eqb key "PRE_INSTALL" then Some "pre-install.sh"
  else if String.eqb key "POST_INSTALL" then Some "post-install.sh"
  else if String.eqb key "DEPLOY_PRECHECK" then Some "deploy-precheck"
  else if String.eqb key "UPGRADE_UTILS" then Some "upgrade_utils.py"
  else None.

(** [PATCH_SCRIPTS[key]] for a key of the table. *)
Definition script_name (key : string) : string :=
  default EmptyString (PATCH_SCRIPTS key).

(** The initial value of the aggregate signature: 128 bits set. *)
Definition all_ones : Z := 0xFFFFFFFFFFFFFFFFFFFFFFFFFFFFFFFF%Z.

Section Methods.
Context (T : Tools).

Abbreviation M := (M Builder).

(** [get_md5(self, path)] *)
Definition get_md5 (path : string) : M Z :=
  content <- read_file path ;;
  ret (md5_int T content).

(** [shutil.copy(src, dst)]: into [dst] when it is a directory. *)
Definition shutil_copy (src dst : string) : M unit :=
  content <- read_file src ;;
  isd <- os_path_isdir dst ;;
  if isd then
    w <- get_sys ;;
    write_file (Py.join (resolve w dst) (Py.basename src)) content
  else write_file dst content.

(** [os.makedirs(p)]: the missing ancestors are created first. *)
Fixpoint missing_dirs (fuel : nat) (m : gmap string node) (q : string)
  : list string :=
  match fuel with
  | O => []
  | S fuel' =>
      match m !! q with
      | Some _ => []
      | None =>
          if String.eqb (Py.dirname q) q then [q]
          else (missing_dirs fuel' m (Py.dirname q) ++ [q])%list
      end
  end.

Definition os_makedirs (p : string) : M unit :=
  w <- get_sys ;;
  let q := resolve w p in
  match fs w !! q with
  | Some _ => raise (FileExistsError p)
  | None =>
      put_sys (set_fs (foldl (fun m d => <[d := Dir]> m) (fs w)
                             (missing_dirs (S (String.length q)) (fs w) q)) w)
  end.

(** [copy_rename_script(self, path_to_script, script_type=None, rename=True)] *)
Definition copy_rename_script (path_to_script : string)
    (script_type : option string) (rename : bool) : M unit :=
  isf <- os_path_isfile path_to_script ;;
  if negb isf then
    raise (FileNotFoundError ("Install script " +:+ path_to_script +:+ " not found"))
  else if rename then
    match script_type ≫= PATCH_SCRIPTS with
    | Some script_name => shutil_copy path_to_script ("./" +:+ script_name)
    | None =>
        raise (ValueError ("Script type provided is not valid one: "
                           +:+ default "None" script_type))
    end
  else shutil_copy path_to_script "./".

(** [get_files_from_deb(self, download_dir, tmp_folder, package_name, files)] *)
Definition last_match (f : string -> bool) (l : list string) : option string :=
  foldl (fun acc x => if f x then Some x else acc) None l.

(** [data_tar.extract(member, path=folder)]: the member is written below
    [folder], with the directories it needs. *)
Definition tar_extract (members : list (string * string))
    (member folder : string) : M unit :=
  w <- get_sys ;;
  let q := resolve w (Py.join folder member) in
  let content := default EmptyString
                   (snd <$> List.find (fun kv => String.eqb kv.1 member) members) in
  let dirs := missing_dirs (S (String.length q)) (fs w) (Py.dirname q) in
  put_sys (set_fs (<[q := File content]>
                     (foldl (fun m d => <[d := Dir]> m) (fs w) dirs)) w).

Fixpoint extract_files (members : list (string * string)) (tmp_folder : string)
    (files : list string) : M (list string) :=
  match files with
  | [] => ret []
  | f :: rest =>
      match last_match (fun member => Py.endswith member f)
                       (List.map fst members) with
      | None =>
          raise (FileNotFoundError ("Unable to find " +:+ f +:+ " inside data tar."))
      | Some file_tarpath =>
          (* We extract said file to the temporary folder *)
          tar_extract members file_tarpath tmp_folder ;;;
          (* add it to our return *)
          paths <- extract_files members tmp_folder rest ;;
          ret (Py.join tmp_folder file_tarpath :: paths)
      end
  end.

(** [subprocess.check_call(['ar', '-x', deb], cwd=folder)] *)
Definition check_call_ar (deb folder : string) : M unit :=
  w <- get_sys ;;
  let '(ok, m) := ar_extract T deb folder w in
  put_sys (set_fs m w) ;;;
  if negb ok then raise (CalledProcessError "ar -x") else ret tt.

Definition get_files_from_deb (download_dir tmp_folder package_name : string)
    (files : list string) : M (list string) :=
  names <- os_listdir download_dir ;;
  match last_match (fun file => Py.startswith file (package_name +:+ "_")
                                && Py.endswith file ".deb") names with
  | None =>
      raise (FileNotFoundError ("Unable to find " +:+ package_name
                                +:+ " package inside download folder"))
  | Some pkg_name =>
      let deb_path := Py.join download_dir pkg_name in
      (* we copy deb to the temporary folder *)
      shutil_copy deb_path tmp_folder ;;;
      (* We first unpack deb file and get data.tar.xz from there *)
      check_call_ar (Py.join tmp_folder pkg_name) tmp_folder ;;;
      (* With data.tar.xz, we try to find script file *)
      data_tar <- read_file (Py.join tmp_folder "data.tar.xz") ;;
      extract_files (tar_members T data_tar) tmp_folder files
  end.

(** [__sign_and_pack(self, patch_file)] *)

(** The list of the members that are signed. *)
Definition filelist_of (md : PatchMetadata) : list string :=
  (["metadata.tar"; "software.tar"]
   ++ (if Py.truthy (pre_install md) then [script_name "PRE_INSTALL"] else [])
   ++ (if Py.truthy (post_install md) then [script_name "POST_INSTALL"] else []))%list.

(** [for f in filelist: sig ^= self.get_md5(f)] *)
Fixpoint fold_signature (sig : Z) (filelist : list string) : M Z :=
  match filelist with
  | [] => ret sig
  | f :: rest =>
      d <- get_md5 f ;;
      fold_signature (Z.lxor sig d) rest
  end.

(** [[f for f in os.listdir('.') if os.path.isfile(f)]] *)
Fixpoint only_files (names : list string) : M (list string) :=
  match names with
  | [] => ret []
  | f :: rest =>
      isf <- os_path_isfile f ;;
      files <- only_files rest ;;
      ret (if isf then f :: files else files)
  end.

(** The local signature file. *)
Definition write_mdsum_signature (filelist : list string) : M unit :=
  sig <- fold_signature all_ones filelist ;;
  write_file mdsum_signature_file (Py.hex_of_int sig).

Definition sign_and_pack (patch_file : string) : M unit :=
  B <- get_self ;;
  let filelist := filelist_of (metadata B) in
  (* Generate the local signature file *)
  write_mdsum_signature filelist ;;;
  (* Generate the detached signature *)
  w <- get_sys ;;
  match sign_files T filelist w with
  | None => raise (Exception "sign_files")
  | Some (signature, need_resign_with_formal) =>
      write_file detached_signature_file signature ;;;
      (* Save files into .patch *)
      names <- os_listdir "." ;;
      files <- only_files names ;;
      present <- os_path_exists (PATCH_OUTPUT T) ;;
      when (negb present) (os_makedirs (PATCH_OUTPUT T)) ;;;
      let patch_full_path := Py.join (PATCH_OUTPUT T) patch_file in
      w <- get_sys ;;
      write_file patch_full_path (tar_archive T files w)
  end.

(** [build_patch(self)].  Python returns [False] on one path and falls
    off the end, returning [None], on the other: [Some false] and
    [None] here. *)
Definition add_members (dl_dir : string) (names : list string) : M unit :=
  foreach names (fun file =>
    present <- os_path_exists (Py.join dl_dir file) ;;
    if negb present then raise (FileNotFoundError (Py.join dl_dir file))
    else
      (* append deb name into metadata *)
      B <- get_self ;;
      put_self (append_deb file B)).

Definition run_fetch (f : Builder -> Sys -> bool * gmap string node)
    (name : string) : M unit :=
  B <- get_self ;;
  w <- get_sys ;;
  let '(ok, m) := f B w in
  put_sys (set_fs m w) ;;;
  if ok then ret tt else raise (Exception name).

Definition tempfile_mkdtemp (prefix : string) : M string :=
  w <- get_sys ;;
  let d := mkdtemp T prefix w in
  os_mkdir d ;;;
  ret d.

(** The part of [build_patch] that runs in the temporary directory: the
    two archives, the scripts, the signatures and the bundle. *)
Definition assemble_bundle (dl_dir : string) : M unit :=
  write_file "software.tar" EmptyString ;;;
  (* copy all files from dl_dir into the tar *)
  names <- os_listdir dl_dir ;;
  add_members dl_dir names ;;;
  w <- get_sys ;;
  write_file "software.tar"
             (tar_archive T (List.map (Py.join dl_dir) names) w) ;;;
  B <- get_self ;;
  let pre := pre_install (metadata B) in
  let post := post_install (metadata B) in
  (* pre/post install scripts *)
  when (Py.truthy pre)
       (copy_rename_script (default EmptyString pre) (Some "PRE_INSTALL") true) ;;;
  when (Py.truthy post)
       (copy_rename_script (default EmptyString post) (Some "POST_INSTALL") true) ;;;
  (* if the patch includes the 'software' package we need to make
     deploy-precheck and upgrade_utils.py from .deb file accessible
     directly from patch file *)
  when (existsb (String.eqb "software") (stx_packages (metadata B)))
       (tmp_folder <- tempfile_mkdtemp "deb_" ;;
        path_files <- get_files_from_deb dl_dir tmp_folder "software"
                        ["deploy-precheck"; "upgrade_utils.py"] ;;
        foreach path_files (fun path => copy_rename_script path None false) ;;;
        (* removing the temporary folder *)
        shutil_rmtree tmp_folder) ;;;
  (* Generate metadata.xml *)
  write_file "metadata.xml" (generate_patch_metadata T (metadata B)) ;;;
  w <- get_sys ;;
  write_file "metadata.tar" (tar_archive T ["metadata.xml"] w) ;;;
  os_remove "metadata.xml" ;;;
  (* Pack .patch file *)
  sign_and_pack (patch_name B).

Definition build_patch : M (option bool) :=
  (* Fetch debs from metadata *)
  run_fetch (fetch_stx_packages T) "fetch_stx_packages" ;;;
  run_fetch (fetch_external_binaries T) "fetch_external_binaries" ;;;
  (* verify if dir is not empty *)
  B <- get_self ;;
  let dl_dir := Py.join (Py.join (output_dir B) "downloads") "binary" in
  fetched <- os_listdir dl_dir ;;
  match fetched with
  | [] => ret (Some false)
  | _ :: _ =>
      tmpdir <- tempfile_mkdtemp "patch_" ;;
      os_chdir tmpdir ;;;
      assemble_bundle dl_dir ;;;
      ret None
  end.

(** [build(recipe, name)], the command-line entry point, once the
    builder is made: the value of [build_patch] is dropped. *)
Definition build : M unit :=
  build_patch ;;; ret tt.

End Methods.

(** The aggregate signature in the words of the design: the digests of
    the members, each a 128-bit integer, folded with exclusive or into
    an accumulator of 128 ones. *)
Definition aggregate_signature (digests : list Z) : Z :=
  foldr Z.lxor all_ones digests.

(** The content of a member of the bundle, when it is a file. *)
Definition member_content (w : Sys) (f : string) : option string :=
  match lookup_path w f with
  | Some (File c) => Some c
  | _ => None
  end.

Definition member_digest (T : Tools) (w : Sys) (f : string) : Z :=
  md5_int T (default EmptyString (member_content w f)).

(** The exclusive or of a list of digests. *)
Definition xor_all (ds : list Z) : Z := foldr Z.lxor 0%Z ds.

End PatchBuilder.

(** * Vocabulary of the statements *)

(** A computation that leaves a view of the state as it was, whether it
    returns or raises; the views of interest are the working directory
    and the object. *)
Definition keeps {O A X} (view : State O -> X) (m : M O A) : Prop :=
  forall s, view (m s).2 = view s.

Abbreviation keeps_cwd := (keeps (fun s => cwd (sys s))).
Abbreviation keeps_self := (keeps (fun s => self s)).

(** A view that depends on the working directory and on the object
    only, not on the tree nor on the trace. *)
Definition frame_view {O X} (view : State O -> X) : Prop :=
  forall s s', cwd (sys s) = cwd (sys s') -> self s = self s' -> view s = view s'.

(** A computation that, when it returns, leaves the process in the
    directory [c]. *)
Definition returns_at {O A} (c : string) (m : M O A) : Prop :=
  forall s r s', m s = (Returned r, s') -> cwd (sys s') = c.

(** A computation that, started in a directory given by an absolute
    path, is back there when it returns. *)
Definition restores_cwd {O A} (m : M O A) : Prop :=
  forall s r s',
    Debrepack.isabs (cwd (sys s)) = true ->
    m s = (Returned r, s') -> cwd (sys s') = cwd (sys s).

(** The entries of a series file: its lines, stripped, without the
    comments and the blank lines. *)
Definition series_entries (content : string) : list string :=
  List.filter (fun e => negb (Debrepack.skipped e))
              (List.map Py.strip (Py.readlines content)).

(** The text that registering the entries adds to a series file. *)
Definition series_lines (entries : list string) : string :=
  foldr (fun e rest => e +:+ Py.nl +:+ rest) EmptyString entries.





(** The tree after the first lines of [package], for a working directory
    that is a directory or is not there. *)
Definition fresh_tree (pack : string) (m : gmap string node) : gmap string node :=
  <[pack := Dir]>
    (match m !! pack with Some _ => rmtree_fs pack m | None => m end).

(** Nothing lies below a path that is not there. *)
Definition no_orphans (pack : string) (m : gmap string node) : Prop :=
  m !! pack = None -> forall q, under pack q = true -> m !! q = None.

(** What a checksum tool prints for a path, seen through the pipe to
    [cut]: the digest of a file, nothing for a directory. *)
Definition tool_output (E : Env) (w : Sys) (tool file : string) : option string :=
  match lookup_path w file with
  | Some (File body) => Some (digest_of E tool body)
  | Some Dir => Some EmptyString
  | None => None
  end.

(** The path is there and the tool prints the expected digest for it. *)
Definition verifies (E : Env) (w : Sys) (file expected tool : string) : bool :=
  match tool_output E w tool file with
  | Some out => String.eqb out expected
  | None => false
  end.

(** A computation that adds to the trace only commands of a given kind,
    whether it returns or raises. *)
Definition only_runs {O A} (ok : command -> Prop) (m : M O A) : Prop :=
  forall s, exists cmds,
    trace (sys (m s).2) = (trace (sys s) ++ cmds)%list /\ Forall ok cmds.

(** A computation that leaves the tree as it was, whether it returns or
    raises. *)
Abbreviation keeps_fs := (keeps (fun s => fs (sys s))).

Definition is_checksum_of (tool : string) (c : command) : Prop :=
  exists file, c = CmdChecksum tool file.

Definition is_git_count (c : command) : Prop :=
  match c with
  | CmdGitRevList _ _ | CmdGitStatus _ => True
  | _ => False
  end.

Definition is_patch (c : command) : Prop :=
  match c with CmdPatch _ => True | _ => False end.

(** Where [setup] looks for a file of [src_files]: the name with its
    variables expanded when that is an absolute path, the name as it is
    written, below the package, otherwise. *)
Definition located (E : Env) (pkgpath_abs src_file : string) : string :=
  if negb (Debrepack.isabs (expandvars E src_file))
  then Py.join pkgpath_abs src_file
  else expandvars E src_file.

(** What [setup] makes of [src_path]. *)
Definition located_src_path (E : Env) (w : Sys) (pkgpath_abs : string)
    (sp : option (option string)) : option (option string) :=
  match sp with
  | Some (Some d) =>
      Some (Some (if negb (Debrepack.isabs (expandvars E d))
                  then Debrepack.abspath w (Py.join pkgpath_abs d)
                  else expandvars E d))
  | other => other
  end.

(** The parts of the object that no method changes once it is made. *)
Definition same_settings (P P' : Debrepack.Parser) : Prop :=
  Debrepack.basedir P' = Debrepack.basedir P
  /\ Debrepack.output P' = Debrepack.output P
  /\ Debrepack.srcrepo P' = Debrepack.srcrepo P
  /\ Debrepack.btype P' = Debrepack.btype P
  /\ Debrepack.strategy P' = Debrepack.strategy P.
(** A computation that, from a state where an invariant holds, ends in
    such a state whether it returns or raises, and whose value, when it
    returns, has a given property. *)
Definition maintains {O A} (I : State O -> Prop) (Q : A -> Prop) (m : M O A) : Prop :=
  forall s, I s -> I (m s).2 /\ forall a, (m s).1 = Returned a -> Q a.

(** The process state is [w0] and the object has the settings of [P0]. *)
Definition stays (w0 : Sys) (P0 : Debrepack.Parser) (s : State Debrepack.Parser)
  : Prop :=
  sys s = w0 /\ same_settings P0 (self s).


Definition not_patch (c : command) : Prop := ~ is_patch c.

(** The character occurs in the string; the number of times it does. *)
Fixpoint has_char (c : ascii) (s : string) : bool :=
  match s with
  | EmptyString => false
  | String x s' => Ascii.eqb x c || has_char c s'
  end.

Fixpoint count_char (c : ascii) (s : string) : nat :=
  match s with
  | EmptyString => O
  | String x s' => (if Ascii.eqb x c then 1 else 0) + count_char c s'
  end.

(** No character of the string passes the test. *)
Fixpoint none_of (f : ascii -> bool) (s : string) : bool :=
  match s with
  | EmptyString => true
  | String x s' => negb (f x) && none_of f s'
  end.

(** The first and the last character of a string. *)
Definition first_char (s : string) : option ascii :=
  match s with
  | EmptyString => None
  | String c _ => Some c
  end.
Definition last_char (s : string) : option ascii := first_char (String.rev s).

(** The string neither starts nor ends with a character that passes
    the test. *)
Definition trimmed (f : ascii -> bool) (s : string) : Prop :=
  (forall c, first_char s = Some c -> f c = false)
  /\ (forall c, last_char s = Some c -> f c = false).

(** A line terminator. *)
Definition is_eol (c : ascii) : bool := Ascii.eqb c Py.LF || Ascii.eqb c Py.CR.

(** An entry as the loops over a series file see it: within one line,
    without white space around it, neither empty nor a comment. *)
Definition series_entry (e : string) : Prop :=
  none_of is_eol e = true
  /\ trimmed Py.isspace e
  /\ Debrepack.skipped e = false.

(** The copy of a harvested file to the output directory. *)
Definition harvest_command (pack out f : string) : command :=
  CmdCp "-Lr" (Py.join pack f) out.

(** The last item of a list that passes a test. *)
Definition last_passing {A} (f : A -> bool) (l : list A) : option A :=
  last (List.filter f l).

(** The name of a package file for a package name. *)
Definition is_deb_of (package_name file : string) : bool :=
  Py.startswith file (package_name +:+ "_") && Py.endswith file ".deb".

(** The name under which [copy_rename_script] leaves a script. *)
Definition script_target (script_type : option string) : option string :=
  script_type ≫= PatchBuilder.PATCH_SCRIPTS.

(** The builder after the names of fetched files have been recorded. *)
Definition with_debs (names : list string) (B : PatchBuilder.Builder)
  : PatchBuilder.Builder :=
  foldl (fun B file => PatchBuilder.append_deb file B) B names.

(** A directory in which a plain name is reached by adding a slash and
    the name: not the empty path, no slash at its end. *)
Definition plain_dir (d : string) : Prop :=
  d <> EmptyString /\ Py.endswith d "/" = false.

(** A name without a slash that is neither empty nor the dot. *)
Definition plain_name (n : string) : bool :=
  negb (has_char "/" n) && negb (String.eqb n EmptyString)
  && negb (String.eqb n ".").

(** The test of [os.path.isfile] in a state of the process. *)
Definition is_file_in (w : Sys) (p : string) : bool :=
  match lookup_path w p with Some (File _) => true | _ => false end.

(** The regular files of the current directory, as
    [[f for f in os.listdir('.') if os.path.isfile(f)]] finds them. *)
Definition files_here (w : Sys) : list string :=
  List.filter (is_file_in w) (listdir_fs (resolve w ".") (fs w)).

(** The first path of a list that does not exist. *)
Definition first_missing (w : Sys) (paths : list string) : option string :=
  List.find (fun p => match lookup_path w p with None => true | Some _ => false end)
            paths.

(** The command lines of [dummy_package], in the order in which they
    are run. *)
Definition dummy_commands (E : Env) (pkgfiles : list string)
    (pkgname upstream_version pkgver : string) : list command :=
  let srcdir := pkgname +:+ "-" +:+ upstream_version in
  let tarfile := srcdir +:+ ".tar.gz" in
  (List.map (fun pfile => CmdShell ("mkdir -p " +:+ srcdir +:+ "; cp " +:+ pfile
                                    +:+ " " +:+ srcdir)) pkgfiles
   ++ [CmdShell ("tar czvf " +:+ tarfile +:+ " " +:+ srcdir +:+ "; rm -rf " +:+ srcdir);
       CmdShell ("debmake -a " +:+ tarfile);
       CmdShell ("cd " +:+ srcdir +:+ "; dch -p -D bullseye -v " +:+ pkgver
                 +:+ " " +:+ RELEASENOTES E);
       CmdShell ("cd " +:+ srcdir +:+ "; dpkg-buildpackage -nc -us -uc -S -d")])%list.

(** ** utils.py *)

Module Utils.

(** How a call of this module ends: with a value or an exception, as
    everywhere; with the NameError that Python raises for a name that
    is bound nowhere (the module binds [logging], [os] and its three
    functions; it has no global [logger]); or with the AssertionError
    of an [assert]. *)
Inductive outcome (A : Type) : Type :=
| Ended (r : result A)
| NameError (name : string)
| AssertionError.
Arguments Ended {A} r.
Arguments NameError {A} name.
Arguments AssertionError {A}.

Section Functions.
Context {O Arg : Type}.

(** The truth value of the optional argument of the handler: [None] is
    false, another object has the truth value [arg_truthy] gives it. *)
Context (arg_truthy : Arg -> bool).

(** An entry handler, called as [entry_handler(entry, arg)] or as
    [entry_handler(entry)]. *)
Definition handler : Type := string -> option Arg -> M O (list string).

(** The loop [for entry in lines] of [bc_safe_fetch]. *)
Fixpoint fetch_entries (entry_handler : option handler)
    (entry_handler_arg : option Arg) (lines entries : list string)
  : M O (list string) :=
  match lines with
  | [] => ret entries
  | entry :: rest =>
      let entry := Py.strip entry in
      if Py.startswith entry "#"
      then fetch_entries entry_handler entry_handler_arg rest entries
      else if String.eqb entry EmptyString
      then fetch_entries entry_handler entry_handler_arg rest entries
      else
        match entry_handler with
        | Some h =>
            match entry_handler_arg with
            | Some a =>
                if arg_truthy a
                then more <- h entry (Some a) ;;
                     fetch_entries entry_handler entry_handler_arg rest
                                   (entries ++ more)%list
                else more <- h entry None ;;
                     fetch_entries entry_handler entry_handler_arg rest
                                   (entries ++ more)%list
            | None =>
                more <- h entry None ;;
                fetch_entries entry_handler entry_handler_arg rest
                              (entries ++ more)%list
            end
        | None =>
            fetch_entries entry_handler entry_handler_arg rest
                          (entries ++ [entry])%list
        end
  end.

(** [bc_safe_fetch(lst_file, entry_handler=None, entry_handler_arg=None)]. *)
Definition bc_safe_fetch (lst_file : string) (entry_handler : option handler)
    (entry_handler_arg : option Arg)
  : State O -> outcome (list string) * State O :=
  fun s =>
    match read_file lst_file s with
    | (Returned flist, s') =>
        let lines :=
          List.filter (fun line => negb (String.eqb line EmptyString))
                      (List.map Py.strip (Py.readlines flist)) in
        let '(r, s'') :=
          fetch_entries entry_handler entry_handler_arg lines [] s' in
        (Ended r, s'')
    | (Raised e, s') =>
        (* except IOError as e: logger.error(str(e)) *)
        (NameError "logger", s')
    end.

End Functions.

Section Walk.
Context {O : Type}.

(** [os.path.isdir]; the empty path is no directory. *)
Definition isdir (w : Sys) (p : string) : bool :=
  match p with
  | EmptyString => false
  | _ => match lookup_path w p with Some Dir => true | _ => false end
  end.

(** [os.walk(top)], top down, over a tree that does not change while it
    is walked: the triples in the order in which they are yielded.
    After the triple of [root] the consumer may empty [dirs], which
    stops the descent below [root]: [prune root] says whether it does.
    [fuel] bounds the depth of the descent. *)
Fixpoint os_walk (fuel : nat) (prune : string -> bool) (w : Sys) (top : string)
  : list (string * list string * list string) :=
  match fuel with
  | 0%nat => []
  | S fuel' =>
      if isdir w top then
        let names := listdir_fs (resolve w top) (fs w) in
        let dirs := List.filter (fun name => isdir w (Py.join top name)) names in
        let nondirs :=
          List.filter (fun name => negb (isdir w (Py.join top name))) names in
        (top, dirs, nondirs)
        :: (if prune top then []
            else flat_map (fun d => os_walk fuel' prune w (Py.join top d)) dirs)
      else []
  end.

(** [limited_walk(dir, max_depth=1)]: the triples it yields. *)
Definition limited_walk (fuel : nat) (dir : string) (max_depth : Z)
  : State O -> outcome (list (string * list string * list string)) * State O :=
  fun s =>
    let dir := Py.rstrip_chars (Ascii.eqb "/") dir in
    if negb (isdir (sys s) dir) then (AssertionError, s)
    else
      let num_sep_dir := count_char "/" dir in
      (Ended (Returned
         (os_walk fuel
            (fun root =>
               let num_sep_root := count_char "/" root in
               (Z.of_nat num_sep_dir + max_depth <=? Z.of_nat num_sep_root)%Z)
            (sys s) dir)), s).

End Walk.
End Utils.

(** No path of the tree other than the root ends with a slash. *)
Definition tidy_tree (m : gmap string node) : bool :=
  forallb (fun kv => String.eqb kv.1 "/" || negb (Py.endswith kv.1 "/"))
          (map_to_list m).


(** The argument with which [bc_safe_fetch] calls the handler: the one
    it was given when that is true, none otherwise. *)
Definition passed_arg {Arg} (arg_truthy : Arg -> bool) (a : option Arg)
  : option Arg :=
  match a with
  | Some x => if arg_truthy x then Some x else None
  | None => None
  end.

(** The commands by which [Parser.download] fetches: a checksum tool or
    curl, for a declared file; dget, for a description in an archive;
    apt-get source, and the upload to the local repository that may
    follow it. *)
Definition is_transfer (c : command) : Prop :=
  match c with
  | CmdChecksum _ _ | CmdCurl _ _ => True
  | _ => False
  end.

Definition is_dget (c : command) : Prop :=
  exists url, c = CmdShell ("dget -d " +:+ url).

Definition is_apt_fetch (c : command) : Prop :=
  exists arg, c = CmdShell ("apt-get source -d " +:+ arg)
              \/ c = CmdShell ("repo_manage.py upload_pkg -p " +:+ arg).

(** The commands that the declarations of a package allow. *)
Definition download_tools (md : MetaData) (c : command) : Prop :=
  is_transfer c
  \/ match dl_path md, archive md, src_path md, dl_hook md with
     | Some _, _, _, _ => False
     | None, Some _, _, _ => is_dget c
     | None, None, None, None => is_apt_fetch c
     | None, None, _, _ => False
     end.







(** * Sample worlds

    Small concrete trees, tools and packages on which the statements
    below are exercised. *)

Module Sample.

Definition tree (l : list (string * node)) : gmap string node := list_to_map l.

(** Tools of the patch builder: the digest of a content is its length. *)
Definition tools : PatchBuilder.Tools :=
  PatchBuilder.mkTools
    (fun c => Z.of_nat (String.length c))
    (fun _ w => (true, fs w))
    (fun _ w => (true, fs w))
    (fun prefix _ => "/tmp/" +:+ prefix +:+ "x")
    (fun names _ => String.concat ";" names)
    (fun _ => [])
    (fun _ _ w => (true, fs w))
    (fun md => PatchBuilder.patch_id md)
    (fun _ _ => Some ("sig", false))
    "/out".

Definition recipe : PatchBuilder.PatchMetadata :=
  PatchBuilder.mkPatchMetadata "P1" ["pkg"] [] None None "N" [].

Definition builder : PatchBuilder.Builder :=
  PatchBuilder.mkBuilder recipe "/dl" "P1.patch".

(** A bundle directory with its two archives. *)
Definition bundle_sys : Sys :=
  mkSys (tree [("/", Dir); ("/tmp", Dir); ("/tmp/w", Dir);
               ("/tmp/w/metadata.tar", File "abc");
               ("/tmp/w/software.tar", File "abcde")])
        "/tmp/w" [].

(** The download area of the builder, with one package fetched, and
    without any. *)
Definition build_sys : Sys :=
  mkSys (tree [("/", Dir); ("/tmp", Dir); ("/dl", Dir); ("/dl/downloads", Dir);
               ("/dl/downloads/binary", Dir);
               ("/dl/downloads/binary/pkg_1.0.deb", File "deb")])
        "/" [].

Definition empty_build_sys : Sys :=
  mkSys (tree [("/", Dir); ("/tmp", Dir); ("/dl", Dir); ("/dl/downloads", Dir);
               ("/dl/downloads/binary", Dir)])
        "/" [].

(** Tools of the package builder.  The digest of a content is the name
    of the tool followed by the content; one address answers with a
    good file, one with a corrupt file, the other ones fail; the format
    of the source tree and the success of patch are parameters. *)
Definition env_of (format : string) (patch_ok : bool) (dirty : N)
    (md : MetaData) : Env :=
  {| digest_of := fun tool c => tool +:+ ":" +:+ c;
     curl_fetch := fun url _ =>
       if String.eqb url "http://alt/a.tgz" then CurlOk "good"
       else if String.eqb url "http://bad/a.tgz" then CurlOk "corrupt"
       else CurlFail None;
     patch_apply := fun _ w => (patch_ok, fs w);
     print_format := fun _ _ => Some format;
     git_rev_count := fun _ _ _ => Some 4%N;
     git_status_count := fun _ _ => dirty;
     shell_other := fun line w =>
       (Some (if Py.endswith line "--show-field version" then "2:1.4-2"
              else EmptyString), fs w);
     shell_error := fun line => Exception ("[shell]: " +:+ line);
     expandvars := fun p => p;
     get_download_url := fun url strategy =>
       (url, if String.eqb strategy "cengn_first" then Some "http://alt/a.tgz"
             else None);
     yaml_full_load := fun _ => md;
     package_dir_to_package_name := Py.basename;
     dsc_checksums := fun _ => Some [];
     dsc_files := fun _ => Some [];
     apt_source_versions := fun _ => [];
     git_repo_at := fun _ _ => false;
     access_x_ok := fun _ _ => true;
     RELEASENOTES := "notes" |}.

Definition env : Env := env_of "3.0 (quilt)" true 0 empty_meta_data.

(** A parser after [setup] of the package [/repo/pkg]. *)
Definition parser_of (strategy : string) (md : MetaData) : Debrepack.Parser :=
  Debrepack.mkParser "/build" "/out" None "std" strategy md
    (Debrepack.mkVersions "1.0-1" "1.0" (Some "1") None)
    (Debrepack.mkPkgInfo "/repo/pkg" "pkg" "/build/pkg" "/repo/pkg/debian"
                         "pkg" "/build/pkg/pkg-1.0").

Definition parser : Debrepack.Parser := parser_of "cengn_first" empty_meta_data.

(** Revision rules: the commits of the debian folder, and a fixed
    addition of minus five. *)
Definition rules_pkg : RevisionData :=
  mkRevisionData None true None None None None.
Definition rules_negative : RevisionData :=
  mkRevisionData None false None None None (Some (YInt (-5))).

Definition meta_of (ver : string) (rules : option RevisionData) : MetaData :=
  mkMetaData (Some ver) None None None rules None None None None.

(** A parser after [setup] of a package that declares version 2:1.4-3. *)
Definition parser_143 (rules : option RevisionData) : Debrepack.Parser :=
  Debrepack.mkParser "/build" "/out" None "std" "cengn_first"
    (meta_of "2:1.4-3" rules)
    (Debrepack.mkVersions "2:1.4-3" "1.4" (Some "3") (Some "2"))
    (Debrepack.mkPkgInfo "/repo/pkg" "pkg" "/build/pkg" "/repo/pkg/debian"
                         "pkg" "/build/pkg/pkg-1.4").

(** The package with two source patches and an extracted source tree:
    without patch directory, and with a series file that already lists
    a patch. *)
Definition two_patches : string :=
  "# local changes" +:+ Py.nl +:+ "p1.patch" +:+ Py.nl +:+ Py.nl
  +:+ "  p2.patch" +:+ Py.nl.

Definition patch_base : list (string * node) :=
  [("/", Dir); ("/repo", Dir); ("/repo/pkg", Dir); ("/repo/pkg/debian", Dir);
   ("/repo/pkg/debian/patches", Dir);
   ("/repo/pkg/debian/patches/series", File two_patches);
   ("/repo/pkg/debian/patches/p1.patch", File "one");
   ("/repo/pkg/debian/patches/p2.patch", File "two");
   ("/build", Dir); ("/build/pkg", Dir); ("/build/pkg/pkg-1.0", Dir);
   ("/build/pkg/pkg-1.0/debian", Dir)].

Definition fresh_tree_sys : Sys := mkSys (tree patch_base) "/" [].


(** The same package with a debian-folder overlay that carries the two
    patches. *)
Definition overlay_sys : Sys :=
  mkSys (tree (patch_base ++
               [("/repo/pkg/debian/deb_folder", Dir);
                ("/repo/pkg/debian/deb_folder/patches", Dir);
                ("/repo/pkg/debian/deb_folder/patches/series", File two_patches);
                ("/repo/pkg/debian/deb_folder/patches/p1.patch", File "one");
                ("/repo/pkg/debian/deb_folder/patches/p2.patch", File "two")])%list)
        "/" [].

(** The build area with the leftovers of an earlier assembly of the
    package, and without them. *)
Definition stale_sys : Sys :=
  mkSys (tree [("/", Dir); ("/build", Dir); ("/build/pkg", Dir);
               ("/build/pkg/pkg-0.9", Dir);
               ("/build/pkg/pkg-0.9/old.c", File "stale");
               ("/build/pkg/pkg_0.9.dsc", File "stale");
               ("/mirror", Dir)])
        "/" [].

Definition clean_sys : Sys :=
  mkSys (tree [("/", Dir); ("/build", Dir); ("/mirror", Dir)]) "/" [].

(** The repository of the package before [setup]. *)
Definition repo_sys : Sys :=
  mkSys (tree [("/", Dir); ("/repo", Dir); ("/repo/pkg", Dir);
               ("/repo/pkg/debian", Dir);
               ("/repo/pkg/debian/meta_data.yaml", File "debver: 2:1.4-3")])
        "/" [].

(** The mirror of the package, holding one downloaded file. *)
Definition mirror_sys (content : string) : Sys :=
  mkSys (tree [("/", Dir); ("/mirror", Dir); ("/mirror/pkg", Dir);
               ("/mirror/pkg/a.tgz", File content)])
        "/mirror/pkg" [].



(** A package taken from the mirror as a Debian source package. *)
Definition package_sys : Sys :=
  mkSys (Sample.tree [("/", Dir); ("/repo", Dir); ("/repo/pkg", Dir);
               ("/repo/pkg/debian", Dir);
               ("/repo/pkg/debian/meta_data.yaml", File "debver: 2:1.4-3");
               ("/build", Dir); ("/out", Dir); ("/mirror", Dir);
               ("/mirror/pkg", Dir);
               ("/mirror/pkg/pkg_1.4-3.dsc", File "dsc");
               ("/mirror/pkg/_1.4-2.dsc", File "dsc")])
        "/" [].

(** Tools whose data archive holds the two scripts of the software
    package, and a download area with two versions of that package. *)
Definition deb_tools : PatchBuilder.Tools :=
  PatchBuilder.mkTools
    (fun c => Z.of_nat (String.length c))
    (fun _ w => (true, fs w))
    (fun _ w => (true, fs w))
    (fun prefix _ => "/tmp/" +:+ prefix +:+ "x")
    (fun names _ => String.concat ";" names)
    (fun _ => [("usr/bin/deploy-precheck", "check");
               ("usr/lib/upgrade_utils.py", "utils")])
    (fun _ folder w => (true, <[Py.join folder "data.tar.xz" := File "tar"]> (fs w)))
    (fun md => PatchBuilder.patch_id md)
    (fun _ _ => Some ("sig", false))
    "/out".

Definition software_sys : Sys :=
  mkSys (Sample.tree [("/", Dir); ("/tmp", Dir); ("/tmp/deb_x", Dir); ("/dl", Dir);
               ("/dl/software_0.9.deb", File "old");
               ("/dl/software_1.0.deb", File "new");
               ("/dl/other_1.0.deb", File "other")])
        "/" [].

(** Tools that leave the description of the dummy package behind. *)
Definition dummy_env : Env :=
  {| digest_of := fun tool c => tool +:+ ":" +:+ c;
     curl_fetch := fun _ _ => CurlFail None;
     patch_apply := fun _ w => (true, fs w);
     print_format := fun _ _ => Some "3.0 (quilt)";
     git_rev_count := fun _ _ _ => Some 0%N;
     git_status_count := fun _ _ => 0%N;
     shell_other := fun line w =>
       (Some EmptyString,
        if Py.endswith line "dpkg-buildpackage -nc -us -uc -S -d"
        then <["/build/dummy/dummy_1.0-1.dsc" := File "dsc"]> (fs w)
        else fs w);
     shell_error := fun line => Exception ("[shell]: " +:+ line);
     expandvars := fun p => p;
     get_download_url := fun url _ => (url, None);
     yaml_full_load := fun _ => empty_meta_data;
     package_dir_to_package_name := Py.basename;
     dsc_checksums := fun _ => Some [];
     dsc_files := fun _ =>
       Some ["dummy_1.0.orig.tar.gz"; "dummy_1.0-1.debian.tar.xz"];
     apt_source_versions := fun _ => [];
     git_repo_at := fun _ _ => false;
     access_x_ok := fun _ _ => true;
     RELEASENOTES := "notes" |}.

Definition dummy_sys : Sys :=
  mkSys (Sample.tree [("/", Dir); ("/build", Dir); ("/in", Dir);
                      ("/in/a.txt", File "a")])
        "/" [].

(** A tree four levels deep. *)
Definition deep_sys : Sys :=
  mkSys (Sample.tree [("/", Dir); ("/srv", Dir); ("/srv/a", Dir);
                      ("/srv/a/b", Dir); ("/srv/a/b/c", Dir);
                      ("/srv/a/b/c/f", File "f"); ("/srv/g", File "g")])
        "/" [].


(** Tools that read the changelog of the sample package, and a mirror
    that holds it as a source package: its description and the archive
    that the description lists. *)
Definition harvest_env : Env :=
  {| digest_of := fun tool c => tool +:+ ":" +:+ c;
     curl_fetch := fun _ _ => CurlFail None;
     patch_apply := fun _ w => (true, fs w);
     print_format := fun _ _ => Some "3.0 (quilt)";
     git_rev_count := fun _ _ _ => Some 4%N;
     git_status_count := fun _ _ => 0%N;
     shell_other := fun line w =>
       (Some (if Py.endswith line "--show-field version" then "2:1.4-3"
              else if Py.endswith line "--show-field source" then "pkg"
              else EmptyString), fs w);
     shell_error := fun line => Exception ("[shell]: " +:+ line);
     expandvars := fun p => p;
     get_download_url := fun url _ => (url, None);
     yaml_full_load := fun _ => meta_of "2:1.4-3" None;
     package_dir_to_package_name := Py.basename;
     dsc_checksums := fun _ => Some [];
     dsc_files := fun body =>
       if String.eqb body "Files: orig" then Some ["pkg_1.4.orig.tar.gz"]
       else None;
     apt_source_versions := fun _ => [];
     git_repo_at := fun _ _ => false;
     access_x_ok := fun _ _ => true;
     RELEASENOTES := "notes" |}.

Definition harvest_sys : Sys :=
  mkSys (tree [("/", Dir); ("/repo", Dir); ("/repo/pkg", Dir);
               ("/repo/pkg/debian", Dir);
               ("/repo/pkg/debian/meta_data.yaml", File "debver: 2:1.4-3");
               ("/build", Dir); ("/out", Dir); ("/mirror", Dir);
               ("/mirror/pkg", Dir);
               ("/mirror/pkg/pkg_1.4-3.dsc", File "Files: orig");
               ("/mirror/pkg/pkg_1.4.orig.tar.gz", File "orig")])
        "/" [].

(** The world of [harvest_sys] with the leftovers of an earlier assembly
    of the package in the build area. *)
Definition harvest_stale_sys : Sys :=
  mkSys (Sample.tree
           [("/", Dir); ("/repo", Dir); ("/repo/pkg", Dir);
            ("/repo/pkg/debian", Dir);
            ("/repo/pkg/debian/meta_data.yaml", File "debver: 2:1.4-3");
            ("/build", Dir); ("/out", Dir); ("/mirror", Dir);
            ("/mirror/pkg", Dir);
            ("/mirror/pkg/pkg_1.4-3.dsc", File "Files: orig");
            ("/mirror/pkg/pkg_1.4.orig.tar.gz", File "orig");
            ("/build/pkg", Dir);
            ("/build/pkg/pkg-1.3", Dir);
            ("/build/pkg/pkg-1.3/old.c", File "stale");
            ("/build/pkg/pkg_1.4-3.dsc", File "stale");
            ("/build/pkg/pkg.log", File "stale")])
        "/" [].

End Sample.

(** * Properties *)

(** ** The aggregate signature of a bundle *)

Section Signature.
Context (T : PatchBuilder.Tools).
Import PatchBuilder.

Lemma get_md5_file (s : State Builder) f c :
  lookup_path (sys s) f = Some (File c) ->
  get_md5 T f s = (Returned (md5_int T c), s).
Proof.
  intros H. unfold get_md5, read_file, bind, get_sys, ret. simpl.
  now rewrite H.
Qed.

Lemma fold_signature_files (s : State Builder) filelist contents :
  Forall2 (fun f c => lookup_path (sys s) f = Some (File c)) filelist contents ->
  forall acc,
    fold_signature T acc filelist s
    = (Returned (foldl Z.lxor acc (List.map (md5_int T) contents)), s).
Proof.
  induction 1 as [|f c fl cl Hf _ IH]; intros acc; simpl.
  - reflexivity.
  - unfold bind at 1. rewrite (get_md5_file _ _ _ Hf). apply IH.
Qed.

End Signature.

Section XorFold.
Import PatchBuilder.

Lemma foldl_lxor_xor_all ds : forall acc,
  foldl Z.lxor acc ds = Z.lxor acc (xor_all ds).
Proof.
  induction ds as [|d ds IH]; intros acc; simpl.
  - now rewrite Z.lxor_0_r.
  - rewrite IH. now rewrite Z.lxor_assoc.
Qed.

Lemma aggregate_signature_xor_all ds :
  aggregate_signature ds = Z.lxor all_ones (xor_all ds).
Proof.
  unfold aggregate_signature.
  induction ds as [|d ds IH]; simpl.
  - now rewrite Z.lxor_0_r.
  - rewrite IH, <- !Z.lxor_assoc. f_equal. apply Z.lxor_comm.
Qed.

End XorFold.

Section AggregateSignature.
Context (T : PatchBuilder.Tools).
Import PatchBuilder.

Lemma member_contents_map (w : Sys) filelist contents :
  Forall2 (fun f c => member_content w f = Some c) filelist contents ->
  contents = List.map (fun f => default EmptyString (member_content w f)) filelist.
Proof.
  induction 1 as [|f c fl cl Hf _ IH]; simpl.
  - reflexivity.
  - rewrite Hf. simpl. now f_equal.
Qed.

Lemma member_content_file (w : Sys) f c :
  member_content w f = Some c -> lookup_path w f = Some (File c).
Proof.
  unfold member_content. destruct (lookup_path w f) as [[c'|]|]; congruence.
Qed.

Lemma write_mdsum_signature_files (s : State Builder) filelist contents :
  Forall2 (fun f c => member_content (sys s) f = Some c) filelist contents ->
  write_mdsum_signature T filelist s
  = write_file mdsum_signature_file
      (Py.hex_of_int (aggregate_signature (List.map (md5_int T) contents))) s.
Proof.
  intros H. unfold write_mdsum_signature. unfold bind at 1.
  rewrite (fold_signature_files T s filelist contents).
  - now rewrite foldl_lxor_xor_all, aggregate_signature_xor_all.
  - eapply Forall2_impl; [exact H|]. intros f c. apply member_content_file.
Qed.

Lemma xor_all_perm ds ds' : Permutation ds ds' -> xor_all ds = xor_all ds'.
Proof.
  induction 1 as [|d l l' _ IH|d d' l|l l' l'' _ IH1 _ IH2]; simpl.
  - reflexivity.
  - now rewrite IH.
  - rewrite <- !Z.lxor_assoc. f_equal. apply Z.lxor_comm.
  - congruence.
Qed.

Lemma xor_all_remove (g : string -> Z) f l :
  xor_all (List.map g l)
  = Z.lxor (if Nat.even (count_occ string_dec l f) then 0%Z else g f)
           (xor_all (List.map g (List.remove string_dec f l))).
Proof.
  induction l as [|x l IH].
  - reflexivity.
  - destruct (string_dec x f) as [Hxf|Hne].
    + subst x. rewrite count_occ_cons_eq, remove_cons by reflexivity.
      rewrite Nat.even_succ, <- Nat.negb_even.
      cbn [List.map xor_all foldr]. fold (xor_all (List.map g l)). rewrite IH.
      destruct (Nat.even (count_occ string_dec l f)); cbn [negb].
      * now rewrite Z.lxor_0_l.
      * now rewrite <- Z.lxor_assoc, Z.lxor_nilpotent, Z.lxor_0_l.
    + rewrite count_occ_cons_neq by assumption.
      cbn [List.remove]. destruct (string_dec f x) as [Heq|_]; [congruence|].
      cbn [List.map xor_all foldr].
      fold (xor_all (List.map g l)).
      fold (xor_all (List.map g (List.remove string_dec f l))).
      rewrite IH, <- !Z.lxor_assoc. f_equal. apply Z.lxor_comm.
Qed.

Lemma write_mdsum_signature_present (s : State Builder) l :
  Forall (fun f => is_Some (member_content (sys s) f)) l ->
  write_mdsum_signature T l s
  = write_file mdsum_signature_file
      (Py.hex_of_int (Z.lxor all_ones (xor_all (List.map (member_digest T (sys s)) l)))) s.
Proof.
  intros H.
  rewrite (write_mdsum_signature_files s l
             (List.map (fun f => default EmptyString (member_content (sys s) f)) l)).
  - now rewrite aggregate_signature_xor_all, List.map_map.
  - induction H as [|f l [c Hc] _ IH]; constructor; [|exact IH].
    now rewrite Hc.
Qed.

Lemma members_present (w : Sys) filelist contents :
  Forall2 (fun f c => member_content w f = Some c) filelist contents ->
  Forall (fun f => is_Some (member_content w f)) filelist.
Proof.
  induction 1 as [|f c fl cl Hf _ IH]; constructor; eauto.
Qed.

End AggregateSignature.

(** ** Strings and loops *)

Lemma append_empty (v : string) : v +:+ EmptyString = v.
Proof.
  induction v as [|c v IH]; [reflexivity|].
  change (String c (v +:+ EmptyString) = String c v). now rewrite IH.
Qed.

Lemma append_assoc (a b c : string) : (a +:+ b) +:+ c = a +:+ (b +:+ c).
Proof.
  induction a as [|x a IH]; [reflexivity|].
  change (String x ((a +:+ b) +:+ c) = String x (a +:+ (b +:+ c))).
  now rewrite IH.
Qed.


Lemma foreach_ext {O A} (l : list A) (f g : A -> M O unit) :
  (forall x s, f x s = g x s) -> forall s, foreach l f s = foreach l g s.
Proof.
  intros Hfg. induction l as [|x l IH]; intros s; cbn [foreach]; [reflexivity|].
  unfold bind. rewrite Hfg. destruct (g x s) as [[[]|e] s1]; auto.
Qed.


Lemma foreach_app {O A} (l1 l2 : list A) (body : A -> M O unit) :
  forall s, foreach (l1 ++ l2) body s = (foreach l1 body ;;; foreach l2 body) s.
Proof.
  induction l1 as [|x l1 IH]; intros s; cbn [foreach app].
  - reflexivity.
  - unfold bind. destruct (body x s) as [[[]|e] s1]; [|reflexivity].
    rewrite IH. reflexivity.
Qed.

(** ** External commands and the process state *)

Ltac unfold_monad :=
  unfold bind, ret, raise, try_except, get_sys, put_sys, get_self, put_self,
    when, fail_cmd, commit_fs in *.

Section ShellFacts.
Context (E : Env) {O : Type}.

(** A command is recorded, cannot move the process to another directory
    and does not touch the object. *)
Lemma run_shell_cmd_frame (c : command) (s : State O) :
  trace (sys (run_shell_cmd E c s).2) = (trace (sys s) ++ [c])%list
  /\ cwd (sys (run_shell_cmd E c s).2) = cwd (sys s)
  /\ self (run_shell_cmd E c s).2 = self s.
Proof.
  unfold run_shell_cmd. unfold_monad. cbn [sys self].
  destruct c; cbn [fst snd sys self trace cwd log_cmd];
    repeat match goal with
           | |- context [match ?x with _ => _ end] => destruct x
           end; cbn; auto.
Qed.

Lemma run_count_cmd_frame (c : command) (s : State O) :
  trace (sys (run_count_cmd E c s).2) = (trace (sys s) ++ [c])%list
  /\ cwd (sys (run_count_cmd E c s).2) = cwd (sys s)
  /\ fs (sys (run_count_cmd E c s).2) = fs (sys s)
  /\ self (run_count_cmd E c s).2 = self s.
Proof.
  unfold run_count_cmd. unfold_monad. cbn [sys self].
  destruct c; cbn [fst snd sys self trace cwd log_cmd];
    repeat match goal with
           | |- context [match ?x with _ => _ end] => destruct x
           end; cbn; auto.
Qed.

Lemma lookup_path_log_cmd c w p : lookup_path (log_cmd c w) p = lookup_path w p.
Proof. reflexivity. Qed.

End ShellFacts.

(** ** Fetching the declared downloads *)

Section Fetch.
Context (E : Env).
Import Debrepack.

Lemma checksum_match (s : State Parser) dl_file expected cmd content :
  lookup_path (sys s) dl_file = Some (File content) ->
  digest_of E cmd content = expected ->
  checksum E dl_file expected cmd s
  = (Returned true, mkState (log_cmd (CmdChecksum cmd dl_file) (sys s)) (self s)).
Proof.
  intros Hf Hd. unfold checksum, os_path_exists, run_shell_cmd. unfold_monad.
  cbn [sys self]. rewrite Hf. cbn [negb sys self].
  rewrite lookup_path_log_cmd, Hf, Hd, String.eqb_refl. reflexivity.
Qed.

(** The checksum of a file never raises, transfers nothing and leaves
    the tree, the working directory and the object as they are. *)
Lemma checksum_frame (s : State Parser) dl_file expected cmd :
  exists b,
    (checksum E dl_file expected cmd s).1 = Returned b
    /\ fs (sys (checksum E dl_file expected cmd s).2) = fs (sys s)
    /\ cwd (sys (checksum E dl_file expected cmd s).2) = cwd (sys s)
    /\ self (checksum E dl_file expected cmd s).2 = self s
    /\ downloads (trace (sys (checksum E dl_file expected cmd s).2))
       = downloads (trace (sys s)).
Proof.
  unfold checksum, os_path_exists, run_shell_cmd. unfold_monad. cbn [sys self].
  destruct (lookup_path (sys s) dl_file) as [n|] eqn:Hf; cbn [negb].
  - rewrite lookup_path_log_cmd, Hf.
    assert (Hd : downloads (trace (sys s) ++ [CmdChecksum cmd dl_file])
                 = downloads (trace (sys s))).
    { unfold downloads. rewrite omap_app. cbn. apply app_nil_r. }
    destruct n as [body|]; cbn [sys self].
    + destruct (String.eqb (digest_of E cmd body) expected); cbn;
        eexists; repeat split; auto.
    + destruct (String.eqb EmptyString expected); cbn;
        eexists; repeat split; auto.
  - cbn. eexists; repeat split; auto.
Qed.

Lemma fetch_entry_up_to_date (s : State Parser)
    (dl_file url : string) (sha256sum md5sum : option string) (failure : string)
    (check_cmd check_sum content : string) :
  declared_digest sha256sum md5sum = Some (check_cmd, check_sum) ->
  lookup_path (sys s) dl_file = Some (File content) ->
  digest_of E check_cmd content = check_sum ->
  fetch_entry E dl_file url sha256sum md5sum failure s
  = (Returned tt, mkState (log_cmd (CmdChecksum check_cmd dl_file) (sys s)) (self s)).
Proof.
  intros Hd Hf Hsum. unfold fetch_entry.
  unfold bind at 1, get_self at 1. rewrite Hd.
  unfold bind at 1.
  rewrite (checksum_match s dl_file check_sum check_cmd content Hf Hsum).
  reflexivity.
Qed.

(** C2: an entry whose file is there with the declared digest (sha256
    when declared, md5 otherwise) is not downloaded: the fetch returns,
    the only command run is the checksum, and the tree, hence the file,
    is unchanged. *)
Theorem C2_fetch_up_to_date (s : State Parser)
    (dl_file url : string) (sha256sum md5sum : option string) (failure : string)
    (check_cmd check_sum content : string) :
  declared_digest sha256sum md5sum = Some (check_cmd, check_sum) ->
  lookup_path (sys s) dl_file = Some (File content) ->
  digest_of E check_cmd content = check_sum ->
  let r := fetch_entry E dl_file url sha256sum md5sum failure s in
  r.1 = Returned tt
  /\ downloads (trace (sys r.2)) = downloads (trace (sys s))
  /\ trace (sys r.2) = (trace (sys s) ++ [CmdChecksum check_cmd dl_file])%list
  /\ fs (sys r.2) = fs (sys s)
  /\ lookup_path (sys r.2) dl_file = Some (File content)
  /\ cwd (sys r.2) = cwd (sys s)
  /\ self r.2 = self s.
Proof.
  intros Hd Hf Hsum r. subst r.
  rewrite (fetch_entry_up_to_date s dl_file url sha256sum md5sum failure
             check_cmd check_sum content Hd Hf Hsum).
  cbn [fst snd sys self trace fs cwd log_cmd].
  repeat split; auto.
  unfold downloads. rewrite omap_app. cbn. apply app_nil_r.
Qed.

Lemma downloads_snoc tr c :
  downloads (tr ++ [c])
  = (downloads tr ++ match c with CmdCurl url _ => [url] | _ => [] end)%list.
Proof. unfold downloads. rewrite omap_app. cbn. now destruct c. Qed.

Lemma download_frame (s : State Parser) url savepath :
  downloads (trace (sys (download E url savepath s).2))
  = (downloads (trace (sys s)) ++ [url])%list
  /\ cwd (sys (download E url savepath s).2) = cwd (sys s)
  /\ self (download E url savepath s).2 = self s.
Proof.
  destruct (run_shell_cmd_frame E (CmdCurl url savepath) s) as (Ht & Hc & Hs).
  unfold download. unfold bind, ret.
  destruct (run_shell_cmd E (CmdCurl url savepath) s) as [[out|e] s'];
    cbn [fst snd] in *; rewrite Ht, downloads_snoc; auto.
Qed.

Lemma verify_download_frame (s : State Parser) dl_file check_sum check_cmd failure :
  downloads (trace (sys (verify_download E dl_file check_sum check_cmd failure s).2))
  = downloads (trace (sys s)).
Proof.
  destruct (checksum_frame s dl_file check_sum check_cmd) as (b & Hr & _ & _ & _ & Hd).
  unfold verify_download. unfold bind.
  destruct (checksum E dl_file check_sum check_cmd s) as [r s'].
  cbn [fst snd] in *. subst r. now destruct b.
Qed.

(** C4: when the file at hand does not have the declared digest, the
    primary address is tried; if that raises, the alternate address is
    tried when there is one, and the failure propagates when there is
    none; and whenever the download phase returns with a file whose
    digest is still wrong, the fetch raises and transfers nothing more. *)
Theorem C4_fetch_fallback (s s1 : State Parser)
    (dl_file url : string) (sha256sum md5sum : option string) (failure : string)
    (check_cmd check_sum dl_url : string) (alt_dl_url : option string) :
  declared_digest sha256sum md5sum = Some (check_cmd, check_sum) ->
  checksum E dl_file check_sum check_cmd s = (Returned false, s1) ->
  get_download_url E url (strategy (self s)) = (dl_url, alt_dl_url) ->
  let r := fetch_entry E dl_file url sha256sum md5sum failure s in
  (forall e s2,
      Py.truthy alt_dl_url = true ->
      download E dl_url dl_file s1 = (Raised e, s2) ->
      exists alt,
        alt_dl_url = Some alt
        /\ r = (download E alt dl_file ;;;
                verify_download E dl_file check_sum check_cmd failure) s2
        /\ downloads (trace (sys r.2))
           = (downloads (trace (sys s)) ++ [dl_url; alt])%list)
  /\ (forall e s2,
         Py.truthy alt_dl_url = false ->
         download E dl_url dl_file s1 = (Raised e, s2) ->
         r = (Raised e, s2)
         /\ downloads (trace (sys r.2))
            = (downloads (trace (sys s)) ++ [dl_url])%list)
  /\ (forall b s3 s4,
         download_phase E dl_url alt_dl_url dl_file s1 = (Returned b, s3) ->
         checksum E dl_file check_sum check_cmd s3 = (Returned false, s4) ->
         r = (Raised (Exception (failure +:+ dl_file)), s4)
         /\ downloads (trace (sys s4)) = downloads (trace (sys s3))).
Proof.
  intros Hd Hc Hu r.
  assert (Hr : r = (download_phase E dl_url alt_dl_url dl_file ;;;
                    verify_download E dl_file check_sum check_cmd failure) s1).
  { subst r. unfold fetch_entry. unfold bind at 1, get_self at 1. rewrite Hd.
    unfold bind at 1. rewrite Hc. cbn [negb]. now rewrite Hu. }
  destruct (checksum_frame s dl_file check_sum check_cmd) as (b0 & _ & _ & _ & _ & Hd1).
  rewrite Hc in Hd1. cbn [snd] in Hd1.
  split; [|split].
  - intros e s2 Halt Hprim.
    destruct alt_dl_url as [[|a alt']|]; try discriminate. eexists. split; [reflexivity|].
    pose proof (download_frame s1 dl_url dl_file) as (Hp & _).
    rewrite Hprim in Hp. cbn [snd] in Hp.
    assert (Hr2 : r = (download E (String a alt') dl_file ;;;
                       verify_download E dl_file check_sum check_cmd failure) s2).
    { rewrite Hr. unfold download_phase. cbn [Py.truthy default].
      unfold bind at 1, try_except. now rewrite Hprim. }
    split; [exact Hr2|]. rewrite Hr2. unfold bind.
    pose proof (download_frame s2 (String a alt') dl_file) as (Ha & _).
    destruct (download E (String a alt') dl_file s2) as [[v|e'] s3]; cbn [snd] in *.
    + rewrite verify_download_frame, Ha, Hp, Hd1, <- app_assoc. reflexivity.
    + rewrite Ha, Hp, Hd1, <- app_assoc. reflexivity.
  - intros e s2 Halt Hprim.
    pose proof (download_frame s1 dl_url dl_file) as (Hp & _).
    rewrite Hprim in Hp. cbn [snd] in Hp.
    assert (Hr2 : r = (Raised e, s2)).
    { rewrite Hr. unfold download_phase. rewrite Halt. unfold bind. now rewrite Hprim. }
    rewrite Hr2. cbn [snd]. now rewrite Hp, Hd1.
  - intros b s3 s4 Hph Hck.
    destruct (checksum_frame s3 dl_file check_sum check_cmd) as (b1 & _ & _ & _ & _ & Hd3).
    rewrite Hck in Hd3. cbn [snd] in Hd3. split; [|exact Hd3].
    rewrite Hr. unfold bind at 1. rewrite Hph. unfold verify_download, bind.
    now rewrite Hck.
Qed.

End Fetch.

(** A file of the mirror that has the declared sha256 digest. *)
Lemma C2_fetch_up_to_date_witness :
  (Debrepack.fetch_entry Sample.env "a.tgz" "http://x/a.tgz"
     (Some "sha256sum:good") None "Fail to download "
     (mkState (Sample.mirror_sys "good") Sample.parser)).1 = Returned tt.
Proof.
  refine (proj1 (C2_fetch_up_to_date Sample.env
    (mkState (Sample.mirror_sys "good") Sample.parser)
    "a.tgz" "http://x/a.tgz" (Some "sha256sum:good") None "Fail to download "
    "sha256sum" "sha256sum:good" "good" _ _ _)); reflexivity.
Defined.

(** A stale file of the mirror: the primary address fails and the
    alternate one delivers; without alternate address the failure comes
    out; a corrupt delivery ends the fetch. *)
Lemma C4_fetch_fallback_witness :
  (exists alt,
      Some "http://alt/a.tgz" = Some alt
      /\ downloads (trace (sys (Debrepack.fetch_entry Sample.env "a.tgz" "http://x/a.tgz"
                                 (Some "sha256sum:good") None "Fail to download "
                                 (mkState (Sample.mirror_sys "stale") Sample.parser)).2))
         = ["http://x/a.tgz"; alt])
  /\ is_raised (Debrepack.fetch_entry Sample.env "a.tgz" "http://x/a.tgz"
                  (Some "sha256sum:good") None "Fail to download "
                  (mkState (Sample.mirror_sys "stale")
                           (Sample.parser_of "upstream" empty_meta_data))).1 = true
  /\ (Debrepack.fetch_entry Sample.env "a.tgz" "http://bad/a.tgz"
        (Some "sha256sum:good") None "Fail to download "
        (mkState (Sample.mirror_sys "stale")
                 (Sample.parser_of "upstream" empty_meta_data))).1
     = Raised (Exception "Fail to download a.tgz").
Proof.
  split; [|split].
  - destruct (C4_fetch_fallback Sample.env
      (mkState (Sample.mirror_sys "stale") Sample.parser)
      (mkState (log_cmd (CmdChecksum "sha256sum" "a.tgz") (Sample.mirror_sys "stale"))
               Sample.parser)
      "a.tgz" "http://x/a.tgz" (Some "sha256sum:good") None "Fail to download "
      "sha256sum" "sha256sum:good" "http://x/a.tgz" (Some "http://alt/a.tgz")
      eq_refl eq_refl eq_refl) as (Ha & _ & _).
    destruct (Ha (shell_error Sample.env (render (CmdCurl "http://x/a.tgz" "a.tgz")))
                 (mkState (log_cmd (CmdCurl "http://x/a.tgz" "a.tgz")
                            (log_cmd (CmdChecksum "sha256sum" "a.tgz")
                                     (Sample.mirror_sys "stale")))
                          Sample.parser)
                 eq_refl eq_refl) as (alt & Halt & _ & Hd).
    exists alt. split; [exact Halt|exact Hd].
  - destruct (C4_fetch_fallback Sample.env
      (mkState (Sample.mirror_sys "stale") (Sample.parser_of "upstream" empty_meta_data))
      (mkState (log_cmd (CmdChecksum "sha256sum" "a.tgz") (Sample.mirror_sys "stale"))
               (Sample.parser_of "upstream" empty_meta_data))
      "a.tgz" "http://x/a.tgz" (Some "sha256sum:good") None "Fail to download "
      "sha256sum" "sha256sum:good" "http://x/a.tgz" None
      eq_refl eq_refl eq_refl) as (_ & Hb & _).
    destruct (Hb (shell_error Sample.env (render (CmdCurl "http://x/a.tgz" "a.tgz")))
                 (mkState (log_cmd (CmdCurl "http://x/a.tgz" "a.tgz")
                            (log_cmd (CmdChecksum "sha256sum" "a.tgz")
                                     (Sample.mirror_sys "stale")))
                          (Sample.parser_of "upstream" empty_meta_data))
                 eq_refl eq_refl) as (Hr & _).
    now rewrite Hr.
  - destruct (C4_fetch_fallback Sample.env
      (mkState (Sample.mirror_sys "stale") (Sample.parser_of "upstream" empty_meta_data))
      (mkState (log_cmd (CmdChecksum "sha256sum" "a.tgz") (Sample.mirror_sys "stale"))
               (Sample.parser_of "upstream" empty_meta_data))
      "a.tgz" "http://bad/a.tgz" (Some "sha256sum:good") None "Fail to download "
      "sha256sum" "sha256sum:good" "http://bad/a.tgz" None
      eq_refl eq_refl eq_refl) as (_ & _ & Hc).
    destruct (Hc true _ _ eq_refl eq_refl) as (Hr & _).
    now rewrite Hr.
Defined.

(** ** The build revision *)

Lemma bind_Returned {O A B} (m : M O A) (k : A -> M O B) (s s' : State O) (b : B) :
  bind m k s = (Returned b, s') ->
  exists a s1, m s = (Returned a, s1) /\ k a s1 = (Returned b, s').
Proof.
  unfold bind. destruct (m s) as [[a|e] s1]; [eauto|discriminate].
Qed.

Lemma bind_eq {O A B} (m : M O A) (k : A -> M O B) (s s1 : State O) (a : A) :
  m s = (Returned a, s1) -> bind m k s = k a s1.
Proof. unfold bind. now intros ->. Qed.

Section RevisionSteps.
Context (E E' : Env).
Import Debrepack.

(** The two runs that are compared: the same histories, the same
    variables, and a working tree that is at least as dirty in the
    second run. *)
Hypothesis same_commits :
  forall d b w, git_rev_count E' d b w = git_rev_count E d b w.
Hypothesis same_vars : forall x, expandvars E' x = expandvars E x.
Hypothesis more_changes :
  forall d w, (git_status_count E d w <= git_status_count E' d w)%N.

Lemma count_commits_and_changes_mono dir base (a a' n : Z) (s s1 : State Parser) :
  count_commits_and_changes E dir base a s = (Returned n, s1) ->
  self s1 = self s
  /\ exists n',
      count_commits_and_changes E' dir base a' s = (Returned n', s1)
      /\ (n - a <= n' - a')%Z
      /\ ((forall w, (git_status_count E dir w < git_status_count E' dir w)%N) ->
          (n - a < n' - a')%Z).
Proof.
  unfold count_commits_and_changes, run_count_cmd. unfold_monad. cbn [sys self].
  rewrite same_commits.
  destruct (git_rev_count E dir base _) as [c|]; [|discriminate].
  cbn [sys self log_cmd trace fs cwd]. intros [= <- <-]. cbn [self].
  split; [reflexivity|]. eexists. split; [reflexivity|].
  match goal with
  | |- context [git_status_count E dir ?w] =>
      pose proof (more_changes dir w) as Hle; split; [lia|];
      intros Hlt; specialize (Hlt w); lia
  end.
Qed.

Lemma add_pkg_gitrevcount_mono rd (a a' n : Z) (s s1 : State Parser) :
  add_pkg_gitrevcount E rd a s = (Returned n, s1) ->
  self s1 = self s
  /\ exists n',
      add_pkg_gitrevcount E' rd a' s = (Returned n', s1)
      /\ (n - a <= n' - a')%Z
      /\ (forall p, (forall w, (git_status_count E p w < git_status_count E' p w)%N) ->
                    PKG_GITREVCOUNT rd = true -> p = debfolder (pkginfo (self s)) ->
                    (n - a < n' - a')%Z).
Proof.
  unfold add_pkg_gitrevcount. destruct (PKG_GITREVCOUNT rd).
  - unfold bind, get_self; cbn beta iota. intros H.
    destruct (count_commits_and_changes_mono _ _ a a' _ _ _ H) as (Hs & n' & Hr & Hle & Hlt).
    split; [exact Hs|]. exists n'. split; [exact Hr|]. split; [exact Hle|].
    intros p Hp _ ->. now apply Hlt.
  - unfold ret. intros [= <- <-]. split; [reflexivity|].
    exists a'. split; [reflexivity|]. split; [lia|]. discriminate.
Qed.

Lemma add_src_gitrevcount_mono rd (a a' n : Z) (s s1 : State Parser) :
  add_src_gitrevcount E rd a s = (Returned n, s1) ->
  self s1 = self s
  /\ exists n',
      add_src_gitrevcount E' rd a' s = (Returned n', s1)
      /\ (n - a <= n' - a')%Z
      /\ (forall p g sp, (forall w, (git_status_count E p w < git_status_count E' p w)%N) ->
                    SRC_GITREVCOUNT rd = Some g ->
                    src_path (meta_data (self s)) = Some sp ->
                    p = str_of_option sp ->
                    (n - a < n' - a')%Z).
Proof.
  unfold add_src_gitrevcount. destruct (SRC_GITREVCOUNT rd) as [g|].
  - unfold bind, get_self; cbn beta iota.
    destruct (src_path (meta_data (self s))) as [sp|]; [|discriminate].
    intros H.
    destruct (count_commits_and_changes_mono _ _ a a' _ _ _ H) as (Hs & n' & Hr & Hle & Hlt).
    split; [exact Hs|]. exists n'. split; [exact Hr|]. split; [exact Hle|].
    intros p g' sp' Hp _ [= <-] ->. now apply Hlt.
  - unfold ret. intros [= <- <-]. split; [reflexivity|].
    exists a'. split; [reflexivity|]. split; [lia|]. discriminate.
Qed.

Lemma add_gitrevcount_mono rd (a a' n : Z) (s s1 : State Parser) :
  add_gitrevcount E rd a s = (Returned n, s1) ->
  self s1 = self s
  /\ exists n',
      add_gitrevcount E' rd a' s = (Returned n', s1)
      /\ (n - a <= n' - a')%Z
      /\ (forall p g dir, (forall w, (git_status_count E p w < git_status_count E' p w)%N) ->
                    GITREVCOUNT rd = Some g -> SRC_DIR g = Some dir ->
                    p = expandvars E dir ->
                    (n - a < n' - a')%Z).
Proof.
  unfold add_gitrevcount. destruct (GITREVCOUNT rd) as [g|].
  - destruct (SRC_DIR g) as [dir|] eqn:Hdir; [|discriminate].
    destruct (BASE_SRCREV g) as [base|]; [|discriminate].
    rewrite same_vars. intros H.
    destruct (count_commits_and_changes_mono _ _ a a' _ _ _ H) as (Hs & n' & Hr & Hle & Hlt).
    split; [exact Hs|]. exists n'. split; [exact Hr|]. split; [exact Hle|].
    intros p g' dir' Hp [= <-] Hdir' ->. rewrite Hdir in Hdir'.
    injection Hdir' as <-. now apply Hlt.
  - unfold ret. intros [= <- <-]. split; [reflexivity|].
    exists a'. split; [reflexivity|]. split; [lia|]. discriminate.
Qed.

Lemma add_stx_patch_mono rd (a a' n : Z) (s s1 : State Parser) :
  add_stx_patch rd a s = (Returned n, s1) ->
  s1 = s /\ add_stx_patch rd a' s = (Returned (n - a + a')%Z, s).
Proof.
  unfold add_stx_patch. destruct (stx_patch rd) as [[k| | |]|]; try discriminate;
    unfold ret; intros [= <- <-]; split; try reflexivity; do 2 f_equal; lia.
Qed.

(** The revision of the second run is at least that of the first, and
    greater when a counted directory has more changes. *)
Lemma revision_count_mono rd (n : Z) (s s1 : State Parser) :
  revision_count E rd s = (Returned n, s1) ->
  exists n',
    revision_count E' rd s = (Returned n', s1)
    /\ (n <= n')%Z
    /\ (forall p, In p (counted_paths E (self s) rd) ->
                  (forall w, (git_status_count E p w < git_status_count E' p w)%N) ->
                  (n < n')%Z).
Proof.
  unfold revision_count. intros H.
  apply bind_Returned in H as (n1 & t1 & H1 & H).
  apply bind_Returned in H as (n2 & t2 & H2 & H).
  apply bind_Returned in H as (n3 & t3 & H3 & H4).
  destruct (add_pkg_gitrevcount_mono rd 0 0 _ _ _ H1) as (S1 & m1 & R1 & L1 & C1).
  destruct (add_src_gitrevcount_mono rd n1 m1 _ _ _ H2) as (S2 & m2 & R2 & L2 & C2).
  destruct (add_gitrevcount_mono rd n2 m2 _ _ _ H3) as (S3 & m3 & R3 & L3 & C3).
  destruct (add_stx_patch_mono rd n3 m3 _ _ _ H4) as (-> & R4).
  exists (n - n3 + m3)%Z. split; [|split].
  - rewrite (bind_eq _ _ _ _ _ R1), (bind_eq _ _ _ _ _ R2), (bind_eq _ _ _ _ _ R3).
    exact R4.
  - lia.
  - intros p Hin Hp. unfold counted_paths in Hin.
    rewrite !in_app_iff in Hin. destruct Hin as [Hin|[Hin|Hin]].
    + destruct (PKG_GITREVCOUNT rd) eqn:Hpk; [|contradiction].
      destruct Hin as [<-|[]]. specialize (C1 _ Hp eq_refl eq_refl). lia.
    + destruct (SRC_GITREVCOUNT rd) as [g|] eqn:Hg; [|contradiction].
      destruct (src_path (meta_data (self s))) as [sp|] eqn:Hsp; [|contradiction].
      destruct Hin as [<-|[]].
      rewrite <- S1 in Hsp. specialize (C2 _ _ _ Hp eq_refl Hsp eq_refl). lia.
    + destruct (GITREVCOUNT rd) as [g|] eqn:Hg; [|contradiction].
      destruct (SRC_DIR g) as [dir|] eqn:Hdir; [|contradiction].
      destruct Hin as [<-|[]].
      specialize (C3 _ _ _ Hp eq_refl Hdir eq_refl). lia.
Qed.

End RevisionSteps.

(** C6: when the commits and changes of a directory are counted, one
    more line of [git status] there, everything else being at least as
    it was and the commit counts being the same, gives a greater
    revision; the second run returns whenever the first does. *)
Theorem C6_dirty_tree_bumps_revision (E E' : Env) (s : State Debrepack.Parser)
    (rd : RevisionData) (p : string) :
  (forall d b w, git_rev_count E' d b w = git_rev_count E d b w) ->
  (forall x, expandvars E' x = expandvars E x) ->
  (forall d w, (git_status_count E d w <= git_status_count E' d w)%N) ->
  In p (Debrepack.counted_paths E (self s) rd) ->
  (forall w, git_status_count E' p w = (git_status_count E p w + 1)%N) ->
  forall n s1,
    Debrepack.revision_count E rd s = (Returned n, s1) ->
    exists n',
      Debrepack.revision_count E' rd s = (Returned n', s1) /\ (n < n')%Z.
Proof.
  intros Hc Hv Hm Hin Hp n s1 Hrun.
  destruct (revision_count_mono E E' Hc Hv Hm rd n s s1 Hrun) as (n' & Hr & _ & Hlt).
  exists n'. split; [exact Hr|].
  apply (Hlt p Hin). intros w. rewrite Hp. lia.
Qed.

(** Four commits and a clean debian folder, then one uncommitted change. *)
Lemma C6_dirty_tree_bumps_revision_witness :
  exists n' s1,
    Debrepack.revision_count
      (Sample.env_of "3.0 (quilt)" true 1 empty_meta_data) Sample.rules_pkg
      (mkState (Sample.mirror_sys "x") (Sample.parser_143 (Some Sample.rules_pkg)))
    = (Returned n', s1) /\ (4 < n')%Z.
Proof.
  destruct (C6_dirty_tree_bumps_revision
              (Sample.env_of "3.0 (quilt)" true 0 empty_meta_data)
              (Sample.env_of "3.0 (quilt)" true 1 empty_meta_data)
              (mkState (Sample.mirror_sys "x") (Sample.parser_143 (Some Sample.rules_pkg)))
              Sample.rules_pkg "/repo/pkg/debian"
              (fun _ _ _ => eq_refl) (fun _ => eq_refl)
              (fun _ _ => N.le_0_1)
              (or_introl eq_refl) (fun _ => eq_refl)
              4%Z _ eq_refl) as (n' & Hr & Hlt).
  exists n'. eexists. split; [exact Hr|exact Hlt].
Defined.

(** ** The version written to the changelog *)

Section Changelog.
Context (E : Env).
Import Debrepack.

Lemma set_revision_no_rules (s : State Parser) :
  revision (meta_data (self s)) = None ->
  set_revision E s = (Returned EmptyString, s).
Proof.
  intros H. unfold set_revision. unfold bind, get_self. now rewrite H.
Qed.

Lemma set_revision_rules (s : State Parser) rd :
  revision (meta_data (self s)) = Some rd ->
  set_revision E s
  = (rev <- revision_count E rd ;;
     ret (revision_dist E rd +:+ "." +:+ Py.str_of_int rev))
      (mkState (sys s)
               (with_debfolder (Py.join (pkgpath (pkginfo (self s))) "debian")
                               (self s))).
Proof.
  intros H. unfold set_revision. unfold bind at 1, get_self. now rewrite H.
Qed.

Lemma count_commits_and_changes_ge dir base (a n : Z) (s s1 : State Parser) :
  count_commits_and_changes E dir base a s = (Returned n, s1) -> (a <= n)%Z.
Proof.
  unfold count_commits_and_changes, run_count_cmd. unfold_monad. cbn [sys self].
  destruct (git_rev_count E dir base _) as [c|]; [|discriminate].
  intros [= <- _]. lia.
Qed.

Lemma revision_count_nonneg rd (n : Z) (s s1 : State Parser) :
  revision_count E rd s = (Returned n, s1) ->
  match stx_patch rd with
  | Some (YInt k) => (0 <= k)%Z
  | _ => True
  end ->
  (0 <= n)%Z.
Proof.
  unfold revision_count. intros H Hk.
  apply bind_Returned in H as (n1 & t1 & H1 & H).
  apply bind_Returned in H as (n2 & t2 & H2 & H).
  apply bind_Returned in H as (n3 & t3 & H3 & H4).
  assert (0 <= n1)%Z.
  { unfold add_pkg_gitrevcount in H1. destruct (PKG_GITREVCOUNT rd).
    - apply bind_Returned in H1 as (P & t & _ & H1).
      now apply count_commits_and_changes_ge in H1.
    - injection H1 as <- _. lia. }
  assert (n1 <= n2)%Z.
  { unfold add_src_gitrevcount in H2. destruct (SRC_GITREVCOUNT rd).
    - apply bind_Returned in H2 as (P & t & _ & H2).
      destruct (src_path (meta_data P)); [|discriminate].
      now apply count_commits_and_changes_ge in H2.
    - injection H2 as <- _. lia. }
  assert (n2 <= n3)%Z.
  { unfold add_gitrevcount in H3. destruct (GITREVCOUNT rd) as [g|].
    - destruct (SRC_DIR g); [|discriminate].
      destruct (BASE_SRCREV g); [|discriminate].
      now apply count_commits_and_changes_ge in H3.
    - injection H3 as <- _. lia. }
  unfold add_stx_patch in H4.
  destruct (stx_patch rd) as [[k| | |]|]; try discriminate;
    injection H4 as <- _; lia.
Qed.

(** The entry of the changelog carries the version that the changelog
    of the tree gives, followed by the revision suffix. *)
Lemma update_changelog_version (s s1 s2 s3 : State Parser) (src ver suffix : string) :
  let src_dir := srcdir (pkginfo (self s)) in
  let changelog := Py.join src_dir "debian/changelog" in
  run_shell_cmd E (parsechangelog_command changelog "source") s = (Returned src, s1) ->
  run_shell_cmd E (parsechangelog_command changelog "version") s1 = (Returned ver, s2) ->
  set_revision E s2 = (Returned suffix, s3) ->
  update_changelog E s
  = (run_shell_cmd E (dch_command src_dir (ver +:+ suffix) (RELEASENOTES E)) ;;;
     ret (src, ver +:+ suffix)) s3.
Proof.
  intros src_dir changelog H1 H2 H3. unfold update_changelog.
  unfold bind at 1, get_self at 1. fold src_dir. fold changelog.
  rewrite (bind_eq _ _ _ _ _ H1), (bind_eq _ _ _ _ _ H2), (bind_eq _ _ _ _ _ H3).
  reflexivity.
Qed.

Lemma setup_src_files_debver pkgpath_abs files : forall (s s' : State Parser) r,
  setup_src_files E pkgpath_abs files s = (r, s') ->
  debver (meta_data (self s')) = debver (meta_data (self s)).
Proof.
  induction files as [|f files IH]; intros s s' r H.
  - now injection H as _ <-.
  - cbn [setup_src_files] in H.
    unfold os_path_exists in H. unfold_monad. cbn [sys self] in H.
    destruct (lookup_path (sys s) _); cbn [negb] in H.
    + apply IH in H. exact H.
    + now injection H as _ <-.
Qed.

(** [setup] records the parts of the declared version. *)
Lemma setup_versions pkgpath_arg (s s' : State Parser) :
  setup E pkgpath_arg s = (Returned tt, s') ->
  exists ver bv,
    debver (meta_data (self s')) = Some ver
    /\ BaseVersion.parse ver = Returned bv
    /\ versions (self s')
       = mkVersions ver (BaseVersion.upstream_version bv)
                    (BaseVersion.debian_revision bv) (BaseVersion.epoch bv).
Proof.
  unfold setup, os_path_isdir, os_path_exists, read_file. unfold_monad.
  cbn [sys self]. intros H.
  repeat match type of H with
         | context [match lookup_path ?w ?p with _ => _ end] =>
             destruct (lookup_path w p) as [[?|]|]; cbn [negb sys self] in H;
             try discriminate
         end.
  all: try discriminate.
  all: destruct (debver (yaml_full_load E _)) as [ver|] eqn:Hver; [|discriminate].
  all: match type of H with
       | (let (_, _) := ?A ?s0 in _) = _ =>
           destruct (A s0) as [rA sA] eqn:HA;
           assert (HdA : debver (meta_data (self sA)) = Some ver)
       end.
  all: try (destruct rA; [|discriminate]).
  all: try solve
    [ destruct (src_path (yaml_full_load E _)) as [[d|]|];
      [ destruct (negb (isabs (expandvars E d)));
        [ cbn [sys self] in HA; destruct (lookup_path _ _); cbn [negb] in HA;
          injection HA as _ <-; exact Hver
        | injection HA as _ <-; exact Hver ]
      | injection HA as _ <-; exact Hver
      | injection HA as _ <-; exact Hver ] ].
  all: match type of H with
       | (let (_, _) := ?B ?s0 in _) = _ =>
           destruct (B s0) as [rB sB] eqn:HB;
           assert (HdB : debver (meta_data (self sB)) = Some ver)
       end.
  all: try (destruct rB; [|discriminate]).
  all: try solve
    [ destruct (src_files (yaml_full_load E _)) as [files|];
      [ apply setup_src_files_debver in HB; rewrite HB; exact HdA
      | injection HB as _ <-; exact HdA ] ].
  all: destruct (BaseVersion.parse ver) as [bv|] eqn:Hp; [|discriminate].
  all: injection H as <-; exists ver, bv; cbn; auto.
Qed.

(** C5 (as amended): the declared version 2:1.4-3 is split into epoch
    2, upstream version 1.4 and debian revision 3; without revision
    rules the suffix is empty and the version given to the changelog is
    the one read from the changelog of the source tree, nothing added;
    with revision rules the suffix is the distribution tag, a dot and
    the accumulated integer, which is not negative unless [stx_patch]
    is. *)
Theorem C5_version_and_suffix :
  BaseVersion.parse "2:1.4-3"
  = Returned (BaseVersion.mk (Some "2") "1.4" (Some "3"))
  /\ (forall pkgpath_arg (s s' : State Parser),
         setup E pkgpath_arg s = (Returned tt, s') ->
         debver (meta_data (self s')) = Some "2:1.4-3" ->
         versions (self s') = mkVersions "2:1.4-3" "1.4" (Some "3") (Some "2"))
  /\ (forall s : State Parser,
         revision (meta_data (self s)) = None ->
         set_revision E s = (Returned EmptyString, s))
  /\ (forall (s s1 s2 : State Parser) (src ver : string),
         revision (meta_data (self s)) = None ->
         let src_dir := srcdir (pkginfo (self s)) in
         let changelog := Py.join src_dir "debian/changelog" in
         run_shell_cmd E (parsechangelog_command changelog "source") s
         = (Returned src, s1) ->
         run_shell_cmd E (parsechangelog_command changelog "version") s1
         = (Returned ver, s2) ->
         update_changelog E s
         = (run_shell_cmd E (dch_command src_dir ver (RELEASENOTES E)) ;;;
            ret (src, ver)) s2)
  /\ (forall (s s' : State Parser) rd out,
         revision (meta_data (self s)) = Some rd ->
         set_revision E s = (Returned out, s') ->
         exists n,
           out = revision_dist E rd +:+ "." +:+ Py.str_of_int n
           /\ revision_count E rd
                (mkState (sys s)
                   (with_debfolder (Py.join (pkgpath (pkginfo (self s))) "debian")
                                   (self s)))
              = (Returned n, s')
           /\ (match stx_patch rd with
               | Some (YInt k) => (0 <= k)%Z
               | _ => True
               end -> (0 <= n)%Z)).
Proof.
  split; [reflexivity|]. split; [|split; [|split]].
  - intros p s s' Hs Hv.
    destruct (setup_versions p s s' Hs) as (ver & bv & Hd & Hp & Hvs).
    rewrite Hd in Hv. injection Hv as ->. rewrite Hvs.
    vm_compute in Hp. now injection Hp as <-.
  - exact set_revision_no_rules.
  - intros s s1 s2 src ver Hnone src_dir changelog H1 H2.
    destruct (run_shell_cmd_frame E (parsechangelog_command changelog "source") s)
      as (_ & _ & Hs1).
    destruct (run_shell_cmd_frame E (parsechangelog_command changelog "version") s1)
      as (_ & _ & Hs2).
    rewrite H1 in Hs1. rewrite H2 in Hs2. cbn [snd] in Hs1, Hs2.
    assert (Hnone2 : revision (meta_data (self s2)) = None) by now rewrite Hs2, Hs1.
    rewrite (update_changelog_version s s1 s2 s2 src ver EmptyString H1 H2
               (set_revision_no_rules s2 Hnone2)).
    now rewrite append_empty.
  - intros s s' rd out Hrd Hrun.
    rewrite (set_revision_rules s rd Hrd) in Hrun.
    apply bind_Returned in Hrun as (n & t & Hn & Hret).
    injection Hret as <- <-. exists n. split; [reflexivity|]. split; [exact Hn|].
    now apply (revision_count_nonneg rd n _ _ Hn).
Qed.

End Changelog.

(** The package declares 2:1.4-3; its metadata has no revision rules in
    the first three cases and counts the commits of the debian folder in
    the last one. *)
Lemma C5_version_and_suffix_witness :
  (exists s', Debrepack.setup (Sample.env_of "1.0" true 0 (Sample.meta_of "2:1.4-3" None))
                "/repo/pkg" (mkState Sample.repo_sys Sample.parser) = (Returned tt, s')
              /\ Debrepack.versions (self s')
                 = Debrepack.mkVersions "2:1.4-3" "1.4" (Some "3") (Some "2"))
  /\ (Debrepack.set_revision Sample.env
        (mkState (Sample.mirror_sys "x") (Sample.parser_143 None))).1
     = Returned EmptyString
  /\ (Debrepack.update_changelog Sample.env
        (mkState (Sample.mirror_sys "x") (Sample.parser_143 None))).1
     = Returned (EmptyString, "2:1.4-2")
  /\ exists n, (".4" : string) = EmptyString +:+ "." +:+ Py.str_of_int n /\ (0 <= n)%Z.
Proof.
  pose (E := Sample.env_of "1.0" true 0 (Sample.meta_of "2:1.4-3" None)).
  pose (s0 := mkState (Sample.mirror_sys "x") (Sample.parser_143 None)).
  split; [|split; [|split]].
  - exists (Debrepack.setup E "/repo/pkg" (mkState Sample.repo_sys Sample.parser)).2.
    split; [reflexivity|].
    exact (proj1 (proj2 (C5_version_and_suffix E)) "/repo/pkg"
             (mkState Sample.repo_sys Sample.parser) _ eq_refl eq_refl).
  - exact (f_equal fst
             (proj1 (proj2 (proj2 (C5_version_and_suffix Sample.env))) s0 eq_refl)).
  - etransitivity;
      [exact (f_equal fst
                (proj1 (proj2 (proj2 (proj2 (C5_version_and_suffix Sample.env))))
                   s0 _ _ EmptyString "2:1.4-2" eq_refl eq_refl eq_refl))
      |reflexivity].
  - destruct (proj2 (proj2 (proj2 (proj2 (C5_version_and_suffix Sample.env))))
                (mkState (Sample.mirror_sys "x") (Sample.parser_143 (Some Sample.rules_pkg)))
                _ Sample.rules_pkg ".4" eq_refl eq_refl) as (n & Hout & _ & Hpos).
    exists n. split; [exact Hout|]. now apply Hpos.
Defined.

(** The changelog of the tree says 2:1.4-2 while the metadata declares
    2:1.4-3: the entry written carries 2:1.4-2.  And a fixed addition of
    minus five gives the suffix .-5. *)
Lemma C5_counterexample :
  Debrepack.full_version
    (Debrepack.versions (Sample.parser_143 None)) = "2:1.4-3"
  /\ revision (Debrepack.meta_data (Sample.parser_143 None)) = None
  /\ trace (sys (Debrepack.update_changelog Sample.env
                   (mkState (Sample.mirror_sys "x") (Sample.parser_143 None))).2)
     = [Debrepack.parsechangelog_command "/build/pkg/pkg-1.4/debian/changelog" "source";
        Debrepack.parsechangelog_command "/build/pkg/pkg-1.4/debian/changelog" "version";
        Debrepack.dch_command "/build/pkg/pkg-1.4" "2:1.4-2" "notes"]
  /\ Debrepack.dch_command "/build/pkg/pkg-1.4" "2:1.4-2" "notes"
     <> Debrepack.dch_command "/build/pkg/pkg-1.4" "2:1.4-3" "notes"
  /\ (Debrepack.set_revision Sample.env
        (mkState (Sample.mirror_sys "x")
                 (Sample.parser_143 (Some Sample.rules_negative)))).1
     = Returned ".-5"
  /\ (Debrepack.revision_count Sample.env Sample.rules_negative
        (mkState (Sample.mirror_sys "x")
                 (Sample.parser_143 (Some Sample.rules_negative)))).1
     = Returned (-5)%Z.
Proof.
  repeat split; try reflexivity. discriminate.
Qed.

(** ** The working directory *)

Section Keeps.
Context {O X : Type} (view : State O -> X).

Lemma keeps_ret {A} (a : A) : keeps view (ret a : M O A).
Proof. now intros s. Qed.

Lemma keeps_raise {A} e : keeps view (raise e : M O A).
Proof. now intros s. Qed.

Lemma keeps_bind {A B} (m : M O A) (k : A -> M O B) :
  keeps view m -> (forall a, keeps view (k a)) -> keeps view (bind m k).
Proof.
  intros Hm Hk s. unfold bind. specialize (Hm s).
  destruct (m s) as [[a|e] s1]; cbn [snd] in *; [|exact Hm].
  now rewrite Hk.
Qed.

Lemma keeps_try_except {A} (m h : M O A) :
  keeps view m -> keeps view h -> keeps view (try_except m h).
Proof.
  intros Hm Hh s. unfold try_except. specialize (Hm s).
  destruct (m s) as [[a|e] s1]; cbn [snd] in *; [exact Hm|].
  now rewrite Hh.
Qed.

Lemma keeps_get_sys : keeps view (get_sys : M O Sys).
Proof. now intros s. Qed.

Lemma keeps_get_self : keeps view (get_self : M O O).
Proof. now intros s. Qed.

Lemma keeps_foreach {A} (l : list A) (body : A -> M O unit) :
  (forall x, keeps view (body x)) -> keeps view (foreach l body).
Proof.
  intros Hb. induction l as [|x l IH]; cbn [foreach].
  - apply keeps_ret.
  - apply keeps_bind; auto.
Qed.

Lemma keeps_when b (m : M O unit) : keeps view m -> keeps view (when b m).
Proof. destruct b; [auto|intros _; apply keeps_ret]. Qed.

(** Every primitive but [os.chdir] leaves the working directory and the
    object alone. *)
Hypothesis view_frame : frame_view view.

Ltac prim :=
  intros s; apply view_frame; unfold_monad; cbn [sys self];
  repeat match goal with
         | |- context [match ?x with _ => _ end] => destruct x
         end; reflexivity.

Lemma keeps_os_path_exists p : keeps view (os_path_exists p : M O bool).
Proof. unfold os_path_exists. prim. Qed.
Lemma keeps_os_path_isdir p : keeps view (os_path_isdir p : M O bool).
Proof. unfold os_path_isdir. prim. Qed.
Lemma keeps_os_path_isfile p : keeps view (os_path_isfile p : M O bool).
Proof. unfold os_path_isfile. prim. Qed.
Lemma keeps_os_getcwd : keeps view (os_getcwd : M O string).
Proof. unfold os_getcwd. prim. Qed.
Lemma keeps_create_entry p n : keeps view (create_entry p n : M O unit).
Proof. unfold create_entry. prim. Qed.
Lemma keeps_os_mkdir p : keeps view (os_mkdir p : M O unit).
Proof. apply keeps_create_entry. Qed.
Lemma keeps_os_mknod p : keeps view (os_mknod p : M O unit).
Proof. apply keeps_create_entry. Qed.
Lemma keeps_os_remove p : keeps view (os_remove p : M O unit).
Proof. unfold os_remove. prim. Qed.
Lemma keeps_shutil_rmtree p : keeps view (shutil_rmtree p : M O unit).
Proof. unfold shutil_rmtree. prim. Qed.
Lemma keeps_os_listdir p : keeps view (os_listdir p : M O (list string)).
Proof. unfold os_listdir. prim. Qed.
Lemma keeps_read_file p : keeps view (read_file p : M O string).
Proof. unfold read_file. prim. Qed.
Lemma keeps_store_file p c : keeps view (store_file p c : M O unit).
Proof. unfold store_file. prim. Qed.
Lemma keeps_write_file p c : keeps view (write_file p c : M O unit).
Proof. unfold write_file, store_file. prim. Qed.
Lemma keeps_append_file p c : keeps view (append_file p c : M O unit).
Proof. unfold append_file, store_file. prim. Qed.

Lemma keeps_run_shell_cmd E c : keeps view (run_shell_cmd E c : M O string).
Proof. intros s. apply view_frame; apply run_shell_cmd_frame. Qed.
Lemma keeps_run_count_cmd E c : keeps view (run_count_cmd E c : M O Z).
Proof. intros s. apply view_frame; apply run_count_cmd_frame. Qed.

End Keeps.

Lemma frame_view_cwd {O} : frame_view (fun s : State O => cwd (sys s)).
Proof. now intros s s' H _. Qed.

Lemma frame_view_self {O} : frame_view (fun s : State O => self s).
Proof. now intros s s' _ H. Qed.

Lemma keeps_cwd_put_self {O} (o : O) : keeps_cwd (put_self o : M O unit).
Proof. now intros s. Qed.

Create HintDb cwd.
#[export] Hint Resolve frame_view_cwd frame_view_self keeps_cwd_put_self
  keeps_ret keeps_raise keeps_get_sys keeps_get_self keeps_os_path_exists
  keeps_os_path_isdir keeps_os_path_isfile keeps_os_getcwd
  keeps_os_mkdir keeps_os_mknod keeps_os_remove
  keeps_shutil_rmtree keeps_os_listdir keeps_read_file
  keeps_store_file keeps_write_file keeps_append_file
  keeps_run_shell_cmd keeps_run_count_cmd : cwd.

(** The structure of a method is followed down to the calls it makes. *)
Ltac keeps_step :=
  match goal with
  | |- keeps _ (bind _ _) => apply keeps_bind; [|intros ?]
  | |- keeps _ (try_except _ _) => apply keeps_try_except
  | |- keeps _ (foreach _ _) => apply keeps_foreach; intros ?
  | |- keeps _ (when _ _) => apply keeps_when
  | |- keeps _ (if ?b then _ else _) => destruct b
  | |- keeps _ (match ?x with _ => _ end) => destruct x
  | |- keeps _ (let '(_, _) := ?x in _) => destruct x
  | |- keeps _ _ => solve [auto with cwd]
  end.
Ltac keeps_auto := repeat keeps_step.

Section RestoresCwd.
Context {O : Type}.

Lemma resolve_abs (w : Sys) (p : string) :
  Debrepack.isabs p = true -> resolve w p = p.
Proof.
  destruct p as [|a p]; [discriminate|].
  unfold Debrepack.isabs, Py.startswith. cbn [String.prefix].
  destruct (Ascii.ascii_dec "/" a) as [<-|]; [|discriminate]. intros _.
  unfold resolve. destruct p as [|b p]; reflexivity.
Qed.

Lemma os_chdir_returns (p : string) (s s' : State O) r :
  os_chdir p s = (Returned r, s') -> cwd (sys s') = resolve (sys s) p.
Proof.
  unfold os_chdir. unfold_monad. cbn [sys self].
  destruct (lookup_path (sys s) p) as [[c|]|]; try discriminate.
  now intros [= _ <-].
Qed.

Lemma returns_at_os_chdir (p : string) :
  Debrepack.isabs p = true -> returns_at p (os_chdir p : M O unit).
Proof.
  intros Hp s r s' H. apply os_chdir_returns in H. now rewrite resolve_abs in H.
Qed.

Lemma returns_at_raise {A} c e : returns_at c (raise e : M O A).
Proof. intros s r s' H. discriminate. Qed.

(** Whatever comes first, the directory at the end is that of the
    continuation. *)
Lemma returns_at_bind {A B} c (m : M O A) (k : A -> M O B) :
  (forall a, returns_at c (k a)) -> returns_at c (bind m k).
Proof.
  intros Hk s r s' H. apply bind_Returned in H as (a & s1 & _ & H).
  exact (Hk a s1 r s' H).
Qed.

Lemma returns_at_then_keeps {A B} c (m : M O A) (k : A -> M O B) :
  returns_at c m -> (forall a, keeps_cwd (k a)) -> returns_at c (bind m k).
Proof.
  intros Hm Hk s r s' H. apply bind_Returned in H as (a & s1 & H1 & H).
  specialize (Hk a s1). rewrite H in Hk. cbn [snd] in Hk. rewrite Hk.
  exact (Hm s a s1 H1).
Qed.

Lemma returns_at_then_restores {A B} c (m : M O A) (k : A -> M O B) :
  Debrepack.isabs c = true ->
  returns_at c m -> (forall a, restores_cwd (k a)) -> returns_at c (bind m k).
Proof.
  intros Hc Hm Hk s r s' H. apply bind_Returned in H as (a & s1 & H1 & H).
  pose proof (Hm s a s1 H1) as Hc1.
  rewrite (Hk a s1 r s'); [exact Hc1| now rewrite Hc1 | exact H].
Qed.

Lemma restores_cwd_keeps {A} (m : M O A) : keeps_cwd m -> restores_cwd m.
Proof.
  intros Hm s r s' _ H. specialize (Hm s). now rewrite H in Hm.
Qed.

Lemma restores_cwd_bind {A B} (m : M O A) (k : A -> M O B) :
  restores_cwd m -> (forall a, restores_cwd (k a)) -> restores_cwd (bind m k).
Proof.
  intros Hm Hk s r s' Habs H. apply bind_Returned in H as (a & s1 & H1 & H).
  pose proof (Hm s a s1 Habs H1) as Hc1.
  rewrite (Hk a s1 r s'); [exact Hc1| now rewrite Hc1 | exact H].
Qed.

(** The bracket of the source: [pwd = os.getcwd()], then what ends with
    [os.chdir(pwd)]. *)
Lemma restores_cwd_bracket {A} (k : string -> M O A) :
  (forall pwd, Debrepack.isabs pwd = true -> returns_at pwd (k pwd)) ->
  restores_cwd (pwd <- os_getcwd ;; k pwd).
Proof.
  intros Hk s r s' Habs H. unfold bind, os_getcwd, get_sys, ret in H.
  cbn [sys] in H. exact (Hk _ Habs _ _ _ H).
Qed.

Lemma restores_cwd_foreach {A} (l : list A) (body : A -> M O unit) :
  (forall x, restores_cwd (body x)) -> restores_cwd (foreach l body).
Proof.
  intros Hb. induction l as [|x l IH]; cbn [foreach].
  - apply restores_cwd_keeps, keeps_ret.
  - apply restores_cwd_bind; auto.
Qed.

End RestoresCwd.

Ltac restores_cwd_step :=
  match goal with
  | |- restores_cwd (bind os_getcwd _) =>
      apply restores_cwd_bracket; intros ? ?
  | |- restores_cwd (bind _ _) => apply restores_cwd_bind; [|intros ?]
  | |- restores_cwd (foreach _ _) => apply restores_cwd_foreach; intros ?
  | |- restores_cwd (if ?b then _ else _) => destruct b
  | |- restores_cwd (match ?x with _ => _ end) => destruct x
  | |- restores_cwd (let '(_, _) := ?x in _) => destruct x
  | |- restores_cwd _ => solve [auto with cwd]
  | |- restores_cwd _ => solve [apply restores_cwd_keeps; keeps_auto]
  | |- returns_at ?c (bind (os_chdir ?c) _) =>
      first [ apply returns_at_then_keeps;
              [now apply returns_at_os_chdir | intros ?; solve [keeps_auto]]
            | apply returns_at_then_restores;
              [assumption | now apply returns_at_os_chdir | intros ?] ]
  | |- returns_at ?c (os_chdir ?c) => now apply returns_at_os_chdir
  | |- returns_at _ (raise _) => apply returns_at_raise
  | |- returns_at _ (bind _ _) => apply returns_at_bind; intros ?
  | |- returns_at _ (if ?b then _ else _) => destruct b
  | |- returns_at _ (match ?x with _ => _ end) => destruct x
  | |- returns_at _ (let '(_, _) := ?x in _) => destruct x
  end.
Ltac restores_cwd_auto := repeat restores_cwd_step.

Section ParserCwd.
Context (E : Env).
Import Debrepack.

Lemma keeps_cwd_checksum f x c : keeps_cwd (checksum E f x c).
Proof. unfold checksum. keeps_auto. Qed.
Hint Resolve keeps_cwd_checksum : cwd.

Lemma keeps_cwd_checksum_dsc_members d l : keeps_cwd (checksum_dsc_members E d l).
Proof.
  induction l as [|[name sha] l IH]; cbn [checksum_dsc_members]; keeps_auto.
Qed.
Hint Resolve keeps_cwd_checksum_dsc_members : cwd.

Lemma keeps_cwd_checksum_dsc f : keeps_cwd (checksum_dsc E f).
Proof. unfold checksum_dsc. keeps_auto. Qed.

Lemma keeps_cwd_tar_cmd n : keeps_cwd (tar_cmd n).
Proof. unfold tar_cmd. keeps_auto. Qed.
Hint Resolve keeps_cwd_checksum_dsc keeps_cwd_tar_cmd : cwd.

Lemma keeps_cwd_get_topdir f : keeps_cwd (get_topdir E f).
Proof. unfold get_topdir. keeps_auto. Qed.

Lemma keeps_cwd_download u p : keeps_cwd (download E u p).
Proof. unfold download. keeps_auto. Qed.

Lemma keeps_cwd_is_git_repo p : keeps_cwd (is_git_repo E p).
Proof. unfold is_git_repo. keeps_auto. Qed.
Hint Resolve keeps_cwd_get_topdir keeps_cwd_download keeps_cwd_is_git_repo : cwd.

Lemma keeps_cwd_setup_src_files p l : keeps_cwd (setup_src_files E p l).
Proof.
  induction l as [|f l IH]; cbn [setup_src_files]; keeps_auto.
Qed.
Hint Resolve keeps_cwd_setup_src_files : cwd.

Lemma keeps_cwd_setup p : keeps_cwd (setup E p).
Proof. unfold setup. keeps_auto. Qed.

Lemma keeps_cwd_walk_files p : keeps_cwd (walk_files p : M Parser (list string)).
Proof. unfold walk_files. keeps_auto. Qed.
Hint Resolve keeps_cwd_setup keeps_cwd_walk_files : cwd.

Lemma keeps_cwd_set_build_type : keeps_cwd (set_build_type E).
Proof. unfold set_build_type. keeps_auto. Qed.

Lemma keeps_cwd_revision_count rd : keeps_cwd (revision_count E rd).
Proof.
  unfold revision_count, add_pkg_gitrevcount, add_src_gitrevcount,
    add_gitrevcount, add_stx_patch, count_commits_and_changes.
  keeps_auto.
Qed.
Hint Resolve keeps_cwd_set_build_type keeps_cwd_revision_count : cwd.

Lemma keeps_cwd_set_revision : keeps_cwd (set_revision E).
Proof. unfold set_revision. keeps_auto. Qed.

Lemma keeps_cwd_set_deb_format : keeps_cwd (set_deb_format E).
Proof. unfold set_deb_format. keeps_auto. Qed.

Lemma keeps_cwd_create_orig_tarball : keeps_cwd (create_orig_tarball E).
Proof. unfold create_orig_tarball. keeps_auto. Qed.

Lemma keeps_cwd_upload_deb_package : keeps_cwd (upload_deb_package E).
Proof. unfold upload_deb_package. keeps_auto. Qed.
Hint Resolve keeps_cwd_set_revision keeps_cwd_set_deb_format
  keeps_cwd_create_orig_tarball keeps_cwd_upload_deb_package : cwd.

Lemma keeps_cwd_fetch_entry f u a b msg : keeps_cwd (fetch_entry E f u a b msg).
Proof.
  unfold fetch_entry, download_phase, verify_download. keeps_auto.
Qed.

Lemma keeps_cwd_dget u : keeps_cwd (dget E u).
Proof. unfold dget. keeps_auto. Qed.

Lemma keeps_cwd_reset_packdir : keeps_cwd reset_packdir.
Proof. unfold reset_packdir. keeps_auto. Qed.

Lemma keeps_cwd_prepare_packdir m : keeps_cwd (prepare_packdir E m).
Proof. unfold prepare_packdir. keeps_auto. Qed.

Lemma keeps_cwd_update_changelog : keeps_cwd (update_changelog E).
Proof. unfold update_changelog. keeps_auto. Qed.
Hint Resolve keeps_cwd_fetch_entry keeps_cwd_dget keeps_cwd_reset_packdir
  keeps_cwd_prepare_packdir keeps_cwd_update_changelog : cwd.

Lemma keeps_cwd_repackage : keeps_cwd (repackage E).
Proof. unfold repackage. keeps_auto. Qed.
Hint Resolve keeps_cwd_repackage : cwd.

(** The methods that change directory come back when they return. *)
Lemma restores_cwd_update_deb_folder : restores_cwd (update_deb_folder E).
Proof. unfold update_deb_folder. restores_cwd_auto. Qed.

Lemma restores_cwd_apply_src_patches : restores_cwd (apply_src_patches E).
Proof. unfold apply_src_patches, apply_src_patch. restores_cwd_auto. Qed.

Lemma restores_cwd_apply_deb_patches : restores_cwd (apply_deb_patches E).
Proof. unfold apply_deb_patches. restores_cwd_auto. Qed.

Lemma restores_cwd_copy_custom_files : restores_cwd (copy_custom_files E).
Proof. unfold copy_custom_files. restores_cwd_auto. Qed.
Hint Resolve restores_cwd_update_deb_folder restores_cwd_apply_src_patches
  restores_cwd_apply_deb_patches restores_cwd_copy_custom_files : cwd.

Lemma restores_cwd_extract_tarball : restores_cwd (extract_tarball E).
Proof. unfold extract_tarball. restores_cwd_auto. Qed.

Lemma restores_cwd_create_src_package : restores_cwd (create_src_package E).
Proof. unfold create_src_package. restores_cwd_auto. Qed.

Lemma restores_cwd_run_dl_hook : restores_cwd (run_dl_hook E).
Proof. unfold run_dl_hook. restores_cwd_auto. Qed.
Hint Resolve restores_cwd_extract_tarball restores_cwd_create_src_package
  restores_cwd_run_dl_hook : cwd.

Lemma restores_cwd_Parser_download p m : restores_cwd (Parser_download E p m).
Proof. unfold Parser_download. restores_cwd_auto. Qed.

Lemma restores_cwd_resolve_origin : restores_cwd (resolve_origin E).
Proof. unfold resolve_origin. restores_cwd_auto. Qed.
Hint Resolve restores_cwd_resolve_origin : cwd.

Lemma restores_cwd_package p m : restores_cwd (package E p m).
Proof. unfold package, assemble_package. restores_cwd_auto. Qed.

End ParserCwd.

Section BuilderCwd.
Context (T : PatchBuilder.Tools).
Context {X : Type} (view : State PatchBuilder.Builder -> X).
Hypothesis view_frame : frame_view view.
Import PatchBuilder.

Hint Resolve view_frame : cwd.

Lemma keeps_get_md5 p : keeps view (get_md5 T p).
Proof. unfold get_md5. keeps_auto. Qed.
Hint Resolve keeps_get_md5 : cwd.

Lemma keeps_shutil_copy a b : keeps view (shutil_copy a b).
Proof. unfold shutil_copy. keeps_auto. Qed.

Lemma keeps_os_makedirs p : keeps view (os_makedirs p).
Proof.
  intros s. apply view_frame; unfold os_makedirs; unfold_monad; cbn [sys];
    now destruct (fs (sys s) !! _).
Qed.
Hint Resolve keeps_shutil_copy keeps_os_makedirs : cwd.

Lemma keeps_copy_rename_script p t r : keeps view (copy_rename_script p t r).
Proof. unfold copy_rename_script. keeps_auto. Qed.

Lemma keeps_tar_extract m f d : keeps view (tar_extract m f d).
Proof. intros s. now apply view_frame. Qed.
Hint Resolve keeps_copy_rename_script keeps_tar_extract : cwd.

Lemma keeps_extract_files m d l : keeps view (extract_files m d l).
Proof. induction l as [|f l IH]; cbn [extract_files]; keeps_auto. Qed.
Hint Resolve keeps_extract_files : cwd.

Lemma keeps_check_call_ar a b : keeps view (check_call_ar T a b).
Proof.
  intros s. apply view_frame; unfold check_call_ar; unfold_monad;
    now destruct (ar_extract T _ _ _) as [[|] m].
Qed.
Hint Resolve keeps_check_call_ar : cwd.

Lemma keeps_get_files_from_deb a b c l : keeps view (get_files_from_deb T a b c l).
Proof. unfold get_files_from_deb. keeps_auto. Qed.

Lemma keeps_fold_signature l : forall acc, keeps view (fold_signature T acc l).
Proof. induction l as [|f l IH]; intros acc; cbn [fold_signature]; keeps_auto. Qed.

Lemma keeps_only_files l : keeps view (only_files l).
Proof. induction l as [|f l IH]; cbn [only_files]; keeps_auto. Qed.
Hint Resolve keeps_get_files_from_deb keeps_fold_signature keeps_only_files : cwd.

Lemma keeps_sign_and_pack p : keeps view (sign_and_pack T p).
Proof. unfold sign_and_pack, write_mdsum_signature. keeps_auto. Qed.

Lemma keeps_run_fetch f n : keeps view (run_fetch f n).
Proof.
  intros s. apply view_frame; unfold run_fetch; unfold_monad;
    now destruct (f _ _) as [[|] m].
Qed.

Lemma keeps_tempfile_mkdtemp p : keeps view (tempfile_mkdtemp T p).
Proof. unfold tempfile_mkdtemp. keeps_auto. Qed.

(** The list of the packed archives grows; nothing else of the builder
    changes. *)
Hypothesis view_debs :
  forall w B file, view (mkState w (append_deb file B)) = view (mkState w B).

Lemma keeps_add_members d l : keeps view (add_members d l).
Proof.
  unfold add_members. apply keeps_foreach. intros file s.
  unfold os_path_exists. unfold_monad. cbn [sys self].
  destruct (lookup_path (sys s) _); cbn [negb snd]; [|reflexivity].
  rewrite view_debs. now destruct s.
Qed.
Hint Resolve keeps_sign_and_pack keeps_add_members keeps_run_fetch
  keeps_tempfile_mkdtemp : cwd.

Lemma keeps_assemble_bundle d : keeps view (assemble_bundle T d).
Proof. unfold assemble_bundle. keeps_auto. Qed.

End BuilderCwd.

#[export] Hint Resolve keeps_get_md5 keeps_shutil_copy keeps_os_makedirs
  keeps_copy_rename_script keeps_tar_extract keeps_extract_files
  keeps_check_call_ar keeps_get_files_from_deb keeps_fold_signature
  keeps_only_files keeps_sign_and_pack keeps_run_fetch keeps_tempfile_mkdtemp
  keeps_add_members keeps_assemble_bundle : cwd.

(** ** The outcomes of the patch build *)

Lemma keeps_eq {O A X} (view : State O -> X) (m : M O A) s r s1 :
  keeps view m -> m s = (r, s1) -> view s1 = view s.
Proof. intros Hm H. specialize (Hm s). now rewrite H in Hm. Qed.

Lemma write_file_lookup {O} (p c : string) (t t' : State O) r :
  write_file p c t = (Returned r, t') ->
  lookup_path (sys t') p = Some (File c).
Proof.
  unfold write_file, store_file. unfold_monad. cbn [sys self].
  destruct (lookup_path (sys t) p) as [[old|]|];
    destruct (fs (sys t) !! Py.dirname (resolve (sys t) p)) as [[?|]|];
    try discriminate; intros [= _ <-];
    unfold lookup_path; cbn [sys fs set_fs];
    change (resolve (set_fs _ (sys t)) p) with (resolve (sys t) p);
    apply lookup_insert_eq.
Qed.

Section BuildOutcomes.
Context (T : PatchBuilder.Tools).
Import PatchBuilder.

Lemma sign_and_pack_bundle name (t s' : State Builder) r :
  sign_and_pack T name t = (Returned r, s') ->
  exists c, lookup_path (sys s') (Py.join (PATCH_OUTPUT T) name) = Some (File c).
Proof.
  unfold sign_and_pack. intros H.
  apply bind_Returned in H as (B & t1 & _ & H).
  apply bind_Returned in H as (? & t2 & _ & H).
  apply bind_Returned in H as (w & t3 & _ & H).
  destruct (sign_files T _ w) as [[sg need]|]; [|discriminate].
  apply bind_Returned in H as (? & t4 & _ & H).
  apply bind_Returned in H as (names & t5 & _ & H).
  apply bind_Returned in H as (files & t6 & _ & H).
  apply bind_Returned in H as (present & t7 & _ & H).
  apply bind_Returned in H as (? & t8 & _ & H).
  apply bind_Returned in H as (w' & t9 & _ & H).
  eexists. exact (write_file_lookup _ _ _ _ _ H).
Qed.

Lemma assemble_bundle_bundle dl_dir (t s' : State Builder) r :
  assemble_bundle T dl_dir t = (Returned r, s') ->
  exists c,
    lookup_path (sys s') (Py.join (PATCH_OUTPUT T) (patch_name (self s')))
    = Some (File c).
Proof.
  unfold assemble_bundle. intros H.
  do 4 (apply bind_Returned in H as (? & ? & _ & H)).
  apply bind_Returned in H as (? & t5 & _ & H).
  apply bind_Returned in H as (B & t6 & HB & H).
  injection HB as <- <-.
  assert (Hs : self s' = self t5).
  { eapply (keeps_eq (fun s => self s)); [|exact H]. keeps_auto. }
  do 7 (apply bind_Returned in H as (? & ? & _ & H)).
  rewrite Hs. now apply sign_and_pack_bundle in H.
Qed.

(** What [build_patch] can return: [False] from an empty download area,
    the process being where it was; or [None], the bundle being written
    and the process being left in the temporary directory. *)
Lemma build_patch_returns (s s' : State Builder) r :
  build_patch T s = (Returned r, s') ->
  (r = Some false
   /\ os_listdir (Py.join (Py.join (output_dir (self s)) "downloads") "binary") s'
      = (Returned [], s')
   /\ cwd (sys s') = cwd (sys s))
  \/ (r = None
      /\ (exists c,
             lookup_path (sys s') (Py.join (PATCH_OUTPUT T) (patch_name (self s')))
             = Some (File c))
      /\ exists w,
          cwd w = cwd (sys s)
          /\ cwd (sys s') = resolve w (mkdtemp T "patch_" w)).
Proof.
  unfold build_patch. intros H.
  apply bind_Returned in H as (? & s1 & H1 & H).
  apply bind_Returned in H as (? & s2 & H2 & H).
  apply bind_Returned in H as (B & s2' & HB & H). injection HB as <- <-.
  pose proof (keeps_eq (fun s => self s) _ _ _ _
                (keeps_run_fetch _ frame_view_self _ _) H1) as Hself1.
  pose proof (keeps_eq (fun s => self s) _ _ _ _
                (keeps_run_fetch _ frame_view_self _ _) H2) as Hself2.
  pose proof (keeps_eq (fun s => cwd (sys s)) _ _ _ _
                (keeps_run_fetch _ frame_view_cwd _ _) H1) as Hcwd1.
  pose proof (keeps_eq (fun s => cwd (sys s)) _ _ _ _
                (keeps_run_fetch _ frame_view_cwd _ _) H2) as Hcwd2.
  cbn beta in *. rewrite Hself2, Hself1 in H.
  apply bind_Returned in H as (fetched & s3 & H3 & H).
  assert (Hs3 : s3 = s2).
  { revert H3. unfold os_listdir. unfold_monad. cbn [sys].
    destruct (fs (sys s2) !! _) as [[?|]|]; try discriminate. now intros [= _ <-]. }
  subst s3. destruct fetched as [|f fetched].
  - injection H as <- <-. left. repeat split; [exact H3|congruence].
  - right.
    apply bind_Returned in H as (tmpdir & s4 & H4 & H).
    apply bind_Returned in H as (? & s5 & H5 & H).
    apply bind_Returned in H as (? & s6 & H6 & H).
    injection H as <- <-. split; [reflexivity|]. split.
    + exact (assemble_bundle_bundle _ _ _ _ H6).
    + pose proof (keeps_eq (fun s => cwd (sys s)) _ _ _ _
                    (keeps_assemble_bundle T _ frame_view_cwd
                       (fun _ _ _ => eq_refl) _) H6) as Hc6.
      cbn beta in Hc6. rewrite Hc6. apply os_chdir_returns in H5. rewrite H5.
      unfold tempfile_mkdtemp in H4.
      apply bind_Returned in H4 as (w & s2'' & Hw & H4). injection Hw as <- <-.
      apply bind_Returned in H4 as (? & s4' & Hmk & H4). injection H4 as <- <-.
      pose proof (keeps_eq (fun s => cwd (sys s)) _ _ _ _
                    (keeps_os_mkdir _ frame_view_cwd _) Hmk) as Hc4.
      cbn beta in Hc4.
      exists (sys s2). split; [congruence|].
      unfold resolve. now rewrite Hc4.
Qed.

Lemma build_patch_empty (s s1 s2 : State Builder) :
  run_fetch (fetch_stx_packages T) "fetch_stx_packages" s = (Returned tt, s1) ->
  run_fetch (fetch_external_binaries T) "fetch_external_binaries" s1
  = (Returned tt, s2) ->
  os_listdir (Py.join (Py.join (output_dir (self s2)) "downloads") "binary") s2
  = (Returned [], s2) ->
  build_patch T s = (Returned (Some false), s2).
Proof.
  intros H1 H2 H3. unfold build_patch.
  rewrite (bind_eq _ _ _ _ _ H1), (bind_eq _ _ _ _ _ H2).
  unfold bind at 1, get_self at 1.
  now rewrite (bind_eq _ _ _ _ _ H3).
Qed.

(** C9 (as amended): the patch build returns [None] with the bundle
    written at its output path, or raises, or, when the download area
    is empty after the fetch, returns [False]: nothing is raised then,
    and the process state is the one the fetch left. *)
Theorem C9_build_outcomes (s : State Builder) :
  (forall s1 s2,
      run_fetch (fetch_stx_packages T) "fetch_stx_packages" s = (Returned tt, s1) ->
      run_fetch (fetch_external_binaries T) "fetch_external_binaries" s1
      = (Returned tt, s2) ->
      os_listdir (Py.join (Py.join (output_dir (self s2)) "downloads") "binary") s2
      = (Returned [], s2) ->
      build_patch T s = (Returned (Some false), s2))
  /\ (forall r s',
         build_patch T s = (Returned r, s') ->
         (r = Some false
          /\ os_listdir (Py.join (Py.join (output_dir (self s)) "downloads") "binary") s'
             = (Returned [], s'))
         \/ (r = None
             /\ exists c,
                 lookup_path (sys s')
                   (Py.join (PATCH_OUTPUT T) (patch_name (self s')))
                 = Some (File c))).
Proof.
  split.
  - intros s1 s2. apply build_patch_empty.
  - intros r s' H.
    destruct (build_patch_returns s s' r H) as [(Hr & Hl & _)|(Hr & Hb & _)];
      [left|right]; auto.
Qed.

End BuildOutcomes.

(** An empty download area, and one with a package. *)
Lemma C9_build_outcomes_witness :
  (PatchBuilder.build_patch Sample.tools
     (mkState Sample.empty_build_sys Sample.builder)).1 = Returned (Some false)
  /\ exists c,
      lookup_path
        (sys (PatchBuilder.build_patch Sample.tools
                (mkState Sample.build_sys Sample.builder)).2)
        "/out/P1.patch" = Some (File c).
Proof.
  split.
  - refine (f_equal fst
      (proj1 (C9_build_outcomes Sample.tools
                (mkState Sample.empty_build_sys Sample.builder))
             (mkState Sample.empty_build_sys Sample.builder)
             (mkState Sample.empty_build_sys Sample.builder) _ _ _));
      vm_compute; reflexivity.
  - assert (H : PatchBuilder.build_patch Sample.tools
                  (mkState Sample.build_sys Sample.builder)
                = (Returned None,
                   (PatchBuilder.build_patch Sample.tools
                      (mkState Sample.build_sys Sample.builder)).2))
      by (vm_compute; reflexivity).
    destruct (proj2 (C9_build_outcomes Sample.tools
                       (mkState Sample.build_sys Sample.builder))
                    None _ H) as [(Hr & _)|(_ & c & Hc)];
      [discriminate|].
    exists c. exact Hc.
Defined.

(** With nothing fetched, the build returns a value and raises nothing. *)
Lemma C9_counterexample :
  PatchBuilder.build_patch Sample.tools
    (mkState Sample.empty_build_sys Sample.builder)
  = (Returned (Some false), mkState Sample.empty_build_sys Sample.builder)
  /\ is_raised (PatchBuilder.build_patch Sample.tools
                  (mkState Sample.empty_build_sys Sample.builder)).1 = false.
Proof. split; vm_compute; reflexivity. Qed.


(** ** Applying the source patches *)

Section Registration.
Context (E : Env) {O : Type}.



End Registration.

Section QuiltLoop.
Context (E : Env).
Context (ver psrc pfolder sfile : string).
Import Debrepack.

Hypothesis not_legacy : String.eqb ver "1.0" = false.
Hypothesis abs_psrc : isabs psrc = true.
Hypothesis abs_pfolder : isabs pfolder = true.
Hypothesis abs_sfile : isabs sfile = true.
Hypothesis sfile_parent : Py.dirname sfile = pfolder.




End QuiltLoop.

Section AbsolutePaths.
Context {O : Type}.
Import Debrepack.

Lemma lookup_path_abs (w : Sys) p : isabs p = true -> lookup_path w p = fs w !! p.
Proof. intros H. unfold lookup_path. now rewrite resolve_abs. Qed.




Lemma create_entry_abs (s : State O) p n :
  isabs p = true -> fs (sys s) !! p = None ->
  fs (sys s) !! Py.dirname p = Some Dir ->
  create_entry p n s
  = (Returned tt, mkState (set_fs (<[p := n]> (fs (sys s))) (sys s)) (self s)).
Proof.
  intros H Hn Hd. unfold create_entry. unfold_monad. cbn [sys].
  now rewrite resolve_abs, Hn, Hd.
Qed.


End AbsolutePaths.

Section DirectLoop.
Context (E : Env).
Context (ver : string) (ty : option string) (psrc pfolder sfile : string).
Import Debrepack.

(** The formats whose patches are applied to the working tree. *)
Hypothesis direct :
  String.eqb ver "1.0" = true
  \/ (String.eqb ver "1.0" = false /\ ty = Some "native").



End DirectLoop.

Section SourcePatches.
Context (E : Env).
Import Debrepack.




Lemma applied_patches_app tr tr' :
  applied_patches (tr ++ tr') = (applied_patches tr ++ applied_patches tr')%list.
Proof. unfold applied_patches. apply omap_app. Qed.




End SourcePatches.



(** ** An unrecognised source format *)

(** C7: a tree whose format is 3.0 (git), neither legacy nor native nor
    quilt.  The patches of the package are refused: [apply_src_patches]
    raises and applies none.  The patches of the debian-folder overlay
    are not: [update_deb_folder] returns and has applied both of them.
    The two loops pass over the same lines, the comment and the blank
    line of the series. *)
Theorem C7_unrecognised_format :
  let E := Sample.env_of "3.0 (git)" true 0 empty_meta_data in
  let src := Debrepack.apply_src_patches E (mkState Sample.fresh_tree_sys Sample.parser) in
  let overlay := Debrepack.update_deb_folder E (mkState Sample.overlay_sys Sample.parser) in
  Debrepack.parse_deb_format "3.0 (git)" = Returned ("3.0", Some "git")
  /\ src.1 = Raised (Exception "[ Invalid deb format: 3.0 git ]")
  /\ applied_patches (trace (sys src.2)) = []
  /\ overlay.1 = Returned true
  /\ applied_patches (trace (sys overlay.2))
     = ["/repo/pkg/debian/deb_folder/patches/p1.patch";
        "/repo/pkg/debian/deb_folder/patches/p2.patch"]
  /\ series_entries Sample.two_patches = ["p1.patch"; "p2.patch"].
Proof. repeat split; vm_compute; reflexivity. Qed.

(** ** Where the process is left *)

(** C8 (as amended): the methods of the package builder that change the
    working directory are back in the directory they started from
    whenever they return; the patch build changes into its temporary
    directory and returns there, not in the directory it started from
    (from which it returns only when the download area is empty). *)
Theorem C8_working_directory (E : Env) (T : PatchBuilder.Tools) :
  restores_cwd (Debrepack.update_deb_folder E)
  /\ restores_cwd (Debrepack.copy_custom_files E)
  /\ restores_cwd (Debrepack.apply_src_patches E)
  /\ restores_cwd (Debrepack.apply_deb_patches E)
  /\ restores_cwd (Debrepack.run_dl_hook E)
  /\ (forall pkgpath mirror, restores_cwd (Debrepack.Parser_download E pkgpath mirror))
  /\ (forall pkgpath mirror, restores_cwd (Debrepack.package E pkgpath mirror))
  /\ (forall s r s',
         PatchBuilder.build_patch T s = (Returned r, s') ->
         (r = Some false /\ cwd (sys s') = cwd (sys s))
         \/ (r = None
             /\ exists w,
                 cwd w = cwd (sys s)
                 /\ cwd (sys s') = resolve w (PatchBuilder.mkdtemp T "patch_" w))).
Proof.
  split; [apply restores_cwd_update_deb_folder|].
  split; [apply restores_cwd_copy_custom_files|].
  split; [apply restores_cwd_apply_src_patches|].
  split; [apply restores_cwd_apply_deb_patches|].
  split; [apply restores_cwd_run_dl_hook|].
  split; [apply restores_cwd_Parser_download|].
  split; [apply restores_cwd_package|].
  intros s r s' H.
  destruct (build_patch_returns T s s' r H) as [(Hr & _ & Hc)|(Hr & _ & Hw)];
    [left|right]; auto.
Qed.

(** The two patches registered from the root directory, and a bundle
    built from there. *)
Lemma C8_working_directory_witness :
  cwd (sys (Debrepack.apply_src_patches Sample.env
              (mkState Sample.fresh_tree_sys Sample.parser)).2) = "/"
  /\ exists w,
      cwd (sys (PatchBuilder.build_patch Sample.tools
                  (mkState Sample.build_sys Sample.builder)).2)
      = resolve w (PatchBuilder.mkdtemp Sample.tools "patch_" w).
Proof.
  split.
  - refine (proj1 (proj2 (proj2 (C8_working_directory Sample.env Sample.tools)))
              (mkState Sample.fresh_tree_sys Sample.parser) true _ eq_refl _).
    vm_compute. reflexivity.
  - assert (H : PatchBuilder.build_patch Sample.tools
                  (mkState Sample.build_sys Sample.builder)
                = (Returned None,
                   (PatchBuilder.build_patch Sample.tools
                      (mkState Sample.build_sys Sample.builder)).2))
      by (vm_compute; reflexivity).
    destruct (proj2 (proj2 (proj2 (proj2 (proj2 (proj2 (proj2
                (C8_working_directory Sample.env Sample.tools)))))))
                _ _ _ H) as [(Hr & _)|(_ & w & _ & Hw)]; [discriminate|].
    exists w. exact Hw.
Defined.

(** A patch that does not apply: [apply_src_patches] raises and leaves
    the process in the source tree instead of the root directory it
    started from.  A bundle that is built: [build_patch] returns in its
    temporary directory. *)
Lemma C8_counterexample :
  let failed :=
    Debrepack.apply_src_patches (Sample.env_of "1.0" false 0 empty_meta_data)
      (mkState Sample.fresh_tree_sys Sample.parser) in
  let built :=
    PatchBuilder.build_patch Sample.tools
      (mkState Sample.build_sys Sample.builder) in
  cwd Sample.fresh_tree_sys = "/"
  /\ failed.1
     = Raised (shell_error (Sample.env_of "1.0" false 0 empty_meta_data)
                 "patch -p1 < /repo/pkg/debian/patches/p1.patch")
  /\ cwd (sys failed.2) = "/build/pkg/pkg-1.0"
  /\ cwd Sample.build_sys = "/"
  /\ built.1 = Returned None
  /\ cwd (sys built.2) = "/tmp/patch_x".
Proof. repeat split; vm_compute; reflexivity. Qed.

(** ** The working directory of a package *)

Lemma under_irrefl (p : string) : under p p = false.
Proof.
  unfold under, Py.startswith. induction p as [|a p IH]; [reflexivity|].
  change (String a p +:+ "/") with (String a (p +:+ "/")). cbn [String.prefix].
  now destruct (Ascii.ascii_dec a a).
Qed.

Lemma rmtree_fs_lookup (q k : string) (m : gmap string node) :
  rmtree_fs q m !! k = if in_tree q k then None else m !! k.
Proof.
  unfold rmtree_fs. destruct (in_tree q k) eqn:Hin.
  - apply map_lookup_filter_None. right. intros x _. cbn. rewrite Hin. discriminate.
  - destruct (m !! k) as [x|] eqn:Hk.
    + apply map_lookup_filter_Some_2; [exact Hk|]. cbn. now rewrite Hin.
    + apply map_lookup_filter_None. now left.
Qed.

Section FreshPackdir.
Context (E : Env).
Import Debrepack.

Lemma create_entry_inv (s t : State Parser) p n :
  isabs p = true ->
  create_entry p n s = (Returned tt, t) ->
  t = mkState (set_fs (<[p := n]> (fs (sys s))) (sys s)) (self s).
Proof.
  intros Habs. unfold create_entry. unfold_monad. cbn [sys].
  rewrite resolve_abs by assumption.
  destruct (fs (sys s) !! p); [discriminate|].
  destruct (fs (sys s) !! Py.dirname p) as [[?|]|]; try discriminate.
  now intros [= <-].
Qed.

Lemma shutil_rmtree_inv (s t : State Parser) p :
  isabs p = true ->
  shutil_rmtree p s = (Returned tt, t) ->
  fs (sys s) !! p = Some Dir
  /\ t = mkState (set_fs (rmtree_fs p (fs (sys s))) (sys s)) (self s).
Proof.
  intros Habs. unfold shutil_rmtree. unfold_monad. cbn [sys].
  rewrite resolve_abs by assumption.
  destruct (fs (sys s) !! p) as [[?|]|]; try discriminate.
  now intros [= <-].
Qed.

Lemma os_path_exists_abs (s : State Parser) p :
  isabs p = true ->
  os_path_exists p s
  = (Returned match fs (sys s) !! p with Some _ => true | None => false end, s).
Proof.
  intros H. unfold os_path_exists. unfold_monad. now rewrite lookup_path_abs.
Qed.

Lemma reset_packdir_returns (s t : State Parser) :
  isabs (packdir (pkginfo (self s))) = true ->
  reset_packdir s = (Returned tt, t) ->
  t = mkState (set_fs (fresh_tree (packdir (pkginfo (self s))) (fs (sys s))) (sys s))
              (self s).
Proof.
  intros Habs. unfold reset_packdir, os_mkdir, fresh_tree.
  unfold bind at 1, get_self at 1.
  rewrite (bind_eq _ _ _ _ _ (os_path_exists_abs s _ Habs)).
  destruct (fs (sys s) !! packdir (pkginfo (self s))) as [n|] eqn:Hp;
    cbn [when]; intros H.
  - apply bind_Returned in H as ([] & s1 & H1 & H).
    apply shutil_rmtree_inv in H1 as [_ ->]; [|assumption].
    apply create_entry_inv in H; [|assumption]. exact H.
  - apply bind_Returned in H as ([] & s1 & H1 & H). injection H1 as <-.
    apply create_entry_inv in H; [|assumption]. exact H.
Qed.

Lemma under_in_tree pack q : under pack q = true -> in_tree pack q = true.
Proof. unfold in_tree. intros ->. apply orb_true_r. Qed.

Lemma fresh_tree_lookup pack (m : gmap string node) :
  no_orphans pack m ->
  fresh_tree pack m !! pack = Some Dir
  /\ (forall q, under pack q = true -> fresh_tree pack m !! q = None)
  /\ (forall q, in_tree pack q = false -> fresh_tree pack m !! q = m !! q).
Proof.
  intros Hwf. unfold fresh_tree. split; [apply lookup_insert_eq|]. split.
  - intros q Hq.
    assert (pack <> q) by (intros <-; rewrite under_irrefl in Hq; discriminate).
    rewrite lookup_insert_ne by assumption.
    destruct (m !! pack) eqn:Hp.
    + now rewrite rmtree_fs_lookup, (under_in_tree _ _ Hq).
    + now apply Hwf.
  - intros q Hq.
    assert (pack <> q).
    { intros <-. unfold in_tree in Hq. now rewrite String.eqb_refl in Hq. }
    rewrite lookup_insert_ne by assumption.
    destruct (m !! pack); [|reflexivity].
    now rewrite rmtree_fs_lookup, Hq.
Qed.

(** Two trees that differ below the working directory only give the
    same fresh tree. *)
Lemma fresh_tree_agree pack (m1 m2 : gmap string node) :
  no_orphans pack m1 -> no_orphans pack m2 ->
  (forall q, in_tree pack q = false -> m2 !! q = m1 !! q) ->
  fresh_tree pack m2 = fresh_tree pack m1.
Proof.
  intros Hwf1 Hwf2 Hagree. apply map_eq. intros k.
  destruct (fresh_tree_lookup pack m1 Hwf1) as (Hp1 & Hu1 & Ho1).
  destruct (fresh_tree_lookup pack m2 Hwf2) as (Hp2 & Hu2 & Ho2).
  destruct (in_tree pack k) eqn:Hin.
  - unfold in_tree in Hin. apply orb_true_iff in Hin as [Heq|Hu].
    + apply String.eqb_eq in Heq as <-. now rewrite Hp1, Hp2.
    + now rewrite Hu1, Hu2.
  - rewrite Ho1, Ho2 by assumption. now apply Hagree.
Qed.

Lemma shutil_rmtree_abs (s : State Parser) p :
  isabs p = true -> fs (sys s) !! p = Some Dir ->
  shutil_rmtree p s
  = (Returned tt, mkState (set_fs (rmtree_fs p (fs (sys s))) (sys s)) (self s)).
Proof.
  intros H Hp. unfold shutil_rmtree. unfold_monad.
  now rewrite resolve_abs, Hp by assumption.
Qed.

Lemma reset_packdir_total (s : State Parser) :
  let pack := packdir (pkginfo (self s)) in
  isabs pack = true ->
  (forall c, fs (sys s) !! pack <> Some (File c)) ->
  fs (sys s) !! Py.dirname pack = Some Dir ->
  in_tree pack (Py.dirname pack) = false ->
  reset_packdir s
  = (Returned tt, mkState (set_fs (fresh_tree pack (fs (sys s))) (sys s)) (self s)).
Proof.
  intros pack Habs Hnf Hpar Hout. unfold reset_packdir, os_mkdir, fresh_tree.
  unfold bind at 1. unfold get_self at 1. fold pack.
  rewrite (bind_eq _ _ _ _ _ (os_path_exists_abs s _ Habs)).
  destruct (fs (sys s) !! pack) as [[c|]|] eqn:Hp; cbn [when].
  - now contradiction (Hnf c).
  - rewrite (bind_eq _ _ _ _ _ (shutil_rmtree_abs s _ Habs Hp)).
    rewrite create_entry_abs; cbn [sys fs set_fs self]; auto.
    + rewrite rmtree_fs_lookup. unfold in_tree. now rewrite String.eqb_refl.
    + now rewrite rmtree_fs_lookup, Hout.
  - rewrite (bind_eq _ _ _ _ _ (eq_refl : ret tt s = (Returned tt, s))).
    now rewrite create_entry_abs.
Qed.

End FreshPackdir.

(** Both conditions on the trees can be checked entry by entry. *)
Lemma no_orphans_check pack (m : gmap string node) :
  match m !! pack with
  | Some _ => true
  | None => forallb (fun kv => negb (under pack kv.1)) (map_to_list m)
  end = true ->
  no_orphans pack m.
Proof.
  intros H Hp q Hq. rewrite Hp in H.
  destruct (m !! q) as [n|] eqn:Hk; [|reflexivity].
  apply elem_of_map_to_list, list_elem_of_In in Hk.
  rewrite forallb_forall in H. apply H in Hk. cbv beta in Hk.
  change ((q, n).1) with q in Hk. rewrite Hq in Hk. discriminate.
Qed.

Lemma agree_outside_check pack (m1 m2 : gmap string node) :
  filter (fun kv => in_tree pack kv.1 = false) m2
  = filter (fun kv => in_tree pack kv.1 = false) m1 ->
  forall q, in_tree pack q = false -> m2 !! q = m1 !! q.
Proof.
  intros H q Hq.
  destruct (m2 !! q) as [n|] eqn:H2.
  - assert (Hf : filter (fun kv => in_tree pack kv.1 = false) m2 !! q = Some n)
      by now apply map_lookup_filter_Some.
    rewrite H in Hf. now apply map_lookup_filter_Some in Hf as [-> _].
  - destruct (m1 !! q) as [n|] eqn:H1; [|reflexivity].
    assert (Hf : filter (fun kv => in_tree pack kv.1 = false) m1 !! q = Some n)
      by now apply map_lookup_filter_Some.
    rewrite <- H in Hf. apply map_lookup_filter_Some in Hf as [Hf _]. congruence.
Qed.

(** * Further properties of the code *)

(** ** Commands that are launched *)

Section OnlyRuns.
Context {O : Type} (ok : command -> Prop).

Lemma only_runs_same {A} (m : M O A) :
  (forall s, trace (sys (m s).2) = trace (sys s)) -> only_runs ok m.
Proof. intros H s. exists []. now rewrite H, app_nil_r. Qed.

Lemma only_runs_ret {A} (a : A) : only_runs ok (ret a : M O A).
Proof. now apply only_runs_same. Qed.

Lemma only_runs_raise {A} e : only_runs ok (raise e : M O A).
Proof. now apply only_runs_same. Qed.

(** The continuation may rely on what the first part establishes when
    it returns. *)
Lemma only_runs_bind_post {A B} (Q : A -> Prop) (m : M O A) (k : A -> M O B) :
  (forall s a s', m s = (Returned a, s') -> Q a) ->
  only_runs ok m -> (forall a, Q a -> only_runs ok (k a)) ->
  only_runs ok (bind m k).
Proof.
  intros HQ Hm Hk s. unfold bind. destruct (Hm s) as (c1 & Ht1 & Hok1).
  destruct (m s) as [[a|e] s1] eqn:Hms; cbn [snd] in *.
  - destruct (Hk a (HQ _ _ _ Hms) s1) as (c2 & Ht2 & Hok2).
    exists (c1 ++ c2)%list. rewrite Ht2, Ht1, app_assoc. split; [reflexivity|].
    now apply Forall_app.
  - now exists c1.
Qed.

Lemma only_runs_bind {A B} (m : M O A) (k : A -> M O B) :
  only_runs ok m -> (forall a, only_runs ok (k a)) -> only_runs ok (bind m k).
Proof.
  intros Hm Hk. apply (only_runs_bind_post (fun _ => True)); auto.
Qed.

Lemma only_runs_try_except {A} (m h : M O A) :
  only_runs ok m -> only_runs ok h -> only_runs ok (try_except m h).
Proof.
  intros Hm Hh s. unfold try_except. destruct (Hm s) as (c1 & Ht1 & Hok1).
  destruct (m s) as [[a|e] s1]; cbn [snd] in *; [now exists c1|].
  destruct (Hh s1) as (c2 & Ht2 & Hok2).
  exists (c1 ++ c2)%list. rewrite Ht2, Ht1, app_assoc. split; [reflexivity|].
  now apply Forall_app.
Qed.

Lemma only_runs_foreach {A} (l : list A) (body : A -> M O unit) :
  (forall x, only_runs ok (body x)) -> only_runs ok (foreach l body).
Proof.
  intros Hb. induction l as [|x l IH]; cbn [foreach].
  - apply only_runs_ret.
  - apply only_runs_bind; auto.
Qed.

Lemma only_runs_when b (m : M O unit) : only_runs ok m -> only_runs ok (when b m).
Proof. destruct b; [auto|intros _; apply only_runs_ret]. Qed.

Ltac quiet :=
  apply only_runs_same; intros s; unfold_monad; cbn [sys self];
  repeat match goal with
         | |- context [match ?x with _ => _ end] => destruct x
         end; reflexivity.

Lemma only_runs_get_sys : only_runs ok (get_sys : M O Sys).
Proof. quiet. Qed.
Lemma only_runs_get_self : only_runs ok (get_self : M O O).
Proof. quiet. Qed.
Lemma only_runs_put_self o : only_runs ok (put_self o : M O unit).
Proof. quiet. Qed.
Lemma only_runs_os_path_exists p : only_runs ok (os_path_exists p : M O bool).
Proof. unfold os_path_exists. quiet. Qed.
Lemma only_runs_os_path_isdir p : only_runs ok (os_path_isdir p : M O bool).
Proof. unfold os_path_isdir. quiet. Qed.
Lemma only_runs_os_path_isfile p : only_runs ok (os_path_isfile p : M O bool).
Proof. unfold os_path_isfile. quiet. Qed.
Lemma only_runs_os_getcwd : only_runs ok (os_getcwd : M O string).
Proof. unfold os_getcwd. quiet. Qed.
Lemma only_runs_os_chdir p : only_runs ok (os_chdir p : M O unit).
Proof. unfold os_chdir. quiet. Qed.
Lemma only_runs_create_entry p n : only_runs ok (create_entry p n : M O unit).
Proof. unfold create_entry. quiet. Qed.
Lemma only_runs_os_mkdir p : only_runs ok (os_mkdir p : M O unit).
Proof. apply only_runs_create_entry. Qed.
Lemma only_runs_os_mknod p : only_runs ok (os_mknod p : M O unit).
Proof. apply only_runs_create_entry. Qed.
Lemma only_runs_os_remove p : only_runs ok (os_remove p : M O unit).
Proof. unfold os_remove. quiet. Qed.
Lemma only_runs_shutil_rmtree p : only_runs ok (shutil_rmtree p : M O unit).
Proof. unfold shutil_rmtree. quiet. Qed.
Lemma only_runs_os_listdir p : only_runs ok (os_listdir p : M O (list string)).
Proof. unfold os_listdir. quiet. Qed.
Lemma only_runs_read_file p : only_runs ok (read_file p : M O string).
Proof. unfold read_file. quiet. Qed.
Lemma only_runs_write_file p c : only_runs ok (write_file p c : M O unit).
Proof. unfold write_file, store_file. quiet. Qed.
Lemma only_runs_append_file p c : only_runs ok (append_file p c : M O unit).
Proof. unfold append_file, store_file. quiet. Qed.

Lemma only_runs_run_shell_cmd E c :
  ok c -> only_runs ok (run_shell_cmd E c : M O string).
Proof.
  intros Hc s. exists [c]. split; [apply run_shell_cmd_frame|].
  now constructor.
Qed.

Lemma only_runs_run_count_cmd E c :
  ok c -> only_runs ok (run_count_cmd E c : M O Z).
Proof.
  intros Hc s. exists [c]. split; [apply run_count_cmd_frame|].
  now constructor.
Qed.

End OnlyRuns.

Create HintDb runs.
#[export] Hint Resolve only_runs_ret only_runs_raise only_runs_get_sys
  only_runs_get_self only_runs_put_self only_runs_os_path_exists
  only_runs_os_path_isdir only_runs_os_path_isfile only_runs_os_getcwd
  only_runs_os_chdir only_runs_os_mkdir only_runs_os_mknod only_runs_os_remove
  only_runs_shutil_rmtree only_runs_os_listdir only_runs_read_file
  only_runs_write_file only_runs_append_file : runs.

Ltac only_runs_step :=
  match goal with
  | |- only_runs _ (bind _ _) => apply only_runs_bind; [|intros ?]
  | |- only_runs _ (try_except _ _) => apply only_runs_try_except
  | |- only_runs _ (foreach _ _) => apply only_runs_foreach; intros ?
  | |- only_runs _ (when _ _) => apply only_runs_when
  | |- only_runs _ (run_shell_cmd _ _) =>
      apply only_runs_run_shell_cmd; solve [hnf; eauto]
  | |- only_runs _ (run_count_cmd _ _) =>
      apply only_runs_run_count_cmd; solve [hnf; eauto]
  | |- only_runs _ (if ?b then _ else _) => destruct b
  | |- only_runs _ (match ?x with _ => _ end) => destruct x
  | |- only_runs _ (let '(_, _) := ?x in _) => destruct x
  | |- only_runs _ _ => solve [auto with runs]
  end.
Ltac only_runs_auto := repeat only_runs_step.

(** ** The tree is left alone *)

Section KeepsFs.
Context {O : Type}.

Ltac still :=
  intros s; unfold_monad; cbn [sys self];
  repeat match goal with
         | |- context [match ?x with _ => _ end] => destruct x
         end; reflexivity.

Lemma keeps_fs_put_self o : keeps_fs (put_self o : M O unit).
Proof. still. Qed.
Lemma keeps_fs_os_path_exists p : keeps_fs (os_path_exists p : M O bool).
Proof. unfold os_path_exists. still. Qed.
Lemma keeps_fs_os_path_isdir p : keeps_fs (os_path_isdir p : M O bool).
Proof. unfold os_path_isdir. still. Qed.
Lemma keeps_fs_os_path_isfile p : keeps_fs (os_path_isfile p : M O bool).
Proof. unfold os_path_isfile. still. Qed.
Lemma keeps_fs_os_getcwd : keeps_fs (os_getcwd : M O string).
Proof. unfold os_getcwd. still. Qed.
Lemma keeps_fs_os_chdir p : keeps_fs (os_chdir p : M O unit).
Proof. unfold os_chdir. still. Qed.
Lemma keeps_fs_os_listdir p : keeps_fs (os_listdir p : M O (list string)).
Proof. unfold os_listdir. still. Qed.
Lemma keeps_fs_read_file p : keeps_fs (read_file p : M O string).
Proof. unfold read_file. still. Qed.

Lemma keeps_fs_run_count_cmd E c : keeps_fs (run_count_cmd E c : M O Z).
Proof. intros s. apply run_count_cmd_frame. Qed.

Lemma keeps_fs_checksum_cmd E tool file :
  keeps_fs (run_shell_cmd E (CmdChecksum tool file) : M O string).
Proof. unfold run_shell_cmd. still. Qed.

Lemma keeps_fs_print_format_cmd E d :
  keeps_fs (run_shell_cmd E (CmdPrintFormat d) : M O string).
Proof. unfold run_shell_cmd. still. Qed.

End KeepsFs.

Create HintDb tree.
#[export] Hint Resolve keeps_ret keeps_raise keeps_get_sys keeps_get_self
  keeps_fs_put_self keeps_fs_os_path_exists keeps_fs_os_path_isdir
  keeps_fs_os_path_isfile keeps_fs_os_getcwd keeps_fs_os_chdir
  keeps_fs_os_listdir keeps_fs_read_file keeps_fs_run_count_cmd
  keeps_fs_checksum_cmd keeps_fs_print_format_cmd : tree.

Ltac keeps_fs_step :=
  match goal with
  | |- keeps _ (bind _ _) => apply keeps_bind; [|intros ?]
  | |- keeps _ (try_except _ _) => apply keeps_try_except
  | |- keeps _ (foreach _ _) => apply keeps_foreach; intros ?
  | |- keeps _ (when _ _) => apply keeps_when
  | |- keeps _ (if ?b then _ else _) => destruct b
  | |- keeps _ (match ?x with _ => _ end) => destruct x
  | |- keeps _ (let '(_, _) := ?x in _) => destruct x
  | |- keeps _ _ => solve [auto with tree]
  end.
Ltac keeps_fs_auto := repeat keeps_fs_step.

(** ** Checking a file against its digest *)

Section Digests.
Context (E : Env).
Import Debrepack.

Lemma checksum_verdict (s : State Parser) dl_file expected cmd :
  checksum E dl_file expected cmd s
  = (Returned (verifies E (sys s) dl_file expected cmd),
     match lookup_path (sys s) dl_file with
     | Some _ => mkState (log_cmd (CmdChecksum cmd dl_file) (sys s)) (self s)
     | None => s
     end).
Proof.
  unfold checksum, os_path_exists, run_shell_cmd, verifies, tool_output.
  unfold_monad. cbn [sys self].
  destruct (lookup_path (sys s) dl_file) as [n|] eqn:Hf; cbn [negb];
    [|reflexivity].
  rewrite lookup_path_log_cmd, Hf. destruct n as [body|]; cbn [sys self].
  - now destruct (String.eqb (digest_of E cmd body) expected).
  - now destruct (String.eqb EmptyString expected).
Qed.

(** X1: [checksum] answers whether the file is there and the tool
    prints the expected digest for it.  It never raises; it runs the
    tool once when the path is there and not at all when it is not; the
    tree, the working directory and the object are as before. *)
Theorem X1_checksum_verdict (s : State Parser) (dl_file expected cmd : string) :
  let r := checksum E dl_file expected cmd s in
  r.1 = Returned (verifies E (sys s) dl_file expected cmd)
  /\ trace (sys r.2)
     = (trace (sys s)
        ++ match lookup_path (sys s) dl_file with
           | Some _ => [CmdChecksum cmd dl_file]
           | None => []
           end)%list
  /\ fs (sys r.2) = fs (sys s)
  /\ cwd (sys r.2) = cwd (sys s)
  /\ self r.2 = self s.
Proof.
  cbv zeta. rewrite checksum_verdict. cbn [fst snd].
  destruct (lookup_path (sys s) dl_file); cbn [sys self trace fs cwd log_cmd];
    rewrite ?app_nil_r; auto.
Qed.

Lemma verifies_log_cmd c w file expected tool :
  verifies E (log_cmd c w) file expected tool = verifies E w file expected tool.
Proof. reflexivity. Qed.

Lemma forallb_pointwise {A} (f g : A -> bool) (l : list A) :
  (forall x, f x = g x) -> forallb f l = forallb g l.
Proof.
  intros H. induction l as [|x l IH]; [reflexivity|].
  cbn [forallb]. now rewrite H, IH.
Qed.

Lemma checksum_dsc_members_verdict base_dir l : forall s : State Parser,
  let r := checksum_dsc_members E base_dir l s in
  r.1 = Returned (forallb (fun m => verifies E (sys s) (Py.join base_dir m.1)
                                             m.2 "sha256sum") l)
  /\ fs (sys r.2) = fs (sys s)
  /\ cwd (sys r.2) = cwd (sys s)
  /\ self r.2 = self s.
Proof.
  induction l as [|[name sha] l IH]; intros s; cbv zeta.
  - cbn. auto.
  - cbn [checksum_dsc_members forallb fst snd].
    rewrite (bind_eq _ _ _ _ _ (checksum_verdict s _ _ _)).
    destruct (verifies E (sys s) (Py.join base_dir name) sha "sha256sum") eqn:Hv;
      cbn [negb andb].
    + set (s1 := match lookup_path (sys s) (Py.join base_dir name) with
                 | Some _ => _ | None => s end).
      assert (Hs1 : fs (sys s1) = fs (sys s) /\ cwd (sys s1) = cwd (sys s)
                    /\ self s1 = self s)
        by (subst s1; destruct (lookup_path (sys s) _); cbn; auto).
      destruct Hs1 as (Hfs & Hcwd & Hself).
      destruct (IH s1) as (Hr & Hf' & Hc' & Hs').
      rewrite Hr, Hf', Hc', Hs'. repeat split; auto.
      f_equal. apply forallb_pointwise. intros [n h].
      unfold verifies, tool_output, lookup_path, resolve. now rewrite Hfs, Hcwd.
    + cbn [fst snd]. destruct (lookup_path (sys s) _); cbn; auto.
Qed.

Lemma only_runs_checksum f x c :
  only_runs (is_checksum_of c) (checksum E f x c : M Parser bool).
Proof. unfold checksum. only_runs_auto. Qed.

Lemma only_runs_checksum_dsc_members d l :
  only_runs (is_checksum_of "sha256sum") (checksum_dsc_members E d l).
Proof.
  induction l as [|[name sha] l IH]; cbn [checksum_dsc_members];
    only_runs_auto. apply only_runs_checksum.
Qed.

(** X2: [checksum_dsc] answers False for a description file that is
    not there, without running anything, and raises IsADirectoryError
    for a directory.  For a file without the field Checksums-Sha256 it
    raises KeyError, nothing being run or changed.  For a file that has
    the field it answers whether every file listed there is beside the
    description with the listed digest; it runs nothing but sha256sum
    and leaves the tree, the working directory and the object as they
    are. *)
Theorem X2_checksum_dsc_verdict (s : State Parser) (dsc_file : string) :
  let r := checksum_dsc E dsc_file s in
  match lookup_path (sys s) dsc_file with
  | None => r = (Returned false, s)
  | Some Dir => r = (Raised (IsADirectoryError dsc_file), s)
  | Some (File c) =>
      match dsc_checksums E c with
      | None => r = (Raised (KeyError "Checksums-Sha256"), s)
      | Some members =>
          r.1 = Returned
                  (forallb (fun m => verifies E (sys s)
                                       (Py.join (Py.dirname dsc_file) m.1) m.2
                                       "sha256sum")
                           members)
          /\ (exists cmds,
                 trace (sys r.2) = (trace (sys s) ++ cmds)%list
                 /\ Forall (is_checksum_of "sha256sum") cmds)
          /\ fs (sys r.2) = fs (sys s)
          /\ cwd (sys r.2) = cwd (sys s)
          /\ self r.2 = self s
      end
  end.
Proof.
  cbv zeta. unfold checksum_dsc.
  assert (Hex : os_path_exists dsc_file s
                = (Returned match lookup_path (sys s) dsc_file with
                            | Some _ => true | None => false end, s))
    by reflexivity.
  rewrite (bind_eq _ _ _ _ _ Hex).
  destruct (lookup_path (sys s) dsc_file) as [[c|]|] eqn:Hf; cbn [negb].
  - assert (Hrd : read_file dsc_file s = (Returned c, s))
      by (unfold read_file; unfold_monad; cbn [sys]; now rewrite Hf).
    rewrite (bind_eq _ _ _ _ _ Hrd).
    destruct (dsc_checksums E c) as [members|]; [|reflexivity].
    destruct (checksum_dsc_members_verdict (Py.dirname dsc_file)
                members s) as (Hr & Hfs & Hcwd & Hself).
    repeat split; auto.
    apply only_runs_checksum_dsc_members.
  - unfold read_file. unfold_monad. cbn [sys]. now rewrite Hf.
  - reflexivity.
Qed.

End Digests.

Section Setup.
Context (E : Env).
Import Debrepack.

Lemma os_path_isdir_eq {O} p (s : State O) :
  os_path_isdir p s
  = (Returned match lookup_path (sys s) p with Some Dir => true | _ => false end, s).
Proof. reflexivity. Qed.

Lemma os_path_exists_eq {O} p (s : State O) :
  os_path_exists p s
  = (Returned match lookup_path (sys s) p with Some _ => true | None => false end, s).
Proof. reflexivity. Qed.

Lemma os_path_isfile_eq {O} p (s : State O) :
  os_path_isfile p s
  = (Returned match lookup_path (sys s) p with Some (File _) => true | _ => false end, s).
Proof. reflexivity. Qed.

Lemma get_self_eq {O} (s : State O) : get_self s = (Returned (self s), s).
Proof. reflexivity. Qed.
Lemma get_sys_eq {O} (s : State O) : get_sys s = (Returned (sys s), s).
Proof. reflexivity. Qed.
Lemma put_self_eq {O} (o : O) (s : State O) :
  put_self o s = (Returned tt, mkState (sys s) o).
Proof. reflexivity. Qed.

Lemma setup_src_files_run pa files : forall (s : State Parser) acc,
  src_files (meta_data (self s)) = Some acc ->
  let r := setup_src_files E pa files s in
  sys r.2 = sys s
  /\ same_settings (self s) (self r.2)
  /\ pkginfo (self r.2) = pkginfo (self s)
  /\ versions (self r.2) = versions (self s)
  /\ match r.1 with
     | Returned _ =>
         Forall (fun f => is_Some (lookup_path (sys s) (located E pa f))) files
         /\ meta_data (self r.2)
            = with_src_files (Some (acc ++ List.map (located E pa) files)%list)
                             (meta_data (self s))
     | Raised e => e = IOError EmptyString
     end.
Proof.
  induction files as [|f files IH]; intros s acc Hacc; cbv zeta.
  - cbn [setup_src_files ret fst snd List.map]. rewrite app_nil_r.
    unfold same_settings. repeat split; auto.
    destruct (meta_data (self s)); cbn in *. now subst.
  - cbn [setup_src_files]. fold (located E pa f).
    rewrite (bind_eq _ _ _ _ _ (os_path_exists_eq _ s)).
    destruct (lookup_path (sys s) (located E pa f)) as [n|] eqn:Hf; cbn [negb].
    + rewrite (bind_eq _ _ _ _ _ (get_self_eq s)).
      rewrite (bind_eq _ _ _ _ _ (put_self_eq _ s)).
      rewrite Hacc. cbn [default].
      set (s1 := mkState (sys s) _).
      destruct (IH s1 (acc ++ [located E pa f])%list) as (Hsys & Hset & Hpi & Hv & Hr).
      { subst s1. cbn. reflexivity. }
      rewrite Hsys, Hpi, Hv. subst s1. cbn [sys self] in *.
      split; [reflexivity|]. split; [|split; [reflexivity|split; [reflexivity|]]].
      * destruct Hset as (? & ? & ? & ? & ?). repeat split; auto.
      * destruct (setup_src_files E pa files _).1; [|exact Hr].
        destruct Hr as [Hall Hmd]. split.
        -- constructor; [eauto|exact Hall].
        -- rewrite Hmd. cbn [List.map]. rewrite <- app_assoc.
           now destruct (meta_data (self s)).
    + cbn. unfold same_settings. repeat split; auto.
Qed.

Lemma setup_inv p (s s' : State Parser) :
  setup E p s = (Returned tt, s') ->
  let P := self s in
  let pa := abspath (sys s) p in
  let name := package_dir_to_package_name E p in
  let pack := Py.join (basedir P) name in
  let deb := Py.join pa "debian" in
  exists c ver bv,
    let md := yaml_full_load E c in
    let dname := match debname md with Some n => n | None => name end in
    lookup_path (sys s) p = Some Dir
    /\ lookup_path (sys s) deb = Some Dir
    /\ lookup_path (sys s) (Py.join deb "meta_data.yaml") = Some (File c)
    /\ debver md = Some ver
    /\ BaseVersion.parse ver = Returned bv
    /\ sys s' = sys s
    /\ self s'
       = mkParser (basedir P) (output P) (srcrepo P) (btype P) (strategy P)
           (with_src_files (option_map (List.map (located E pa)) (src_files md))
              (with_src_path (located_src_path E (sys s) pa (src_path md)) md))
           (mkVersions ver (BaseVersion.upstream_version bv)
                       (BaseVersion.debian_revision bv) (BaseVersion.epoch bv))
           (mkPkgInfo pa name pack deb dname
              (Py.join pack (dname +:+ "-" +:+ BaseVersion.upstream_version bv)))
    /\ match src_files md with
       | Some files =>
           Forall (fun f => is_Some (lookup_path (sys s) (located E pa f))) files
       | None => True
       end
    /\ match src_path md with
       | Some (Some d) =>
           isabs (expandvars E d) = false ->
           is_Some (lookup_path (sys s) (abspath (sys s) (Py.join pa d)))
       | _ => True
       end.
Proof.
  intros H P pa name pack deb. unfold setup in H.
  rewrite (bind_eq _ _ _ _ _ (os_path_isdir_eq p s)) in H.
  destruct (lookup_path (sys s) p) as [[?|]|] eqn:Hp; cbn [negb] in H;
    try discriminate.
  rewrite (bind_eq _ _ _ _ _ (get_sys_eq s)) in H.
  rewrite (bind_eq _ _ _ _ _ (get_self_eq s)) in H.
  fold P pa name pack deb in H.
  rewrite (bind_eq _ _ _ _ _ (put_self_eq _ s)) in H.
  rewrite (bind_eq _ _ _ _ _ (os_path_isdir_eq deb _)) in H. cbn [sys] in H.
  destruct (lookup_path (sys s) deb) as [[?|]|] eqn:Hdeb; cbn [negb] in H;
    try discriminate.
  rewrite (bind_eq _ _ _ _ _ (os_path_exists_eq _ _)) in H. cbn [sys] in H.
  destruct (lookup_path (sys s) (Py.join deb "meta_data.yaml")) as [[c|]|] eqn:Hmeta;
    cbn [negb] in H; try discriminate.
  2:{ unfold read_file in H. unfold_monad. cbn [sys] in H. rewrite Hmeta in H.
      discriminate. }
  assert (Hrd : forall o : Parser,
             read_file (Py.join deb "meta_data.yaml") (mkState (sys s) o)
             = (Returned c, mkState (sys s) o)).
  { intros o. unfold read_file. unfold_monad. cbn [sys]. now rewrite Hmeta. }
  rewrite (bind_eq _ _ _ _ _ (Hrd _)) in H.
  rewrite (bind_eq _ _ _ _ _ (get_self_eq _)) in H.
  rewrite (bind_eq _ _ _ _ _ (put_self_eq _ _)) in H.
  cbn [sys self] in H.
  exists c.
  destruct (debver (yaml_full_load E c)) as [ver|] eqn:Hver; [|discriminate].
  exists ver.
  rewrite (bind_eq _ _ _ _ _ (get_self_eq _)) in H.
  rewrite (bind_eq _ _ _ _ _ (put_self_eq _ _)) in H.
  cbn [sys self] in H.
  set (s0 := mkState (sys s) _) in H.
  apply bind_Returned in H as ([] & s1 & H1 & H).
  apply bind_Returned in H as ([] & s2 & H2 & H).
  destruct (BaseVersion.parse ver) as [bv|] eqn:Hparse; [|discriminate].
  exists bv. cbv zeta.
  rewrite (bind_eq _ _ _ _ _ (get_self_eq _)), put_self_eq in H.
  injection H as <-.
  assert (Hs1 : sys s1 = sys s
                /\ self s1 = with_meta_data
                               (with_src_path
                                  (located_src_path E (sys s) pa
                                     (src_path (yaml_full_load E c)))
                                  (yaml_full_load E c)) (self s0)
                /\ match src_path (yaml_full_load E c) with
                   | Some (Some d) =>
                       isabs (expandvars E d) = false ->
                       is_Some (lookup_path (sys s) (abspath (sys s) (Py.join pa d)))
                   | _ => True
                   end).
  { destruct (src_path (yaml_full_load E c)) as [[d|]|] eqn:Hsp; cbn [located_src_path].
    - destruct (isabs (expandvars E d)) eqn:Habs; cbn [negb] in *.
      + injection H1 as <-. subst s0. cbn [sys self].
        split; [reflexivity|]. split; [|discriminate]. reflexivity.
      + rewrite (bind_eq _ _ _ _ _ (os_path_exists_eq _ _)) in H1. cbn [sys s0] in H1.
        destruct (lookup_path (sys s) (abspath (sys s) (Py.join pa d))) eqn:Hd;
          cbn [negb] in H1; [|discriminate].
        injection H1 as <-. cbn [sys self]. split; [reflexivity|]. split; eauto.
    - injection H1 as <-. subst s0. cbn [sys self]. repeat split.
      unfold with_meta_data, with_src_path. cbn.
      rewrite <- Hsp. now destruct (yaml_full_load E c).
    - injection H1 as <-. subst s0. cbn [sys self]. repeat split.
      unfold with_meta_data, with_src_path. cbn.
      rewrite <- Hsp. now destruct (yaml_full_load E c). }
  destruct Hs1 as (Hsys1 & Hself1 & Hsp).
  assert (Hs2 : sys s2 = sys s
                /\ same_settings (self s1) (self s2)
                /\ meta_data (self s2)
                   = with_src_files
                       (option_map (List.map (located E pa))
                                   (src_files (yaml_full_load E c)))
                       (meta_data (self s1))
                /\ match src_files (yaml_full_load E c) with
                   | Some files =>
                       Forall (fun f => is_Some (lookup_path (sys s) (located E pa f)))
                              files
                   | None => True
                   end).
  { destruct (src_files (yaml_full_load E c)) as [files|] eqn:Hsf; cbn [option_map].
    - rewrite (bind_eq _ _ _ _ _ (get_self_eq _)) in H2.
      rewrite (bind_eq _ _ _ _ _ (put_self_eq _ _)) in H2.
      match type of H2 with
      | setup_src_files _ _ _ ?t = _ =>
          destruct (setup_src_files_run pa files t []) as (Ha & Hb & _ & _ & Hr);
            [reflexivity|]
      end.
      rewrite H2 in Ha, Hb, Hr. cbn [fst snd sys self] in Ha, Hb, Hr.
      destruct Hr as [Hall Hmd]. rewrite Hsys1 in *.
      split; [exact Ha|]. split; [exact Hb|]. split; [|exact Hall].
      rewrite Hmd. cbn. now destruct (meta_data (self s1)).
    - injection H2 as <-. split; [exact Hsys1|].
      split; [unfold same_settings; auto|]. split; [|exact I].
      rewrite Hself1. subst s0. cbn. rewrite <- Hsf.
      now destruct (yaml_full_load E c). }
  destruct Hs2 as (Hsys2 & Hset & Hmd2 & Hfiles).
  repeat split; auto.
  destruct Hset as (Hb & Ho & Hr & Hbt & Hst).
  rewrite Hself1 in Hb, Ho, Hr, Hbt, Hst, Hmd2. subst s0.
  cbn [self with_meta_data with_pkginfo basedir output srcrepo btype strategy
       meta_data] in Hb, Ho, Hr, Hbt, Hst, Hmd2.
  destruct (self s2) as [b o r bt st md v pi]. cbn in *. subst.
  reflexivity.
Qed.

End Setup.

Section Maintains.
Context {O : Type} (I : State O -> Prop) (J : O -> Prop).
Hypothesis I_self : forall s, I s -> J (self s).

Lemma maintains_weaken {A} (Q Q' : A -> Prop) (m : M O A) :
  (forall a, Q a -> Q' a) -> maintains I Q m -> maintains I Q' m.
Proof. intros HQ Hm s Hs. destruct (Hm s Hs). split; auto. Qed.

Lemma maintains_reads {A} (m : M O A) :
  (forall s, (m s).2 = s) -> maintains I (fun _ => True) m.
Proof. intros H s Hs. rewrite H. auto. Qed.

Lemma maintains_ret {A} (Q : A -> Prop) (a : A) :
  Q a -> maintains I Q (ret a : M O A).
Proof. intros Ha s Hs. split; [exact Hs|]. now intros b [= <-]. Qed.

Lemma maintains_raise {A} (Q : A -> Prop) e : maintains I Q (raise e : M O A).
Proof. intros s Hs. split; [exact Hs|]. discriminate. Qed.

Lemma maintains_bind {A B} (Q1 : A -> Prop) (Q : B -> Prop)
    (m : M O A) (k : A -> M O B) :
  maintains I Q1 m -> (forall a, Q1 a -> maintains I Q (k a)) ->
  maintains I Q (bind m k).
Proof.
  intros Hm Hk s Hs. unfold bind. destruct (Hm s Hs) as [H1 HQ].
  destruct (m s) as [[a|e] s1]; cbn [fst snd] in *.
  - apply Hk; auto.
  - split; [exact H1|]. discriminate.
Qed.

Lemma maintains_get_self : maintains I J (get_self : M O O).
Proof. intros s Hs. split; [exact Hs|]. intros a [= <-]. auto. Qed.

Lemma maintains_foreach {A} (l : list A) (body : A -> M O unit) :
  (forall x, maintains I (fun _ => True) (body x)) ->
  maintains I (fun _ => True) (foreach l body).
Proof.
  intros Hb. induction l as [|x l IH]; cbn [foreach].
  - now apply maintains_ret.
  - apply (maintains_bind (fun _ => True)); auto.
Qed.

End Maintains.

Section SetupFrame.
Context (E : Env) (w0 : Sys) (P0 : Debrepack.Parser).
Import Debrepack.

Lemma stays_self (s : State Parser) : stays w0 P0 s -> same_settings P0 (self s).
Proof. now intros [_ H]. Qed.

Lemma maintains_put_self P :
  same_settings P0 P ->
  maintains (stays w0 P0) (fun _ => True) (put_self P : M Parser unit).
Proof. intros HP s [Hs _]. split; [|auto]. split; auto. Qed.

Ltac settle :=
  match goal with
  | H : same_settings _ _ |- same_settings _ _ =>
      destruct H as (? & ? & ? & ? & ?); unfold same_settings; cbn; auto
  end.

Ltac maintains_step :=
  match goal with
  | |- maintains _ _ (bind get_self _) =>
      apply (maintains_bind _ (same_settings P0));
      [apply (maintains_get_self _ _ stays_self)|intros ? ?]
  | |- maintains _ _ (bind _ _) =>
      apply (maintains_bind _ (fun _ => True)); [|intros ? _]
  | |- maintains _ _ (put_self _) => apply maintains_put_self; settle
  | |- maintains _ _ (ret _) => now apply maintains_ret
  | |- maintains _ _ (raise _) => apply maintains_raise
  | |- maintains _ _ (if ?b then _ else _) => destruct b
  | |- maintains _ _ (match ?x with _ => _ end) => destruct x
  | |- maintains _ _ _ =>
      solve [apply maintains_reads; intros ?;
             unfold os_path_isdir, os_path_exists, os_path_isfile, read_file,
               os_getcwd;
             unfold_monad; cbn [sys];
             repeat match goal with
                    | |- context [match ?x with _ => _ end] => destruct x
                    end; reflexivity]
  end.

Lemma maintains_setup_src_files pa files :
  maintains (stays w0 P0) (fun _ => True) (setup_src_files E pa files).
Proof.
  induction files as [|f files IH]; cbn [setup_src_files];
    repeat maintains_step. exact IH.
Qed.

Lemma maintains_setup p :
  maintains (stays w0 P0) (fun _ => True) (setup E p).
Proof.
  unfold setup. repeat maintains_step; apply maintains_setup_src_files.
Qed.

End SetupFrame.

Section SetupFacts.
Context (E : Env).
Import Debrepack.

(** X3: [setup] reads the tree and runs nothing: whether it returns or
    raises, the tree, the working directory and the trace of commands
    are as before, and so are the settings the object was made with
    (base and output directories, source repository, build type,
    download strategy). *)
Theorem X3_setup_reads_only (pkgpath : string) (s : State Parser) :
  sys (setup E pkgpath s).2 = sys s
  /\ same_settings (self s) (self (setup E pkgpath s).2).
Proof.
  apply (maintains_setup E (sys s) (self s) pkgpath s).
  split; [reflexivity|]. unfold same_settings. auto.
Qed.




End SetupFacts.



Section RevisionFrame.
Context (E : Env).
Import Debrepack.

Lemma keeps_fs_revision_count rd : keeps_fs (revision_count E rd).
Proof.
  unfold revision_count, add_pkg_gitrevcount, add_src_gitrevcount,
    add_gitrevcount, add_stx_patch, count_commits_and_changes.
  keeps_fs_auto.
Qed.

Lemma keeps_self_revision_count rd : keeps_self (revision_count E rd).
Proof.
  unfold revision_count, add_pkg_gitrevcount, add_src_gitrevcount,
    add_gitrevcount, add_stx_patch, count_commits_and_changes.
  keeps_auto.
Qed.

Lemma only_runs_revision_count rd : only_runs is_git_count (revision_count E rd).
Proof.
  unfold revision_count, add_pkg_gitrevcount, add_src_gitrevcount,
    add_gitrevcount, add_stx_patch, count_commits_and_changes.
  only_runs_auto.
Qed.

(** X6: [set_revision] never changes the tree nor the working
    directory, whether it returns or raises, and the only commands it
    runs are the two git counts.  With revision rules it leaves the
    object pointing at the debian folder of the package again (undoing
    the redirection to the local copy made for the build type); without
    rules it changes nothing at all. *)
Theorem X6_set_revision_frame (s : State Parser) :
  let r := set_revision E s in
  fs (sys r.2) = fs (sys s)
  /\ cwd (sys r.2) = cwd (sys s)
  /\ (exists cmds,
         trace (sys r.2) = (trace (sys s) ++ cmds)%list
         /\ Forall is_git_count cmds)
  /\ self r.2
     = match revision (meta_data (self s)) with
       | Some _ => with_debfolder (Py.join (pkgpath (pkginfo (self s))) "debian")
                                  (self s)
       | None => self s
       end
  /\ (revision (meta_data (self s)) = None -> r = (Returned EmptyString, s)).
Proof.
  cbv zeta.
  destruct (revision (meta_data (self s))) as [rd|] eqn:Hrd.
  - rewrite (set_revision_rules E s rd Hrd).
    set (s0 := mkState (sys s) _).
    pose proof (keeps_fs_revision_count rd s0) as Hfs.
    pose proof (keeps_cwd_revision_count E rd s0) as Hcwd.
    pose proof (keeps_self_revision_count rd s0) as Hself.
    destruct (only_runs_revision_count rd s0) as (cmds & Htr & Hok).
    unfold bind. destruct (revision_count E rd s0) as [[n|e] s1];
      cbn [fst snd sys self s0] in *;
      (split; [exact Hfs|]; split; [exact Hcwd|]; split; [eauto|];
       split; [exact Hself|discriminate]).
  - rewrite (set_revision_no_rules E s Hrd). cbn [fst snd].
    repeat split; auto. exists []. now rewrite app_nil_r.
Qed.

End RevisionFrame.

(** ** Patches applied to the working tree *)

Section PatchLoop.
Context (E : Env) (psrc : string) (ok : string -> bool).
Import Debrepack.

(** Whether a patch applies depends on the patch only. *)
Hypothesis patch_ok : forall e w, (patch_apply E (Py.join psrc e) w).1 = ok e.


End PatchLoop.

Section DebPatches.
Context (E : Env).
Import Debrepack.



End DebPatches.


(** ** The overlay of the debian folder *)

Section Overlay.
Context (E : Env).
Import Debrepack.

Lemma applied_patches_none cmds :
  Forall not_patch cmds -> applied_patches cmds = [].
Proof.
  induction 1 as [|c cmds Hc _ IH]; [reflexivity|].
  unfold applied_patches in *. cbn [omap].
  destruct c; try exact IH. now contradiction Hc.
Qed.

(** The tree is of format 3.0 (quilt): that is what dpkg-source prints
    whenever it prints something. *)
Hypothesis quilt : forall d w out,
  print_format E d w = Some out ->
  parse_deb_format out = Returned ("3.0", Some "quilt").

Lemma set_deb_format_quilt (s s' : State Parser) fmt :
  set_deb_format E s = (Returned fmt, s') -> fmt = ("3.0", Some "quilt").
Proof.
  unfold set_deb_format, run_shell_cmd. unfold_monad. cbn [sys self].
  destruct (print_format E _ _) as [out|] eqn:Hout; [|discriminate].
  rewrite (quilt _ _ _ Hout). now intros [= <- _].
Qed.

Lemma only_runs_set_deb_format (ok : command -> Prop) :
  (forall d, ok (CmdPrintFormat d)) -> only_runs ok (set_deb_format E).
Proof. intros H. unfold set_deb_format. only_runs_auto. Qed.

Lemma only_runs_update_deb_folder_quilt : only_runs not_patch (update_deb_folder E).
Proof.
  unfold update_deb_folder.
  repeat first
    [ match goal with
      | |- only_runs _ (bind (set_deb_format E) _) =>
          apply (only_runs_bind_post _ (fun fmt => fmt = ("3.0", Some "quilt")));
          [ intros ? ? ?; apply set_deb_format_quilt
          | apply only_runs_set_deb_format; intros ?; exact id
          | intros ? ->; cbn; apply only_runs_ret ]
      | |- only_runs _ (run_shell_cmd _ _) =>
          apply only_runs_run_shell_cmd; exact id
      end
    | only_runs_step ].
Qed.

(** X8: in a source tree of format 3.0 (quilt), [update_deb_folder]
    applies no patch to the working tree, whether it returns or raises:
    the patches of the overlay are left to the series that the copy
    brought along. *)
Theorem X8_update_deb_folder_quilt (s : State Parser) :
  applied_patches (trace (sys (update_deb_folder E s).2))
  = applied_patches (trace (sys s)).
Proof.
  destruct (only_runs_update_deb_folder_quilt s) as (cmds & Htr & Hok).
  rewrite Htr, applied_patches_app, (applied_patches_none cmds Hok).
  apply app_nil_r.
Qed.

End Overlay.

(** The overlay of the sample package carries two patches; the tree is
    of format 3.0 (quilt). *)
Lemma X8_update_deb_folder_quilt_witness :
  applied_patches
    (trace (sys (Debrepack.update_deb_folder Sample.env
                   (mkState Sample.overlay_sys Sample.parser)).2))
  = [].
Proof.
  apply (X8_update_deb_folder_quilt Sample.env).
  intros d w out H. injection H as <-. reflexivity.
Defined.

(** ** Strings *)

Section StringFacts.

Lemma app_cons c a b : String c a +:+ b = String c (a +:+ b).
Proof. reflexivity. Qed.

Lemma rev_app_spec s : forall t, String.rev_app s t = String.rev s +:+ t.
Proof.
  unfold String.rev. induction s as [|c s IH]; intros t; [reflexivity|].
  cbn [String.rev_app]. rewrite (IH (String c t)), (IH (String c EmptyString)).
  now rewrite append_assoc.
Qed.

Lemma rev_cons c s : String.rev (String c s) = String.rev s +:+ String c EmptyString.
Proof. unfold String.rev at 1. cbn [String.rev_app]. apply rev_app_spec. Qed.

Lemma rev_append a b : String.rev (a +:+ b) = String.rev b +:+ String.rev a.
Proof.
  induction a as [|c a IH]; [now rewrite append_empty|].
  rewrite app_cons, !rev_cons, IH. apply append_assoc.
Qed.

Lemma rev_involutive s : String.rev (String.rev s) = s.
Proof.
  induction s as [|c s IH]; [reflexivity|].
  now rewrite rev_cons, rev_append, IH.
Qed.

Lemma has_char_append c a b : has_char c (a +:+ b) = has_char c a || has_char c b.
Proof.
  induction a as [|x a IH]; [reflexivity|].
  rewrite app_cons. cbn [has_char]. now rewrite IH, orb_assoc.
Qed.

Lemma has_char_count c s : has_char c s = false <-> count_char c s = O.
Proof.
  induction s as [|x s IH]; [easy|]. cbn [has_char count_char].
  destruct (Ascii.eqb x c); cbn; [easy|exact IH].
Qed.

(** *** [str.split] *)

Lemma split_nonempty sep s : Py.split sep s <> [].
Proof.
  destruct s as [|c s]; [easy|]. cbn [Py.split].
  destruct (Ascii.eqb c sep); [easy|]. now destruct (Py.split sep s).
Qed.

Lemma split_length sep s : length (Py.split sep s) = S (count_char sep s).
Proof.
  induction s as [|c s IH]; [reflexivity|]. cbn [Py.split count_char].
  destruct (Ascii.eqb c sep); cbn [length]; [now rewrite IH|].
  destruct (Py.split sep s) as [|h t] eqn:Hs; [now apply split_nonempty in Hs|].
  exact IH.
Qed.

Lemma split_no_sep sep s : has_char sep s = false -> Py.split sep s = [s].
Proof.
  induction s as [|c s IH]; [reflexivity|]. cbn [has_char Py.split].
  destruct (Ascii.eqb c sep); [discriminate|]. cbn. intros H. now rewrite IH.
Qed.

Lemma split_cut sep a b :
  has_char sep a = false ->
  Py.split sep (a +:+ String sep b) = a :: Py.split sep b.
Proof.
  induction a as [|c a IH]; cbn [has_char].
  - intros _. change (EmptyString +:+ String sep b) with (String sep b).
    cbn [Py.split]. now rewrite Ascii.eqb_refl.
  - destruct (Ascii.eqb c sep) eqn:Hc; [discriminate|]. cbn. intros H.
    rewrite app_cons. cbn [Py.split]. now rewrite Hc, IH.
Qed.

Lemma split_pieces sep s :
  Forall (fun x => has_char sep x = false) (Py.split sep s).
Proof.
  induction s as [|c s IH]; [now repeat constructor|]. cbn [Py.split].
  destruct (Ascii.eqb c sep) eqn:Hc; [now constructor|].
  destruct (Py.split sep s) as [|h t]; [repeat constructor; cbn; now rewrite Hc|].
  apply Forall_cons in IH as [Hh Ht]. constructor; [|exact Ht].
  cbn [has_char]. now rewrite Hc.
Qed.

(** Joining the pieces with the separator gives the string back. *)
Lemma concat_split sep s :
  String.concat (String sep EmptyString) (Py.split sep s) = s.
Proof.
  induction s as [|c s IH]; [reflexivity|]. cbn [Py.split].
  destruct (Ascii.eqb c sep) eqn:Hc.
  - apply Ascii.eqb_eq in Hc as ->.
    pose proof (split_nonempty sep s) as Hne.
    destruct (Py.split sep s) as [|h t]; [easy|].
    cbn [String.concat] in *. now rewrite IH.
  - pose proof (split_nonempty sep s) as Hne.
    destruct (Py.split sep s) as [|h t]; [easy|].
    destruct t as [|h' t]; [cbn [String.concat] in *; now rewrite IH|].
    change (String.concat (String sep EmptyString) (String c h :: h' :: t))
      with (String c h +:+ String sep EmptyString
            +:+ String.concat (String sep EmptyString) (h' :: t)).
    change (String.concat (String sep EmptyString) (h :: h' :: t))
      with (h +:+ String sep EmptyString
            +:+ String.concat (String sep EmptyString) (h' :: t)) in IH.
    now rewrite app_cons, IH.
Qed.

Lemma split_last_clean sep s d :
  has_char sep (List.last (Py.split sep s) d) = false.
Proof.
  pose proof (split_pieces sep s) as Hall.
  pose proof (split_nonempty sep s) as Hne.
  induction (Py.split sep s) as [|h t IH]; [easy|].
  apply Forall_cons in Hall as [Hh Ht].
  destruct t as [|h' t]; [exact Hh|]. now apply IH.
Qed.

(** The last piece is what follows the last separator. *)
Lemma split_last sep s d :
  let l := List.last (Py.split sep s) d in
  has_char sep l = false
  /\ exists prefix,
       s = prefix +:+ l
       /\ (prefix = EmptyString
           \/ exists q, prefix = q +:+ String sep EmptyString).
Proof.
  cbv zeta. split; [apply split_last_clean|].
  induction s as [|c s IH]; [exists EmptyString; auto|].
    destruct IH as (p & Hs & Hp). cbn [Py.split].
    pose proof (split_nonempty sep s) as Hne.
    pose proof (split_length sep s) as Hlen.
    destruct (Ascii.eqb c sep) eqn:Hc.
    + apply Ascii.eqb_eq in Hc as ->.
      destruct (Py.split sep s) as [|h t] eqn:Hsp; [easy|].
      change (List.last (EmptyString :: h :: t) d) with (List.last (h :: t) d).
      exists (String sep p). split; [now rewrite app_cons, <- Hs|]. right.
      destruct Hp as [->|(q & ->)]; [now exists EmptyString|].
      now exists (String sep q).
    + destruct (Py.split sep s) as [|h t] eqn:Hsp; [easy|].
      destruct t as [|h' t].
      * cbn [List.last] in *. exists EmptyString. split; [|auto].
        destruct Hp as [->|(q & ->)]; [now rewrite Hs|].
        exfalso. cbn [length] in Hlen. injection Hlen as Hlen.
        symmetry in Hlen. apply has_char_count in Hlen.
        rewrite Hs, !has_char_append in Hlen. cbn [has_char] in Hlen.
        rewrite Ascii.eqb_refl in Hlen. cbn in Hlen.
        now rewrite orb_true_r in Hlen.
      * change (List.last (String c h :: h' :: t) d) with (List.last (h :: h' :: t) d).
        exists (String c p). split; [now rewrite app_cons, <- Hs|]. right.
        destruct Hp as [->|(q & ->)]; [|now exists (String c q)].
        exfalso. change (EmptyString +:+ ?x) with x in Hs.
        assert (Hno : has_char sep s = false).
        { rewrite Hs, <- Hsp. apply split_last_clean. }
        rewrite (split_no_sep sep s Hno) in Hsp. discriminate.
Qed.

(** *** [str.strip] *)

Lemma none_of_append f a b : none_of f (a +:+ b) = none_of f a && none_of f b.
Proof.
  induction a as [|x a IH]; [reflexivity|].
  rewrite app_cons. cbn [none_of]. now rewrite IH, andb_assoc.
Qed.

Lemma none_of_rev f s : none_of f (String.rev s) = none_of f s.
Proof.
  induction s as [|x s IH]; [reflexivity|].
  rewrite rev_cons, none_of_append, IH. cbn [none_of].
  rewrite andb_true_r. apply andb_comm.
Qed.

Lemma none_of_has_char f c s :
  none_of f s = true -> f c = true -> has_char c s = false.
Proof.
  intros Hs Hc. induction s as [|x s IH]; [reflexivity|].
  cbn [none_of has_char] in *. apply andb_true_iff in Hs as [Hx Hs].
  rewrite (IH Hs), orb_false_r.
  destruct (Ascii.eqb x c) eqn:Hxc; [|reflexivity].
  apply Ascii.eqb_eq in Hxc as ->. now rewrite Hc in Hx.
Qed.

Lemma none_of_trimmed f s : none_of f s = true -> trimmed f s.
Proof.
  intros H. split; intros c Hc.
  - destruct s as [|x s]; [discriminate|]. injection Hc as ->.
    cbn [none_of] in H. apply andb_true_iff in H as [H _].
    now apply negb_true_iff in H.
  - unfold last_char in Hc. rewrite <- none_of_rev in H.
    destruct (String.rev s) as [|x r]; [discriminate|]. injection Hc as ->.
    cbn [none_of] in H. apply andb_true_iff in H as [H _].
    now apply negb_true_iff in H.
Qed.

Lemma lstrip_first f s c :
  first_char (Py.lstrip_chars f s) = Some c -> f c = false.
Proof.
  induction s as [|x s IH]; [discriminate|]. cbn [Py.lstrip_chars].
  destruct (f x) eqn:Hx; [exact IH|]. now intros [= <-].
Qed.

Lemma lstrip_id f s :
  (forall c, first_char s = Some c -> f c = false) -> Py.lstrip_chars f s = s.
Proof.
  destruct s as [|x s]; [reflexivity|]. intros H. cbn [Py.lstrip_chars].
  now rewrite (H x eq_refl).
Qed.

(** What [lstrip] removes is a run of characters to strip. *)
Lemma lstrip_cut f s :
  exists a, s = a +:+ Py.lstrip_chars f s /\ none_of (fun c => negb (f c)) a = true.
Proof.
  induction s as [|x s (a & Hs & Ha)]; [now exists EmptyString|].
  cbn [Py.lstrip_chars]. destruct (f x) eqn:Hx.
  - exists (String x a). rewrite app_cons, <- Hs. split; [reflexivity|].
    cbn [none_of]. now rewrite Hx, Ha.
  - now exists EmptyString.
Qed.

Lemma lstrip_run f a s :
  none_of (fun c => negb (f c)) a = true ->
  Py.lstrip_chars f (a +:+ s) = Py.lstrip_chars f s.
Proof.
  induction a as [|x a IH]; [reflexivity|]. cbn [none_of]. intros H.
  apply andb_true_iff in H as [Hx Ha]. rewrite app_cons. cbn [Py.lstrip_chars].
  apply negb_true_iff, negb_false_iff in Hx. now rewrite Hx, IH.
Qed.

Lemma rstrip_id f s :
  (forall c, last_char s = Some c -> f c = false) -> Py.rstrip_chars f s = s.
Proof.
  intros H. unfold Py.rstrip_chars. rewrite lstrip_id by exact H.
  apply rev_involutive.
Qed.

Lemma rstrip_last f s c :
  last_char (Py.rstrip_chars f s) = Some c -> f c = false.
Proof.
  unfold last_char, Py.rstrip_chars. rewrite rev_involutive. apply lstrip_first.
Qed.

Lemma rstrip_cut f s :
  exists b, s = Py.rstrip_chars f s +:+ b /\ none_of (fun c => negb (f c)) b = true.
Proof.
  destruct (lstrip_cut f (String.rev s)) as (a & Hs & Ha).
  exists (String.rev a). rewrite none_of_rev. split; [|exact Ha].
  unfold Py.rstrip_chars. rewrite <- rev_append, <- Hs. symmetry. apply rev_involutive.
Qed.

Lemma rstrip_run f s b :
  none_of (fun c => negb (f c)) b = true ->
  Py.rstrip_chars f (s +:+ b) = Py.rstrip_chars f s.
Proof.
  intros Hb. unfold Py.rstrip_chars. rewrite rev_append, lstrip_run; [reflexivity|].
  now rewrite none_of_rev.
Qed.

Lemma first_char_append a b :
  first_char (a +:+ b) = match a with EmptyString => first_char b | _ => first_char a end.
Proof. now destruct a. Qed.

Lemma strip_trimmed f s : trimmed f (Py.strip_chars f s).
Proof.
  unfold Py.strip_chars. split; intros c Hc; [|exact (rstrip_last _ _ _ Hc)].
  destruct (rstrip_cut f (Py.lstrip_chars f s)) as (b & Hs & _).
  apply (lstrip_first f s). rewrite Hs, first_char_append.
  destruct (Py.rstrip_chars f (Py.lstrip_chars f s)); [discriminate|exact Hc].
Qed.

Lemma strip_id f s : trimmed f s -> Py.strip_chars f s = s.
Proof.
  intros [Hf Hl]. unfold Py.strip_chars. rewrite lstrip_id by exact Hf.
  now apply rstrip_id.
Qed.

(** Characters to strip around a trimmed string are removed, and
    nothing else. *)
Lemma strip_around f a s b :
  none_of (fun c => negb (f c)) a = true ->
  none_of (fun c => negb (f c)) b = true ->
  trimmed f s ->
  Py.strip_chars f (a +:+ s +:+ b) = s.
Proof.
  intros Ha Hb Hs. unfold Py.strip_chars. rewrite lstrip_run by exact Ha.
  destruct s as [|x s].
  - change (EmptyString +:+ b) with b.
    destruct (lstrip_cut f b) as (a' & Hb' & _).
    rewrite <- (append_empty b) at 1. rewrite lstrip_run by exact Hb. reflexivity.
  - rewrite lstrip_id.
    + rewrite rstrip_run by exact Hb. apply rstrip_id, Hs.
    + intros c Hc. apply (proj1 Hs). exact Hc.
Qed.

Lemma none_of_lstrip g f s : none_of g s = true -> none_of g (Py.lstrip_chars f s) = true.
Proof.
  intros H. destruct (lstrip_cut f s) as (a & Hs & _). rewrite Hs in H.
  rewrite none_of_append in H. now apply andb_true_iff in H as [_ H].
Qed.

Lemma none_of_strip g f s : none_of g s = true -> none_of g (Py.strip_chars f s) = true.
Proof.
  intros H. unfold Py.strip_chars.
  destruct (rstrip_cut f (Py.lstrip_chars f s)) as (b & Hs & _).
  apply (none_of_lstrip g f) in H. rewrite Hs in H.
  rewrite none_of_append in H. now apply andb_true_iff in H as [H _].
Qed.

End StringFacts.

(** ** The version without its epoch *)

(** X9: the version used in the name of a .dsc file, [v.split(":")[-1]],
    is what follows the last colon of the version: it holds no colon,
    the version ends with it, and what precedes it is empty or ends
    with a colon.  A version without colon is kept as it is. *)
Theorem X9_strip_epoch (v : string) :
  has_char ":" (Debrepack.strip_epoch v) = false
  /\ (exists prefix,
         v = prefix +:+ Debrepack.strip_epoch v
         /\ (prefix = EmptyString \/ exists q, prefix = q +:+ ":"))
  /\ (has_char ":" v = false -> Debrepack.strip_epoch v = v).
Proof.
  unfold Debrepack.strip_epoch.
  destruct (split_last ":" v v) as [Hno Hpre]. split; [exact Hno|].
  split; [exact Hpre|]. intros H. now rewrite split_no_sep.
Qed.

(** ** The format of a source tree *)

Section DebFormat.
Import Debrepack.

Lemma split_two sep s :
  count_char sep s = 1 ->
  exists a b, s = a +:+ String sep b /\ Py.split sep s = [a; b].
Proof.
  intros H. pose proof (split_length sep s) as Hlen. rewrite H in Hlen.
  pose proof (concat_split sep s) as Hcat.
  destruct (Py.split sep s) as [|a [|b [|c l]]]; try discriminate.
  exists a, b. split; [|reflexivity]. now rewrite <- Hcat.
Qed.

(** X10: what [set_deb_format] makes of the line printed by
    dpkg-source.  A line that starts with 1, any character, 0 is format
    1.0 without a type.  Otherwise a line with exactly one blank gives
    the stripped text before the blank as the version and the text
    after it, without the parentheses around it, as the type; and a line
    with no blank or with several raises ValueError. *)
Theorem X10_parse_deb_format (out : string) :
  (matches_1_0 out = true -> parse_deb_format out = Returned ("1.0", None))
  /\ (matches_1_0 out = false -> count_char " " out = 1 ->
      exists a b,
        out = a +:+ " " +:+ b
        /\ parse_deb_format out
           = Returned (Py.strip a, Some (Py.strip_set "()" b)))
  /\ (matches_1_0 out = false -> count_char " " out <> 1 ->
      exists msg, parse_deb_format out = Raised (ValueError msg)).
Proof.
  unfold parse_deb_format. split; [now intros ->|]. split; intros ->.
  - intros H. destruct (split_two " " out H) as (a & b & Hout & Hsp).
    exists a, b. now rewrite Hsp.
  - intros H. pose proof (split_length " " out) as Hlen.
    destruct (Py.split " " out) as [|a [|b [|c l]]]; eauto.
    cbn [length] in Hlen. congruence.
Qed.

Lemma parens_run : none_of (fun c => negb (existsb (Ascii.eqb c) ["("; ")"]%char))
                           "(" = true.
Proof. reflexivity. Qed.

(** X11: the line dpkg-source prints for a version and a type, as in
    [3.0 (quilt)], is read back as that version and that type, when the
    version holds no white space, the type holds neither a blank nor a
    parenthesis, and the line does not look like format 1.0. *)
Theorem X11_parse_deb_format_round_trip (ver ty : string) :
  none_of Py.isspace ver = true ->
  has_char " " ty = false ->
  has_char "(" ty = false ->
  has_char ")" ty = false ->
  matches_1_0 (ver +:+ " (" +:+ ty +:+ ")") = false ->
  parse_deb_format (ver +:+ " (" +:+ ty +:+ ")") = Returned (ver, Some ty).
Proof.
  intros Hver Hblank Hopen Hclose H10. unfold parse_deb_format. rewrite H10.
  change (ver +:+ " (" +:+ ty +:+ ")") with (ver +:+ String " " ("(" +:+ ty +:+ ")")).
  rewrite split_cut by (now apply (none_of_has_char Py.isspace)).
  rewrite split_no_sep
    by (rewrite !has_char_append; cbn [has_char]; now rewrite Hblank).
  f_equal. f_equal.
  - apply strip_id. now apply none_of_trimmed.
  - f_equal. unfold Py.strip_set. apply strip_around; try reflexivity.
    apply none_of_trimmed. clear -Hopen Hclose.
    induction ty as [|x ty IH]; [reflexivity|].
    cbn [has_char none_of] in *.
    apply orb_false_iff in Hopen as [Hx1 Hopen].
    apply orb_false_iff in Hclose as [Hx2 Hclose].
    rewrite IH by assumption. cbn [existsb list_ascii_of_string].
    now rewrite Hx1, Hx2.
Qed.

End DebFormat.

(** The line printed for the format 3.0 (quilt). *)
Lemma X11_parse_deb_format_round_trip_witness :
  Debrepack.parse_deb_format "3.0 (quilt)" = Returned ("3.0", Some "quilt").
Proof. now apply (X11_parse_deb_format_round_trip "3.0" "quilt"). Defined.

(** ** Reading a series file *)

Section Series.
Import Debrepack.

Lemma readlines_line e rest :
  none_of is_eol e = true ->
  Py.readlines (e +:+ Py.nl +:+ rest) = (e +:+ Py.nl) :: Py.readlines rest.
Proof.
  induction e as [|c e IH]; intros H.
  - reflexivity.
  - cbn [none_of] in H. apply andb_true_iff in H as [Hc He].
    unfold is_eol in Hc. apply negb_true_iff, orb_false_iff in Hc as [Hlf Hcr].
    rewrite !app_cons. cbn [Py.readlines]. rewrite Hlf, Hcr, (IH He). reflexivity.
Qed.

Lemma nl_run : none_of (fun c => negb (Py.isspace c)) Py.nl = true.
Proof. reflexivity. Qed.

Lemma series_entries_lines entries :
  Forall series_entry entries ->
  series_entries (series_lines entries) = entries.
Proof.
  induction 1 as [|e entries (Heol & Htrim & Hskip) _ IH]; [reflexivity|].
  cbn [series_lines foldr]. fold (series_lines entries).
  unfold series_entries. rewrite readlines_line by exact Heol.
  cbn [List.map List.filter].
  assert (Hstrip : Py.strip (e +:+ Py.nl) = e).
  { unfold Py.strip.
    change (e +:+ Py.nl) with (EmptyString +:+ (e +:+ Py.nl)).
    now apply strip_around. }
  rewrite Hstrip, Hskip. cbn [negb]. f_equal. exact IH.
Qed.

(** Every line read is a run without terminator, followed or not by a
    line feed. *)
Lemma readlines_shape s :
  Forall (fun l => exists body,
              none_of is_eol body = true
              /\ (l = body \/ l = body +:+ Py.nl))
         (Py.readlines s).
Proof.
  remember (String.length s) as n eqn:Hn.
  revert s Hn. induction n as [n IH] using lt_wf_ind. intros s Hn.
  destruct s as [|c s]; [constructor|]. cbn [Py.readlines].
  destruct (Ascii.eqb c Py.LF) eqn:Hlf.
  - constructor; [exists EmptyString; auto|].
    apply (IH (String.length s)); [subst n; cbn; lia|reflexivity].
  - destruct (Ascii.eqb c Py.CR) eqn:Hcr.
    + destruct s as [|c' s]; [repeat constructor; exists EmptyString; auto|].
      destruct (Ascii.eqb c' Py.LF).
      * constructor; [exists EmptyString; auto|].
        apply (IH (String.length s)); [subst n; cbn; lia|reflexivity].
      * constructor; [exists EmptyString; auto|].
        apply (IH (String.length (String c' s))); [subst n; cbn; lia|reflexivity].
    + assert (Hrest : Forall (fun l => exists body,
                                  none_of is_eol body = true
                                  /\ (l = body \/ l = body +:+ Py.nl))
                             (Py.readlines s))
        by (apply (IH (String.length s)); [subst n; cbn; lia|reflexivity]).
      assert (Hc : negb (is_eol c) = true) by (unfold is_eol; now rewrite Hlf, Hcr).
      destruct (Py.readlines s) as [|h t].
      * repeat constructor. exists (String c EmptyString). cbn [none_of].
        rewrite Hc. auto.
      * apply Forall_cons in Hrest as [(body & Hb & Hh) Ht].
        constructor; [|exact Ht]. exists (String c body). cbn [none_of].
        rewrite Hc, Hb. split; [reflexivity|].
        destruct Hh as [->| ->]; auto.
Qed.

Lemma strip_run_right f s b :
  none_of (fun c => negb (f c)) b = true ->
  Py.strip_chars f (s +:+ b) = Py.strip_chars f s.
Proof.
  intros Hb. unfold Py.strip_chars.
  destruct (lstrip_cut f s) as (a & Hs & Ha).
  rewrite Hs at 1. rewrite append_assoc, lstrip_run by exact Ha.
  destruct (Py.lstrip_chars f s) as [|x r] eqn:Hl.
  - change (EmptyString +:+ b) with b.
    rewrite <- (append_empty b), lstrip_run by exact Hb. reflexivity.
  - rewrite lstrip_id.
    + now apply rstrip_run.
    + intros c [= <-]. apply (lstrip_first f s). now rewrite Hl.
Qed.

Lemma series_entries_are_entries content :
  Forall series_entry (series_entries content).
Proof.
  unfold series_entries.
  pose proof (readlines_shape content) as Hshape.
  induction (Py.readlines content) as [|l ls IH]; [constructor|].
  apply Forall_cons in Hshape as [(body & Hb & Hl) Hls].
  cbn [List.map List.filter].
  destruct (skipped (Py.strip l)) eqn:Hskip; cbn [negb]; [now apply IH|].
  constructor; [|now apply IH].
  split; [|split; [apply strip_trimmed|exact Hskip]].
  destruct Hl as [->| ->].
  - now apply none_of_strip.
  - unfold Py.strip. rewrite strip_run_right by reflexivity.
    now apply none_of_strip.
Qed.

Lemma readlines_nil s : Py.readlines s = [] -> s = EmptyString.
Proof.
  destruct s as [|c s]; [reflexivity|]. cbn [Py.readlines].
  destruct (Ascii.eqb c Py.LF); [discriminate|].
  destruct (Ascii.eqb c Py.CR).
  - destruct s as [|c' s]; [discriminate|]. now destruct (Ascii.eqb c' Py.LF).
  - now destruct (Py.readlines s).
Qed.

(** What follows a line feed is read as if it stood alone. *)
Lemma readlines_after_line_feed a rest :
  Py.readlines ((a +:+ Py.nl) +:+ rest)
  = (Py.readlines (a +:+ Py.nl) ++ Py.readlines rest)%list.
Proof.
  remember (String.length a) as n eqn:Hn.
  revert a Hn. induction n as [n IH] using lt_wf_ind. intros a Hn.
  destruct a as [|c a]; [reflexivity|].
  rewrite !app_cons. cbn [Py.readlines].
  destruct (Ascii.eqb c Py.LF).
  - rewrite (IH (String.length a)); [reflexivity|subst n; cbn; lia|reflexivity].
  - destruct (Ascii.eqb c Py.CR).
    + destruct a as [|c' a]; [reflexivity|]. rewrite !app_cons.
      destruct (Ascii.eqb c' Py.LF).
      * rewrite (IH (String.length a)); [reflexivity|subst n; cbn; lia|reflexivity].
      * rewrite <- !app_cons.
        rewrite (IH (String.length (String c' a)));
          [reflexivity|subst n; cbn; lia|reflexivity].
    + rewrite (IH (String.length a)); [|subst n; cbn; lia|reflexivity].
      destruct (Py.readlines (a +:+ Py.nl)) as [|h t] eqn:Hr; [|reflexivity].
      apply readlines_nil in Hr. now destruct a.
Qed.

Lemma series_entries_after_line_feed a rest :
  series_entries ((a +:+ Py.nl) +:+ rest)
  = (series_entries (a +:+ Py.nl) ++ series_entries rest)%list.
Proof.
  unfold series_entries.
  now rewrite readlines_after_line_feed, List.map_app, List.filter_app.
Qed.

(** X12: the entries that the loops over a series file see (its lines,
    stripped, without the blank lines and the comments) lie within one
    line, have no white space around them and are neither empty nor
    comments; and entries of that kind, written one per line as
    [apply_src_patches] registers them in a quilt tree, are read back
    the same, in the same order. *)
Theorem X12_series_round_trip :
  (forall content, Forall series_entry (series_entries content))
  /\ (forall content,
         series_entries (series_lines (series_entries content))
         = series_entries content).
Proof.
  split; [apply series_entries_are_entries|]. intros content.
  apply series_entries_lines, series_entries_are_entries.
Qed.

(** X13: registering entries after a series that is empty or ends with
    a line feed adds them, in order, after the entries the series
    already had. *)
Theorem X13_series_registration (old : string) (entries : list string) :
  Forall series_entry entries ->
  old = EmptyString \/ (exists a, old = a +:+ Py.nl) ->
  series_entries (old +:+ series_lines entries)
  = (series_entries old ++ entries)%list.
Proof.
  intros Hall [->|(a & ->)].
  - now apply series_entries_lines.
  - now rewrite series_entries_after_line_feed, series_entries_lines.
Qed.

End Series.

(** The series of the sample package, registered after a series that
    lists one patch. *)
Lemma X13_series_registration_witness :
  series_entries (("upstream.patch" +:+ Py.nl)
                  +:+ series_lines (series_entries Sample.two_patches))
  = ["upstream.patch"; "p1.patch"; "p2.patch"].
Proof.
  apply (X13_series_registration ("upstream.patch" +:+ Py.nl)
           (series_entries Sample.two_patches)).
  - apply series_entries_are_entries.
  - right. now exists "upstream.patch".
Defined.

(** ** The files a package is made of *)

Section Harvest.
Context (E : Env).
Import Debrepack.

Lemma foreach_commands {O A} (cmd : A -> command) (l : list A) :
  forall (s s' : State O),
    foreach l (fun x => run_shell_cmd E (cmd x) ;;; ret tt) s = (Returned tt, s') ->
    trace (sys s') = (trace (sys s) ++ List.map cmd l)%list /\ self s' = self s.
Proof.
  induction l as [|x l IH]; intros s s' H.
  - injection H as <-. now rewrite app_nil_r.
  - cbn [foreach] in H. apply bind_Returned in H as ([] & s1 & H1 & H).
    apply bind_Returned in H1 as (out & s1' & H1 & Hret). injection Hret as <-.
    destruct (run_shell_cmd_frame E (cmd x) s) as (Htr & _ & Hself).
    rewrite H1 in Htr, Hself. cbn [snd] in Htr, Hself.
    destruct (IH _ _ H) as [Htr' Hself'].
    rewrite Htr', Htr, Hself', Hself, <- app_assoc. auto.
Qed.

(** The working directory of the package and the output directory are
    not touched by the revision rules. *)
Lemma maintains_set_revision (K : Parser -> Prop) :
  (forall d P, K P -> K (with_debfolder d P)) ->
  maintains (fun s => K (self s)) (fun _ => True) (set_revision E).
Proof.
  intros HK. unfold set_revision.
  apply (maintains_bind _ K); [now apply (maintains_get_self _ K)|].
  intros P HP. destruct (revision (meta_data P)) as [rd|]; [|now apply maintains_ret].
  apply (maintains_bind _ (fun _ => True)).
  - intros s _. split; [now apply HK|auto].
  - intros ? _. apply (maintains_bind _ (fun _ => True)); [|intros; now apply maintains_ret].
    intros s Hs. split; [|auto].
    now rewrite (keeps_self_revision_count E _ s).
Qed.

Lemma repackage_harvest (t0 s' : State Parser) files :
  repackage E t0 = (Returned files, s') ->
  let P := self t0 in
  exists t1 t2 src ver out c names,
    let dsc := src +:+ "_" +:+ strip_epoch ver +:+ ".dsc" in
    update_changelog E t0 = (Returned (src, ver), t1)
    /\ run_shell_cmd E (CmdShell ("cd " +:+ srcdir (pkginfo P)
                                  +:+ "; dpkg-buildpackage -nc -us -uc -S -d")) t1
       = (Returned out, t2)
    /\ lookup_path (sys t2) (Py.join (packdir (pkginfo P)) dsc) = Some (File c)
    /\ dsc_files E c = Some names
    /\ files = dsc :: names
    /\ trace (sys s')
       = (trace (sys t2)
          ++ List.map (harvest_command (packdir (pkginfo P)) (output P)) files)%list.
Proof.
  intros H. cbv zeta. unfold repackage in H.
  apply bind_Returned in H as (P' & t0' & HP & H). injection HP as <- <-.
  set (P := self t0) in *.
  apply bind_Returned in H as ([src ver] & t1 & Huc & H).
  apply bind_Returned in H as (out & t2 & Hbuild & H).
  apply bind_Returned in H as (c & t3 & Hread & H).
  assert (Hc : lookup_path (sys t2)
                 (Py.join (packdir (pkginfo P))
                          (src +:+ "_" +:+ strip_epoch ver +:+ ".dsc"))
               = Some (File c) /\ t3 = t2).
  { revert Hread. unfold read_file. unfold_monad.
    destruct (lookup_path (sys t2) _) as [[c'|]|]; try discriminate.
    now intros [= -> ->]. }
  destruct Hc as [Hc ->].
  destruct (dsc_files E c) as [names|] eqn:Hnames; [|discriminate].
  apply bind_Returned in H as ([] & t4 & Hloop & H). injection H as <- <-.
  apply (foreach_commands (harvest_command (packdir (pkginfo P)) (output P)))
    in Hloop as [Htr _].
  exists t1, t2, src, ver, out, c, names. cbv zeta. auto 10.
Qed.

(** X14: when [package] returns, the steps up to the source patches
    have returned, the changelog step has given a source name and a
    version, and dpkg-buildpackage has run.  The list returned is
    [<source>_<version without epoch>.dsc] followed by the names that
    this very file, as it is in the working directory of the package
    after dpkg-buildpackage, lists under Files; and what [package] runs
    after dpkg-buildpackage is the copy of exactly these files, in that
    order, from the working directory of the package to the output
    directory. *)
Theorem X14_package_harvest (pkgpath mirror : string) (s s' : State Parser)
    (files : list string) :
  package E pkgpath mirror s = (Returned files, s') ->
  exists b t0 t1 t2 src ver out c names,
    let P := self t0 in
    let dsc := src +:+ "_" +:+ strip_epoch ver +:+ ".dsc" in
    (setup E pkgpath ;;; reset_packdir ;;; prepare_packdir E mirror ;;;
     resolve_origin E ;;; apply_src_patches E) s = (Returned b, t0)
    /\ update_changelog E t0 = (Returned (src, ver), t1)
    /\ run_shell_cmd E (CmdShell ("cd " +:+ srcdir (pkginfo P)
                                  +:+ "; dpkg-buildpackage -nc -us -uc -S -d")) t1
       = (Returned out, t2)
    /\ lookup_path (sys t2) (Py.join (packdir (pkginfo P)) dsc) = Some (File c)
    /\ dsc_files E c = Some names
    /\ files = dsc :: names
    /\ trace (sys s')
       = (trace (sys t2)
          ++ List.map (harvest_command (packdir (pkginfo P)) (output P)) files)%list.
Proof.
  unfold package, assemble_package. intros H.
  apply bind_Returned in H as (a1 & s1 & H1 & H).
  apply bind_Returned in H as (a2 & s2 & H2 & H).
  apply bind_Returned in H as (a3 & s3 & H3 & H).
  apply bind_Returned in H as (a4 & s4 & H4 & H).
  apply bind_Returned in H as (a5 & s5 & H5 & H).
  destruct (repackage_harvest _ _ _ H)
    as (t1 & t2 & src & ver & out & c & names & Huc & Hb & Hc & Hn & Hf & Htr).
  exists a5, s5, t1, t2, src, ver, out, c, names. cbv zeta.
  split; [|auto 10].
  now rewrite (bind_eq _ _ _ _ _ H1), (bind_eq _ _ _ _ _ H2),
              (bind_eq _ _ _ _ _ H3), (bind_eq _ _ _ _ _ H4).
Qed.

End Harvest.

(** The sample package, found in the mirror as a source package whose
    description lists one archive: the run returns the two names and
    ends with the two copies to the output directory. *)
Lemma X14_package_harvest_witness :
  exists t2 s' : State Debrepack.Parser,
    Debrepack.package Sample.harvest_env "/repo/pkg" "/mirror"
      (mkState Sample.harvest_sys Sample.parser)
    = (Returned ["pkg_1.4-3.dsc"; "pkg_1.4.orig.tar.gz"], s')
    /\ lookup_path (sys t2) "/build/pkg/pkg_1.4-3.dsc" = Some (File "Files: orig")
    /\ trace (sys s')
       = (trace (sys t2)
          ++ [CmdCp "-Lr" "/build/pkg/pkg_1.4-3.dsc" "/out";
              CmdCp "-Lr" "/build/pkg/pkg_1.4.orig.tar.gz" "/out"])%list.
Proof.
  assert (H : Debrepack.package Sample.harvest_env "/repo/pkg" "/mirror"
                (mkState Sample.harvest_sys Sample.parser)
              = (Returned ["pkg_1.4-3.dsc"; "pkg_1.4.orig.tar.gz"],
                 (Debrepack.package Sample.harvest_env "/repo/pkg" "/mirror"
                    (mkState Sample.harvest_sys Sample.parser)).2))
    by (vm_compute; reflexivity).
  destruct (X14_package_harvest _ _ _ _ _ _ H)
    as (b & t0 & t1 & t2 & src & ver & out & c & names
        & Hpre & Huc & Hb & Hc & Hn & Hf & Htr).
  injection Hf as Hdsc Hnames. subst names. rewrite <- Hdsc in Hc.
  assert (Hp : (Debrepack.setup Sample.harvest_env "/repo/pkg" ;;;
                Debrepack.reset_packdir ;;;
                Debrepack.prepare_packdir Sample.harvest_env "/mirror" ;;;
                Debrepack.resolve_origin Sample.harvest_env ;;;
                Debrepack.apply_src_patches Sample.harvest_env)
                 (mkState Sample.harvest_sys Sample.parser)
               = (Returned true,
                  mkState
                    (sys ((Debrepack.setup Sample.harvest_env "/repo/pkg" ;;;
                           Debrepack.reset_packdir ;;;
                           Debrepack.prepare_packdir Sample.harvest_env "/mirror" ;;;
                           Debrepack.resolve_origin Sample.harvest_env ;;;
                           Debrepack.apply_src_patches Sample.harvest_env)
                            (mkState Sample.harvest_sys Sample.parser)).2)
                    (Debrepack.with_debfolder "/build/pkg/local_debian"
                       (Debrepack.mkParser "/build" "/out" None "std" "cengn_first"
                          (Sample.meta_of "2:1.4-3" None)
                          (Debrepack.mkVersions "2:1.4-3" "1.4" (Some "3") (Some "2"))
                          (Debrepack.mkPkgInfo "/repo/pkg" "pkg" "/build/pkg"
                             "/repo/pkg/debian" "pkg" "/build/pkg/pkg-1.4")))))
    by (vm_compute; reflexivity).
  assert (Hself : self t0
                  = Debrepack.with_debfolder "/build/pkg/local_debian"
                      (Debrepack.mkParser "/build" "/out" None "std" "cengn_first"
                         (Sample.meta_of "2:1.4-3" None)
                         (Debrepack.mkVersions "2:1.4-3" "1.4" (Some "3") (Some "2"))
                         (Debrepack.mkPkgInfo "/repo/pkg" "pkg" "/build/pkg"
                            "/repo/pkg/debian" "pkg" "/build/pkg/pkg-1.4")))
    by (rewrite Hp in Hpre; exact (eq_sym (f_equal (fun r => self r.2) Hpre))).
  rewrite Hself in Hc, Htr. cbn [Debrepack.packdir Debrepack.pkginfo Debrepack.output
                                  Debrepack.with_debfolder Debrepack.with_pkginfo] in Hc, Htr.
  assert (Hcontent : c = "Files: orig"%string).
  { revert Hn. unfold Sample.harvest_env. cbn [dsc_files].
    destruct (String.eqb_spec c "Files: orig"); [auto|discriminate]. }
  subst c.
  exists t2. eexists. split; [exact H|]. split; [exact Hc|exact Htr].
Defined.

(** ** Files taken from a package *)

Section DebFiles.
Context (T : PatchBuilder.Tools).
Import PatchBuilder.

(** The loops [for x in l: if test(x): found = x] keep the last match. *)
Lemma last_match_last_passing (f : string -> bool) (l : list string) :
  last_match f l = last_passing f l.
Proof.
  unfold last_match, last_passing.
  assert (H : forall acc,
             foldl (fun acc x => if f x then Some x else acc) acc l
             = match last (List.filter f l) with Some x => Some x | None => acc end).
  { induction l as [|x l IH]; intros acc; [reflexivity|].
    cbn [foldl List.filter]. rewrite IH. destruct (f x); [|reflexivity].
    rewrite last_cons. now destruct (last (List.filter f l)). }
  rewrite H. now destruct (last (List.filter f l)).
Qed.

Lemma extract_files_paths members tmp files : forall (s s' : State Builder) paths,
  extract_files members tmp files s = (Returned paths, s') ->
  Forall2 (fun f p =>
             exists m, last_passing (fun member => Py.endswith member f)
                                    (List.map fst members) = Some m
                       /\ p = Py.join tmp m)
          files paths.
Proof.
  induction files as [|f files IH]; intros s s' paths H.
  - injection H as <- _. constructor.
  - cbn [extract_files] in H. rewrite last_match_last_passing in H.
    destruct (last_passing _ _) as [m|] eqn:Hm; [|discriminate].
    apply bind_Returned in H as ([] & s1 & _ & H).
    apply bind_Returned in H as (rest & s2 & Hrest & H).
    injection H as <- _. constructor; [eauto|]. exact (IH _ _ _ Hrest).
Qed.

(** X15: when [get_files_from_deb] returns, the package file it used is
    the last one of the download directory, in listing order, named
    [<package>_....deb]: that file is copied into the temporary folder,
    the copy is unpacked there, and the data archive is the file
    [data.tar.xz] found in the folder after that.  The files are taken
    from that archive, and one path is returned per requested name, in
    the order of the request: the temporary folder joined with the last
    member of the archive whose name ends with the requested name. *)
Theorem X15_get_files_from_deb (download_dir tmp_folder package_name : string)
    (files paths : list string) (s s' : State Builder) :
  get_files_from_deb T download_dir tmp_folder package_name files s
  = (Returned paths, s') ->
  exists names deb t1 t2 data_tar,
    os_listdir download_dir s = (Returned names, s)
    /\ last_passing (is_deb_of package_name) names = Some deb
    /\ shutil_copy (Py.join download_dir deb) tmp_folder s = (Returned tt, t1)
    /\ check_call_ar T (Py.join tmp_folder deb) tmp_folder t1 = (Returned tt, t2)
    /\ lookup_path (sys t2) (Py.join tmp_folder "data.tar.xz") = Some (File data_tar)
    /\ extract_files (tar_members T data_tar) tmp_folder files t2 = (Returned paths, s')
    /\ Forall2 (fun f p =>
                  exists m,
                    last_passing (fun member => Py.endswith member f)
                                 (List.map fst (tar_members T data_tar)) = Some m
                    /\ p = Py.join tmp_folder m)
               files paths.
Proof.
  unfold get_files_from_deb. intros H.
  apply bind_Returned in H as (names & s1 & Hls & H).
  assert (Hs1 : s1 = s).
  { revert Hls. unfold os_listdir. unfold_monad. cbn [sys].
    destruct (fs (sys s) !! _) as [[?|]|]; try discriminate. now intros [= _ <-]. }
  subst s1. rewrite last_match_last_passing in H.
  fold (is_deb_of package_name) in H.
  destruct (last_passing (is_deb_of package_name) names) as [deb|] eqn:Hdeb;
    [|discriminate].
  apply bind_Returned in H as ([] & t1 & Hcp & H).
  apply bind_Returned in H as ([] & t2 & Har & H).
  apply bind_Returned in H as (data_tar & t3 & Hrd & H).
  assert (Hfile : lookup_path (sys t2) (Py.join tmp_folder "data.tar.xz")
                  = Some (File data_tar) /\ t3 = t2).
  { revert Hrd. unfold read_file. unfold_monad.
    destruct (lookup_path (sys t2) _) as [[c|]|]; try discriminate.
    now intros [= -> <-]. }
  destruct Hfile as [Hfile ->].
  exists names, deb, t1, t2, data_tar. repeat (split; [eassumption|]).
  eapply extract_files_paths; exact H.
Qed.

End DebFiles.

(** Two scripts asked from the software package, of which the download
    area holds two versions: the one that comes last in the listing is
    used. *)
Lemma X15_get_files_from_deb_witness :
  exists names t1 t2,
    os_listdir "/dl" (mkState Sample.software_sys Sample.builder)
    = (Returned names, mkState Sample.software_sys Sample.builder)
    /\ last_passing (is_deb_of "software") names = Some "software_0.9.deb"
    /\ PatchBuilder.shutil_copy "/dl/software_0.9.deb" "/tmp/deb_x"
         (mkState Sample.software_sys Sample.builder) = (Returned tt, t1)
    /\ PatchBuilder.check_call_ar Sample.deb_tools "/tmp/deb_x/software_0.9.deb"
         "/tmp/deb_x" t1 = (Returned tt, t2)
    /\ lookup_path (sys t2) "/tmp/deb_x/data.tar.xz" = Some (File "tar").
Proof.
  assert (H : PatchBuilder.get_files_from_deb Sample.deb_tools "/dl" "/tmp/deb_x"
                "software" ["deploy-precheck"; "upgrade_utils.py"]
                (mkState Sample.software_sys Sample.builder)
              = (Returned ["/tmp/deb_x/usr/bin/deploy-precheck";
                           "/tmp/deb_x/usr/lib/upgrade_utils.py"],
                 (PatchBuilder.get_files_from_deb Sample.deb_tools "/dl" "/tmp/deb_x"
                    "software" ["deploy-precheck"; "upgrade_utils.py"]
                    (mkState Sample.software_sys Sample.builder)).2))
    by (vm_compute; reflexivity).
  destruct (X15_get_files_from_deb _ _ _ _ _ _ _ _ H)
    as (names & deb & t1 & t2 & data_tar & Hls & Hdeb & Hcp & Har & Hf & _).
  assert (Hls' : os_listdir "/dl" (mkState Sample.software_sys Sample.builder)
                 = (Returned ["other_1.0.deb"; "software_1.0.deb"; "software_0.9.deb"],
                    mkState Sample.software_sys Sample.builder))
    by (vm_compute; reflexivity).
  pose proof (f_equal fst (eq_trans (eq_sym Hls) Hls')) as Hnames.
  cbn [fst] in Hnames. injection Hnames as ->.
  vm_compute in Hdeb. injection Hdeb as <-.
  pose proof (f_equal snd Hcp) as E1. cbn [snd] in E1. subst t1.
  pose proof (f_equal snd Har) as E2. cbn [snd] in E2. subst t2.
  assert (Hf' : lookup_path
                  (sys (PatchBuilder.check_call_ar Sample.deb_tools
                          (Py.join "/tmp/deb_x" "software_0.9.deb") "/tmp/deb_x"
                          (PatchBuilder.shutil_copy
                             (Py.join "/dl" "software_0.9.deb") "/tmp/deb_x"
                             (mkState Sample.software_sys Sample.builder)).2).2)
                  (Py.join "/tmp/deb_x" "data.tar.xz") = Some (File "tar"))
    by (vm_compute; reflexivity).
  pose proof (eq_trans (eq_sym Hf) Hf') as Htar. injection Htar as ->.
  eexists _, _, _. split; [exact Hls|]. split; [reflexivity|].
  split; [exact Hcp|]. split; [exact Har|exact Hf].
Defined.

(** ** Install scripts *)

Section Scripts.
Context (T : PatchBuilder.Tools).
Import PatchBuilder.

Lemma write_file_store {O} (p c : string) (s s' : State O) :
  write_file p c s = (Returned tt, s') ->
  s' = mkState (set_fs (<[resolve (sys s) p := File c]> (fs (sys s))) (sys s)) (self s).
Proof.
  unfold write_file, store_file. unfold_monad. cbn [sys self].
  destruct (lookup_path (sys s) p) as [[old|]|];
    destruct (fs (sys s) !! Py.dirname (resolve (sys s) p)) as [[?|]|];
    try discriminate; now intros [= <-].
Qed.

(** X16: [copy_rename_script] first checks the script: when the path is
    not a file it raises FileNotFoundError, whatever the script type.
    For a script that is there, to be renamed, a type that is not one
    of the four known ones (or no type) raises ValueError and nothing
    is copied; and for a known type, when the call returns, the name of
    that type in the current directory holds the content of the script
    and nothing else has changed. *)
Theorem X16_copy_rename_script (path_to_script : string)
    (script_type : option string) (s : State Builder) :
  let r := copy_rename_script path_to_script script_type true s in
  match lookup_path (sys s) path_to_script with
  | Some (File c) =>
      match script_target script_type with
      | Some name =>
          lookup_path (sys s) ("./" +:+ name) <> Some Dir ->
          r.1 = Returned tt ->
          r.2 = mkState (set_fs (<[resolve (sys s) ("./" +:+ name) := File c]>
                                   (fs (sys s))) (sys s)) (self s)
      | None =>
          r = (Raised (ValueError ("Script type provided is not valid one: "
                                   +:+ default "None" script_type)), s)
      end
  | _ =>
      r = (Raised (FileNotFoundError ("Install script " +:+ path_to_script
                                      +:+ " not found")), s)
  end.
Proof.
  cbv zeta. unfold copy_rename_script, script_target.
  rewrite (bind_eq _ _ _ _ _ (os_path_isfile_eq path_to_script s)).
  destruct (lookup_path (sys s) path_to_script) as [[c|]|] eqn:Hp; cbn [negb];
    try reflexivity.
  destruct (script_type ≫= PATCH_SCRIPTS) as [name|]; [|reflexivity].
  intros Hdir Hret. unfold shutil_copy in *.
  assert (Hrd : read_file path_to_script s = (Returned c, s))
    by (unfold read_file; unfold_monad; cbn [sys]; now rewrite Hp).
  rewrite (bind_eq _ _ _ _ _ Hrd) in *.
  rewrite (bind_eq _ _ _ _ _ (os_path_isdir_eq _ s)) in *.
  destruct (lookup_path (sys s) ("./" +:+ name)) as [[?|]|]; try easy;
    destruct (write_file ("./" +:+ name) c s) as [[[]|e] s1] eqn:Hw;
    try discriminate; exact (write_file_store _ _ _ _ Hw).
Qed.

End Scripts.

(** ** The packages recorded by a build *)

Section RecordedDebs.
Context (T : PatchBuilder.Tools).
Import PatchBuilder.

Lemma add_members_self dl_dir names : forall (s s' : State Builder),
  add_members dl_dir names s = (Returned tt, s') ->
  s' = mkState (sys s) (with_debs names (self s)).
Proof.
  unfold add_members.
  induction names as [|file names IH]; intros s s' H.
  - injection H as <-. now destruct s.
  - cbn [foreach] in H. apply bind_Returned in H as ([] & s1 & H1 & H).
    rewrite (bind_eq _ _ _ _ _ (os_path_exists_eq _ s)) in H1.
    destruct (lookup_path (sys s) (Py.join dl_dir file)); cbn [negb] in H1;
      [|discriminate].
    rewrite (bind_eq _ _ _ _ _ (get_self_eq s)), put_self_eq in H1.
    injection H1 as <-. apply IH in H. exact H.
Qed.

Lemma with_debs_metadata names : forall B,
  let md := metadata B in
  with_debs names B
  = mkBuilder (mkPatchMetadata (patch_id md) (stx_packages md) (binary_packages md)
                               (pre_install md) (post_install md)
                               (reboot_required md) (debs md ++ names)%list)
              (output_dir B) (patch_name B).
Proof.
  induction names as [|file names IH]; intros B; cbv zeta.
  - cbn. rewrite app_nil_r. now destruct B as [[] ? ?].
  - cbn [with_debs foldl]. fold (with_debs names (append_deb file B)).
    rewrite IH. cbn. now rewrite <- app_assoc.
Qed.

Lemma os_listdir_inv {O} p (s s' : State O) names :
  os_listdir p s = (Returned names, s') ->
  s' = s /\ names = listdir_fs (resolve (sys s) p) (fs (sys s)).
Proof.
  unfold os_listdir. unfold_monad. cbn [sys].
  destruct (fs (sys s) !! _) as [[?|]|]; try discriminate. now intros [= <- <-].
Qed.

(** The bundle is assembled from the listing of the download area taken
    once the empty archive of the software is in place. *)
Lemma assemble_bundle_self dl_dir (t s' : State Builder) r :
  assemble_bundle T dl_dir t = (Returned r, s') ->
  exists t1 names,
    write_file "software.tar" EmptyString t = (Returned tt, t1)
    /\ os_listdir dl_dir t1 = (Returned names, t1)
    /\ self s' = with_debs names (self t).
Proof.
  unfold assemble_bundle. intros H.
  apply bind_Returned in H as ([] & t1 & Hw & H).
  apply bind_Returned in H as (names & t2 & Hls & H).
  pose proof Hls as Hls'. apply os_listdir_inv in Hls' as [-> _].
  apply bind_Returned in H as ([] & t3 & Hadd & H).
  apply add_members_self in Hadd. subst t3.
  assert (Hs : self s' = with_debs names (self t1)).
  { match type of H with
    | ?m _ = _ =>
        assert (Hk : keeps (fun s : State Builder => self s) m) by keeps_auto;
        exact (keeps_eq _ _ _ _ _ Hk H)
    end. }
  exists t1, names. split; [exact Hw|]. split; [exact Hls|]. rewrite Hs.
  pose proof (keeps_eq (fun s => self s) _ _ _ _
                (keeps_write_file _ frame_view_self _ _) Hw) as Hself.
  cbn beta in *. now rewrite Hself.
Qed.

(** X17: a build that goes through has run the two fetches, found the
    download area not empty, made its temporary directory, entered it
    and opened the archive of the software; the names it has recorded in
    [metadata.debs], after the names that were there, are those of the
    listing of the download area in the state reached then, in the
    order of that listing; the rest of the recipe, the output directory
    of the fetcher and the name of the patch are as they were. *)
Theorem X17_build_patch_records_debs (s s' : State Builder) :
  build_patch T s = (Returned None, s') ->
  let dl_dir := Py.join (Py.join (output_dir (self s)) "downloads") "binary" in
  exists s1 s2 fetched tmpdir s3 s4 s5 names,
    run_fetch (fetch_stx_packages T) "fetch_stx_packages" s = (Returned tt, s1)
    /\ run_fetch (fetch_external_binaries T) "fetch_external_binaries" s1
       = (Returned tt, s2)
    /\ os_listdir dl_dir s2 = (Returned fetched, s2)
    /\ fetched <> []
    /\ tempfile_mkdtemp T "patch_" s2 = (Returned tmpdir, s3)
    /\ os_chdir tmpdir s3 = (Returned tt, s4)
    /\ write_file "software.tar" EmptyString s4 = (Returned tt, s5)
    /\ os_listdir dl_dir s5 = (Returned names, s5)
    /\ names = listdir_fs (resolve (sys s5) dl_dir) (fs (sys s5))
    /\ self s' = with_debs names (self s)
    /\ debs (metadata (self s')) = (debs (metadata (self s)) ++ names)%list
    /\ stx_packages (metadata (self s')) = stx_packages (metadata (self s))
    /\ output_dir (self s') = output_dir (self s)
    /\ patch_name (self s') = patch_name (self s).
Proof.
  intros H. cbv zeta. unfold build_patch in H.
  set (dl_dir := Py.join (Py.join (output_dir (self s)) "downloads") "binary").
  apply bind_Returned in H as ([] & s1 & H1 & H).
  apply bind_Returned in H as ([] & s2 & H2 & H).
  apply bind_Returned in H as (B & s2' & HB & H). injection HB as <- <-.
  pose proof (keeps_eq (fun s => self s) _ _ _ _
                (keeps_run_fetch _ frame_view_self _ _) H1) as Hself1.
  pose proof (keeps_eq (fun s => self s) _ _ _ _
                (keeps_run_fetch _ frame_view_self _ _) H2) as Hself2.
  cbn beta in *. rewrite Hself2, Hself1 in H. fold dl_dir in H.
  apply bind_Returned in H as (fetched & s3 & H3 & H).
  pose proof H3 as H3'. apply os_listdir_inv in H3' as [-> _].
  destruct fetched as [|f fetched]; [discriminate|].
  apply bind_Returned in H as (tmpdir & s4 & H4 & H).
  apply bind_Returned in H as ([] & s5 & H5 & H).
  apply bind_Returned in H as ([] & s6 & H6 & H). injection H as <-.
  pose proof (keeps_eq (fun s => self s) _ _ _ _
                (keeps_tempfile_mkdtemp _ _ frame_view_self _) H4) as Hself4.
  assert (Hself5 : self s5 = self s4).
  { revert H5. unfold os_chdir. unfold_monad. cbn [sys].
    destruct (lookup_path (sys s4) tmpdir) as [[?|]|]; try discriminate.
    now intros [= <-]. }
  cbn beta in *.
  destruct (assemble_bundle_self _ _ _ _ H6) as (t1 & names & Hw & Hls & Hself6).
  exists s1, s2, (f :: fetched), tmpdir, s4, s5, t1, names.
  split; [exact H1|]. split; [exact H2|]. split; [exact H3|].
  split; [discriminate|]. split; [exact H4|]. split; [exact H5|].
  split; [exact Hw|]. split; [exact Hls|].
  split; [exact (proj2 (os_listdir_inv _ _ _ _ Hls))|].
  rewrite Hself6, Hself5, Hself4, Hself2, Hself1, with_debs_metadata. cbn.
  repeat split; auto.
Qed.

End RecordedDebs.

(** One package in the download area of the sample builder: its name is
    what the build records. *)
Lemma X17_build_patch_records_debs_witness :
  PatchBuilder.debs (PatchBuilder.metadata
    (self (PatchBuilder.build_patch Sample.tools
             (mkState Sample.build_sys Sample.builder)).2))
  = ["pkg_1.0.deb"].
Proof.
  assert (H : PatchBuilder.build_patch Sample.tools
                (mkState Sample.build_sys Sample.builder)
              = (Returned None,
                 (PatchBuilder.build_patch Sample.tools
                    (mkState Sample.build_sys Sample.builder)).2))
    by (vm_compute; reflexivity).
  destruct (X17_build_patch_records_debs _ _ _ H)
    as (s1 & s2 & fetched & tmpdir & s3 & s4 & s5 & names
        & H1 & H2 & _ & _ & H4 & H5 & H6 & _ & Hn & _ & Hd & _).
  rewrite Hd.
  pose proof (f_equal snd H1) as E1. cbn [snd] in E1. subst s1.
  pose proof (f_equal snd H2) as E2. cbn [snd] in E2. subst s2.
  pose proof (f_equal fst H4) as E3. cbn [fst] in E3.
  pose proof (f_equal snd H4) as E4. cbn [snd] in E4. subst s3.
  assert (Htmp : tmpdir = "/tmp/patch_x").
  { assert (Hv : (PatchBuilder.tempfile_mkdtemp Sample.tools "patch_"
                   (PatchBuilder.run_fetch
                      (PatchBuilder.fetch_external_binaries Sample.tools)
                      "fetch_external_binaries"
                      (PatchBuilder.run_fetch
                         (PatchBuilder.fetch_stx_packages Sample.tools)
                         "fetch_stx_packages"
                         (mkState Sample.build_sys Sample.builder)).2).2).1
                 = Returned "/tmp/patch_x") by (vm_compute; reflexivity).
    pose proof (eq_trans (eq_sym E3) Hv) as Ht. now injection Ht. }
  subst tmpdir.
  pose proof (f_equal snd H5) as E5. cbn [snd] in E5. subst s4.
  pose proof (f_equal snd H6) as E6. cbn [snd] in E6. subst s5.
  subst names. vm_compute. reflexivity.
Defined.

(** ** What goes into a bundle *)

Section Listing.

Lemma prefix_append a b : String.prefix a (a +:+ b) = true.
Proof.
  induction a as [|c a IH]; [now destruct b|].
  rewrite app_cons. cbn [String.prefix].
  destruct (Ascii.ascii_dec c c); [exact IH|congruence].
Qed.

Lemma drop_append a b : Py.drop (String.length a) (a +:+ b) = b.
Proof. induction a as [|c a IH]; [reflexivity|exact IH]. Qed.

Lemma length_append a b :
  String.length (a +:+ b) = (String.length a + String.length b)%nat.
Proof.
  induction a as [|c a IH]; [reflexivity|]. rewrite app_cons. cbn. now rewrite IH.
Qed.

Lemma has_char_rev c s : has_char c (String.rev s) = has_char c s.
Proof.
  induction s as [|x s IH]; [reflexivity|].
  rewrite rev_cons, has_char_append, IH. cbn [has_char].
  rewrite orb_false_r. apply orb_comm.
Qed.

Lemma span_not_slash_plain s :
  has_char "/" s = false -> Py.span_not_slash s = (s, EmptyString).
Proof.
  induction s as [|c s IH]; [reflexivity|]. cbn [has_char Py.span_not_slash].
  destruct (Ascii.eqb c "/"); [discriminate|]. cbn. intros H. now rewrite IH.
Qed.

Lemma basename_plain n : has_char "/" n = false -> Py.basename n = n.
Proof.
  intros H. unfold Py.basename.
  rewrite span_not_slash_plain by now rewrite has_char_rev.
  apply rev_involutive.
Qed.

Lemma child_name_plain q n :
  has_char "/" n = false -> child_name q (q +:+ "/" +:+ n) = Some n.
Proof.
  intros H. unfold child_name, under, Py.startswith.
  rewrite <- append_assoc, prefix_append.
  replace (String.length q + 1)%nat with (String.length (q +:+ "/"))
    by (rewrite length_append; reflexivity).
  rewrite drop_append, (basename_plain n H), String.eqb_refl. reflexivity.
Qed.

Lemma plain_name_spec n :
  plain_name n = true ->
  has_char "/" n = false /\ n <> EmptyString /\ n <> ".".
Proof.
  unfold plain_name. rewrite !andb_true_iff, !negb_true_iff.
  intros [[H1 H2] H3]. repeat split; [exact H1| |].
  - now apply String.eqb_neq.
  - now apply String.eqb_neq.
Qed.

Lemma resolve_plain (w : Sys) n :
  plain_dir (cwd w) -> plain_name n = true ->
  resolve w n = cwd w +:+ "/" +:+ n.
Proof.
  intros [Hne Hend] Hn. apply plain_name_spec in Hn as (Hs & Hn0 & Hn1).
  assert (Hdrop : drop_dot_slash n = n).
  { destruct n as [|a [|b n]]; [reflexivity| |].
    - cbn. destruct (Ascii.eqb_spec a "."); [now subst|reflexivity].
    - cbn [drop_dot_slash]. cbn [has_char] in Hs.
      apply orb_false_iff in Hs as [_ Hs]. apply orb_false_iff in Hs as [Hb _].
      now rewrite Hb, andb_false_r. }
  unfold resolve. rewrite Hdrop.
  destruct n as [|a n]; [congruence|].
  unfold Py.join.
  assert (Hst : Py.startswith (String a n) "/" = false).
  { unfold Py.startswith. cbn [String.prefix has_char] in *.
    apply orb_false_iff in Hs as [Ha _].
    destruct (Ascii.ascii_dec "/" a) as [<-|]; [discriminate|reflexivity]. }
  rewrite Hst, Hend, orb_false_r.
  destruct (String.eqb_spec (cwd w) EmptyString); [contradiction|reflexivity].
Qed.

(** A plain name that is there below a directory is in its listing. *)
Lemma listdir_fs_plain (m : gmap string node) q n x :
  has_char "/" n = false ->
  m !! (q +:+ "/" +:+ n) = Some x ->
  n ∈ listdir_fs q m.
Proof.
  intros Hn Hm. unfold listdir_fs. apply list_elem_of_omap.
  exists (q +:+ "/" +:+ n, x). split.
  - now apply elem_of_map_to_list.
  - now apply child_name_plain.
Qed.

(** A regular file of the current directory with a plain name is among
    the files found there. *)
Lemma files_here_plain (w : Sys) n :
  plain_dir (cwd w) -> plain_name n = true ->
  is_file_in w n = true -> In n (files_here w).
Proof.
  intros Hd Hn Hf. apply filter_In. split; [|exact Hf].
  apply list_elem_of_In. change (resolve w ".") with (cwd w).
  unfold is_file_in, lookup_path in Hf. rewrite (resolve_plain w n Hd Hn) in Hf.
  destruct (fs w !! (cwd w +:+ "/" +:+ n)) as [x|] eqn:Hx; [|discriminate].
  apply (listdir_fs_plain _ _ _ x); [|exact Hx].
  now apply plain_name_spec in Hn as [? _].
Qed.

End Listing.

Section Bundle.
Context (T : PatchBuilder.Tools).
Import PatchBuilder.

Lemma only_files_filter names : forall s : State Builder,
  only_files names s = (Returned (List.filter (is_file_in (sys s)) names), s).
Proof.
  induction names as [|f names IH]; intros s; [reflexivity|].
  cbn [only_files List.filter].
  rewrite (bind_eq _ _ _ _ _ (os_path_isfile_eq f s)),
          (bind_eq _ _ _ _ _ (IH s)).
  unfold is_file_in. now destruct (lookup_path (sys s) f) as [[?|]|].
Qed.

Lemma fold_signature_reads l : forall (acc : Z) (s s' : State Builder) z,
  fold_signature T acc l s = (Returned z, s') ->
  s' = s /\ Forall (fun f => is_file_in (sys s) f = true) l.
Proof.
  induction l as [|f l IH]; intros acc s s' z H.
  - injection H as _ <-. auto.
  - cbn [fold_signature] in H. apply bind_Returned in H as (d & s1 & Hd & H).
    unfold get_md5, read_file in Hd. unfold_monad. cbn [sys] in Hd.
    destruct (lookup_path (sys s) f) as [[c|]|] eqn:Hf; try discriminate.
    injection Hd as _ <-. destruct (IH _ _ _ _ H) as [-> Hall].
    split; [reflexivity|]. constructor; [|exact Hall].
    unfold is_file_in. now rewrite Hf.
Qed.

(** Writing a file leaves the process where it is and the files that
    were there in place. *)
Lemma write_file_keeps_files {O} (p c : string) (t t' : State O) r :
  write_file p c t = (Returned r, t') ->
  cwd (sys t') = cwd (sys t)
  /\ is_file_in (sys t') p = true
  /\ forall f, is_file_in (sys t) f = true -> is_file_in (sys t') f = true.
Proof.
  intros H. split; [|split].
  - revert H. unfold write_file, store_file. unfold_monad. cbn [sys self].
    destruct (lookup_path (sys t) p) as [[old|]|];
      destruct (fs (sys t) !! Py.dirname (resolve (sys t) p)) as [[?|]|];
      try discriminate; now intros [= _ <-].
  - unfold is_file_in. now rewrite (write_file_lookup _ _ _ _ _ H).
  - intros f. revert H. unfold write_file, store_file. unfold_monad. cbn [sys self].
    destruct (lookup_path (sys t) p) as [[old|]|];
      destruct (fs (sys t) !! Py.dirname (resolve (sys t) p)) as [[?|]|];
      try discriminate; intros [= _ <-];
      unfold is_file_in, lookup_path; cbn [sys fs set_fs];
      change (resolve (set_fs _ (sys t)) f) with (resolve (sys t) f);
      (destruct (decide (resolve (sys t) p = resolve (sys t) f)) as [->|Hne];
       [now rewrite lookup_insert_eq|now rewrite lookup_insert_ne]).
Qed.

Lemma filelist_of_plain md : Forall (fun f => plain_name f = true) (filelist_of md).
Proof.
  unfold filelist_of.
  destruct (Py.truthy (pre_install md)), (Py.truthy (post_install md));
    repeat constructor.
Qed.

(** X18: when [__sign_and_pack] returns, the file
    [PATCH_OUTPUT/<patch_file>] holds the archive of the regular files
    found in the current directory of the tree in which the two
    signature files have been written; in a working directory other
    than the root these files include [signature], [signature.v2] and
    every signed member (the two archives and the declared scripts);
    and the process is where it was. *)
Theorem X18_sign_and_pack_contents (patch_file : string) (s s' : State Builder) :
  plain_dir (cwd (sys s)) ->
  sign_and_pack T patch_file s = (Returned tt, s') ->
  exists sig sg w',
    let w := set_fs (<[resolve (sys s) detached_signature_file := File sg]>
                       (<[resolve (sys s) mdsum_signature_file := File sig]>
                          (fs (sys s)))) (sys s) in
    lookup_path (sys s') (Py.join (PATCH_OUTPUT T) patch_file)
    = Some (File (tar_archive T (files_here w) w'))
    /\ In "signature" (files_here w)
    /\ In "signature.v2" (files_here w)
    /\ (forall f, In f (filelist_of (metadata (self s))) -> In f (files_here w))
    /\ cwd (sys s') = cwd (sys s).
Proof.
  intros Hd H. unfold sign_and_pack in H.
  apply bind_Returned in H as (B & t1 & HB & H). injection HB as <- <-.
  apply bind_Returned in H as ([] & t2 & Hsig & H).
  unfold write_mdsum_signature in Hsig.
  apply bind_Returned in Hsig as (z & t0 & Hfold & Hsig).
  apply fold_signature_reads in Hfold as [-> Hall].
  pose proof (write_file_store _ _ _ _ Hsig) as E2.
  apply write_file_keeps_files in Hsig as (Hc2 & Hs2 & Hk2).
  apply bind_Returned in H as (w0 & t3 & Hw & H). injection Hw as <- <-.
  destruct (sign_files T _ (sys t2)) as [[sg need]|]; [|discriminate].
  apply bind_Returned in H as ([] & t4 & Hdet & H).
  pose proof (write_file_store _ _ _ _ Hdet) as E4.
  apply write_file_keeps_files in Hdet as (Hc4 & Hs4 & Hk4).
  apply bind_Returned in H as (names & t5 & Hls & H).
  apply os_listdir_inv in Hls as [-> ->].
  rewrite (bind_eq _ _ _ _ _ (only_files_filter _ t4)) in H.
  apply bind_Returned in H as (present & t7 & Hp & H).
  rewrite os_path_exists_eq in Hp. injection Hp as _ <-.
  apply bind_Returned in H as (? & t8 & Hmk & H).
  apply bind_Returned in H as (w' & t9 & Hw & H). injection Hw as <- <-.
  assert (Hc8 : cwd (sys t8) = cwd (sys t4)).
  { eapply (keeps_eq (fun s : State Builder => cwd (sys s))); [|exact Hmk].
    keeps_auto. }
  pose proof (write_file_lookup _ _ _ _ _ H) as Hl.
  apply write_file_keeps_files in H as (Hc9 & _ & _).
  assert (Hd4 : plain_dir (cwd (sys t4))) by (rewrite Hc4, Hc2; exact Hd).
  assert (E : sys t4
              = set_fs (<[resolve (sys s) detached_signature_file := File sg]>
                          (<[resolve (sys s) mdsum_signature_file
                             := File (Py.hex_of_int z)]> (fs (sys s)))) (sys s)).
  { rewrite E4, E2. reflexivity. }
  exists (Py.hex_of_int z), sg, (sys t8). cbv zeta. rewrite <- E.
  split; [exact Hl|].
  split; [apply files_here_plain; auto|].
  split; [apply files_here_plain; auto|].
  split; [|congruence].
  intros f Hf. apply files_here_plain; [exact Hd4| |].
  - pose proof (filelist_of_plain (metadata (self s))) as Hp.
    rewrite Forall_forall in Hp. apply Hp, list_elem_of_In, Hf.
  - rewrite Forall_forall in Hall. apply Hk4, Hk2, Hall, list_elem_of_In, Hf.
Qed.

End Bundle.

(** The bundle of the sample world. *)
Lemma X18_sign_and_pack_contents_witness :
  exists files w',
    lookup_path
      (sys (PatchBuilder.sign_and_pack Sample.tools "P1.patch"
              (mkState Sample.bundle_sys Sample.builder)).2)
      "/out/P1.patch"
    = Some (File (PatchBuilder.tar_archive Sample.tools files w'))
    /\ In "signature" files /\ In "signature.v2" files
    /\ In "metadata.tar" files /\ In "software.tar" files.
Proof.
  assert (H : PatchBuilder.sign_and_pack Sample.tools "P1.patch"
                (mkState Sample.bundle_sys Sample.builder)
              = (Returned tt,
                 (PatchBuilder.sign_and_pack Sample.tools "P1.patch"
                    (mkState Sample.bundle_sys Sample.builder)).2))
    by (vm_compute; reflexivity).
  assert (Hd : plain_dir (cwd (sys (mkState Sample.bundle_sys Sample.builder))))
    by (split; [discriminate|reflexivity]).
  destruct (X18_sign_and_pack_contents Sample.tools _ _ _ Hd H)
    as (sig & sg & w' & Hl & Hs & Hv & Hf & _).
  eexists _, w'. split; [exact Hl|]. split; [exact Hs|]. split; [exact Hv|].
  split; apply Hf; cbn; auto.
Defined.

(** ** The dummy package *)

Section DummyPackage.
Context (E : Env).
Import Debrepack.

Lemma check_pkgfile (pfile : string) (s : State Parser) :
  (present <- os_path_exists pfile ;;
   if negb present then raise (IOError ("No such " +:+ pfile +:+ " file"))
   else ret tt) s
  = match lookup_path (sys s) pfile with
    | None => (Raised (IOError ("No such " +:+ pfile +:+ " file")), s)
    | Some _ => (Returned tt, s)
    end.
Proof.
  rewrite (bind_eq _ _ _ _ _ (os_path_exists_eq pfile s)).
  now destruct (lookup_path (sys s) pfile).
Qed.

(** The first loop of [dummy_package] touches nothing and stops at the
    first path that does not exist. *)
Lemma check_pkgfiles (pkgfiles : list string) (s : State Parser) :
  foreach pkgfiles (fun pfile =>
    present <- os_path_exists pfile ;;
    if negb present then raise (IOError ("No such " +:+ pfile +:+ " file"))
    else ret tt) s
  = match first_missing (sys s) pkgfiles with
    | Some pfile => (Raised (IOError ("No such " +:+ pfile +:+ " file")), s)
    | None => (Returned tt, s)
    end.
Proof.
  induction pkgfiles as [|p l IH]; [reflexivity|].
  cbn [foreach first_missing find]. unfold bind at 1. rewrite check_pkgfile.
  destruct (lookup_path (sys s) p) as [n|]; [exact IH|reflexivity].
Qed.

Lemma commands_loop {A} (cmd : A -> command) (l : list A) :
  forall (s s' : State Parser),
    foreach l (fun x => run_shell_cmd E (cmd x) ;;; ret tt) s = (Returned tt, s') ->
    trace (sys s') = (trace (sys s) ++ List.map cmd l)%list
    /\ cwd (sys s') = cwd (sys s).
Proof.
  intros s s' H. split; [exact (proj1 (foreach_commands E cmd l s s' H))|].
  eapply (keeps_eq (fun s : State Parser => cwd (sys s))); [|exact H]. keeps_auto.
Qed.

(** X19: [dummy_package] looks at all its input files first: when one
    of them does not exist it raises IOError naming the first such
    file, and nothing has been removed, created or run. *)
Theorem X19_dummy_package_precheck (pkgfiles : list string)
    (pkgname pkgver pfile : string) (s : State Parser) :
  first_missing (sys s) pkgfiles = Some pfile ->
  dummy_package E pkgfiles pkgname pkgver s
  = (Raised (IOError ("No such " +:+ pfile +:+ " file")), s).
Proof.
  intros H. unfold dummy_package. unfold bind at 1.
  now rewrite check_pkgfiles, H.
Qed.

Lemma keeps_self_os_chdir p : keeps_self (os_chdir p : M Parser unit).
Proof.
  intros s. unfold os_chdir. unfold_monad. cbn [sys].
  now destruct (lookup_path (sys s) p) as [[?|]|].
Qed.

Lemma resolve_cwd (w w' : Sys) p : cwd w = cwd w' -> resolve w p = resolve w' p.
Proof. unfold resolve. now intros ->. Qed.

Lemma quiet_returns {A} (m : M Parser A) (s t : State Parser) a :
  only_runs (fun _ => False) m -> m s = (Returned a, t) ->
  trace (sys t) = trace (sys s).
Proof.
  intros Hq H. destruct (Hq s) as (cmds & Ht & Hf). rewrite H in Ht.
  destruct cmds as [|c cmds]; [now rewrite app_nil_r in Ht|].
  now inversion Hf.
Qed.

Lemma run_shell_cmd_returns (c : command) (s t : State Parser) out :
  run_shell_cmd E c s = (Returned out, t) ->
  trace (sys t) = (trace (sys s) ++ [c])%list /\ cwd (sys t) = cwd (sys s).
Proof.
  intros H. destruct (run_shell_cmd_frame E c s) as (Ht & Hc & _).
  rewrite H in Ht, Hc. auto.
Qed.

(** X20: when [dummy_package] returns, every input file was there, the
    version is a Debian version, the commands run are the copy of each
    input file, in order, followed by tar, debmake, dch and
    dpkg-buildpackage, and nothing else; the value is the path of
    [<pkgname>_<version without epoch>.dsc] in [basedir/pkgname]
    followed by the paths, in that directory, of the files that this
    .dsc lists under Files; the process is back where it started and
    the object is unchanged. *)
Theorem X20_dummy_package_result (pkgfiles : list string)
    (pkgname pkgver : string) (files : list string) (s s' : State Parser) :
  isabs (cwd (sys s)) = true ->
  dummy_package E pkgfiles pkgname pkgver s = (Returned files, s') ->
  exists bv c names,
    let packdir := Py.join (basedir (self s)) pkgname in
    let dsc_file := pkgname +:+ "_" +:+ strip_epoch pkgver +:+ ".dsc" in
    first_missing (sys s) pkgfiles = None
    /\ BaseVersion.parse pkgver = Returned bv
    /\ lookup_path (set_cwd (resolve (sys s) packdir) (sys s')) dsc_file
       = Some (File c)
    /\ dsc_files E c = Some names
    /\ files = Py.join packdir dsc_file
               :: List.map (Py.join packdir) names
    /\ trace (sys s')
       = (trace (sys s)
          ++ dummy_commands E pkgfiles pkgname (BaseVersion.upstream_version bv)
                            pkgver)%list
    /\ cwd (sys s') = cwd (sys s)
    /\ self s' = self s.
Proof.
  intros Habs H.
  assert (Hself : self s' = self s).
  { eapply (keeps_eq (fun s : State Parser => self s)); [|exact H].
    unfold dummy_package. keeps_auto; apply keeps_self_os_chdir. }
  unfold dummy_package in H.
  apply bind_Returned in H as ([] & s0 & Hchk & H).
  rewrite check_pkgfiles in Hchk.
  destruct (first_missing (sys s) pkgfiles) as [p|] eqn:Hmiss; [discriminate|].
  injection Hchk as <-.
  apply bind_Returned in H as (P & s1 & HP & H). injection HP as <- <-.
  set (pack := Py.join (basedir (self s)) pkgname) in *.
  apply bind_Returned in H as (present & s2 & Hp & H).
  rewrite os_path_exists_eq in Hp. injection Hp as _ <-.
  apply bind_Returned in H as ([] & s3 & Hrm & H).
  apply bind_Returned in H as ([] & s4 & Hmk & H).
  destruct (BaseVersion.parse pkgver) as [bv|e] eqn:Hbv; [|discriminate].
  apply bind_Returned in H as (pwd & s5 & Hpwd & H).
  unfold os_getcwd in Hpwd. unfold_monad. injection Hpwd as <- <-.
  apply bind_Returned in H as ([] & s6 & Hcd & H).
  apply bind_Returned in H as ([] & s7 & Hcp & H).
  apply bind_Returned in H as (o1 & s8 & H1 & H).
  apply bind_Returned in H as (o2 & s9 & H2 & H).
  apply bind_Returned in H as (o3 & s10 & H3 & H).
  apply bind_Returned in H as (o4 & s11 & H4 & H).
  apply bind_Returned in H as (c & s12 & Hrd & H).
  apply bind_Returned in H as ([] & s13 & Hback & H).
  destruct (dsc_files E c) as [names|] eqn:Hnames; [|discriminate].
  injection H as <- <-.
  (* the directory is emptied in silence, from where the process is *)
  assert (Ht3 : trace (sys s3) = trace (sys s)).
  { eapply quiet_returns; [|exact Hrm]. only_runs_auto. }
  assert (Hc3 : cwd (sys s3) = cwd (sys s)).
  { eapply (keeps_eq (fun s : State Parser => cwd (sys s))); [|exact Hrm]. keeps_auto. }
  assert (Ht4 : trace (sys s4) = trace (sys s3)).
  { eapply quiet_returns; [|exact Hmk]. only_runs_auto. }
  assert (Hc4 : cwd (sys s4) = cwd (sys s3)).
  { eapply (keeps_eq (fun s : State Parser => cwd (sys s))); [|exact Hmk].
    keeps_auto. }
  assert (Ht6 : trace (sys s6) = trace (sys s4)).
  { eapply quiet_returns; [|exact Hcd]. only_runs_auto. }
  pose proof (os_chdir_returns _ _ _ _ Hcd) as Hc6.
  (* the commands *)
  apply (commands_loop
           (fun pfile => CmdShell ("mkdir -p " +:+ (pkgname +:+ "-"
                                     +:+ BaseVersion.upstream_version bv)
                                   +:+ "; cp " +:+ pfile +:+ " "
                                   +:+ (pkgname +:+ "-"
                                        +:+ BaseVersion.upstream_version bv))))
    in Hcp as [Ht7 Hc7].
  apply run_shell_cmd_returns in H1 as [Ht8 Hc8].
  apply run_shell_cmd_returns in H2 as [Ht9 Hc9].
  apply run_shell_cmd_returns in H3 as [Ht10 Hc10].
  apply run_shell_cmd_returns in H4 as [Ht11 Hc11].
  (* the description is read where the commands ran *)
  assert (Hrd' : lookup_path (sys s11) (pkgname +:+ "_" +:+ strip_epoch pkgver +:+ ".dsc")
                 = Some (File c) /\ s12 = s11).
  { revert Hrd. unfold read_file. unfold_monad.
    destruct (lookup_path (sys s11) _) as [[c'|]|]; try discriminate.
    now intros [= -> ->]. }
  destruct Hrd' as [Hdsc ->].
  assert (Ht13 : trace (sys s13) = trace (sys s11)).
  { eapply quiet_returns; [|exact Hback]. only_runs_auto. }
  assert (Hf13 : fs (sys s13) = fs (sys s11)).
  { eapply (keeps_eq (fun s : State Parser => fs (sys s))); [|exact Hback].
    apply keeps_fs_os_chdir. }
  pose proof (os_chdir_returns _ _ _ _ Hback) as Hc13.
  rewrite Hc4, Hc3, (resolve_abs _ _ Habs) in Hc13.
  exists bv, c, names. cbv zeta. fold pack.
  split; [reflexivity|]. split; [reflexivity|].
  split.
  { rewrite <- Hdsc. unfold lookup_path. cbn [fs set_cwd]. rewrite Hf13.
    f_equal. apply resolve_cwd. cbn [cwd].
    rewrite Hc11, Hc10, Hc9, Hc8, Hc7, Hc6.
    apply resolve_cwd. now rewrite Hc4, Hc3. }
  split; [exact Hnames|].
  split; [reflexivity|].
  split.
  { rewrite Ht13, Ht11, Ht10, Ht9, Ht8, Ht7, Ht6, Ht4, Ht3.
    unfold dummy_commands, dch_command. now rewrite <- !app_assoc. }
  split; [exact Hc13|exact Hself].
Qed.

End DummyPackage.

(** An input file that is not there, beside one that is. *)
Lemma X19_dummy_package_precheck_witness :
  Debrepack.dummy_package Sample.dummy_env ["/in/a.txt"; "/in/b.txt"] "dummy" "1.0-1"
    (mkState Sample.dummy_sys Sample.parser)
  = (Raised (IOError "No such /in/b.txt file"),
     mkState Sample.dummy_sys Sample.parser).
Proof.
  apply (X19_dummy_package_precheck Sample.dummy_env
           ["/in/a.txt"; "/in/b.txt"] "dummy" "1.0-1" "/in/b.txt").
  vm_compute. reflexivity.
Defined.

(** A dummy package of one file. *)
Lemma X20_dummy_package_result_witness :
  exists s',
    Debrepack.dummy_package Sample.dummy_env ["/in/a.txt"] "dummy" "1.0-1"
      (mkState Sample.dummy_sys Sample.parser)
    = (Returned ["/build/dummy/dummy_1.0-1.dsc"; "/build/dummy/dummy_1.0.orig.tar.gz";
                 "/build/dummy/dummy_1.0-1.debian.tar.xz"], s')
    /\ cwd (sys s') = "/"
    /\ List.length (trace (sys s')) = 5.
Proof.
  assert (H : Debrepack.dummy_package Sample.dummy_env ["/in/a.txt"] "dummy" "1.0-1"
                (mkState Sample.dummy_sys Sample.parser)
              = (Returned ["/build/dummy/dummy_1.0-1.dsc";
                           "/build/dummy/dummy_1.0.orig.tar.gz";
                           "/build/dummy/dummy_1.0-1.debian.tar.xz"],
                 (Debrepack.dummy_package Sample.dummy_env ["/in/a.txt"] "dummy" "1.0-1"
                    (mkState Sample.dummy_sys Sample.parser)).2))
    by (vm_compute; reflexivity).
  assert (Habs : Debrepack.isabs (cwd (sys (mkState Sample.dummy_sys Sample.parser)))
                 = true) by reflexivity.
  destruct (X20_dummy_package_result Sample.dummy_env _ _ _ _ _ _ Habs H)
    as (bv & c & names & _ & _ & _ & _ & _ & Htr & Hcwd & _).
  eexists. split; [exact H|]. split; [exact Hcwd|].
  rewrite Htr. reflexivity.
Defined.

(** ** Lists of entries *)

Section ListFiles.
Context {O Arg : Type} (arg_truthy : Arg -> bool).
Import Utils.

(** Stripping twice is stripping once. *)
Lemma strip_strip (l : string) : Py.strip (Py.strip l) = Py.strip l.
Proof. unfold Py.strip. apply strip_id, strip_trimmed. Qed.

(** Without a handler the loop appends the entries of the lines. *)
Lemma fetch_entries_plain (a : option Arg) (lines : list string) :
  forall (entries : list string) (s : State O),
    fetch_entries arg_truthy None a lines entries s
    = (Returned (entries
                 ++ List.filter (fun e => negb (Debrepack.skipped e))
                                (List.map Py.strip lines))%list, s).
Proof.
  induction lines as [|l lines IH]; intros entries s.
  - cbn. now rewrite app_nil_r.
  - cbn [fetch_entries List.map List.filter]. unfold Debrepack.skipped.
    destruct (Py.startswith (Py.strip l) "#"); cbn [orb negb]; [apply IH|].
    destruct (String.eqb (Py.strip l) EmptyString); cbn [negb]; [apply IH|].
    rewrite IH, <- app_assoc. reflexivity.
Qed.

(** With a handler that computes its result from the entry and the
    argument the loop appends these results. *)
Lemma fetch_entries_pure (g : string -> option Arg -> list string)
    (a : option Arg) (lines : list string) :
  forall (entries : list string) (s : State O),
    fetch_entries arg_truthy (Some (fun e x => ret (g e x))) a lines entries s
    = (Returned (entries
                 ++ concat (List.map (fun e => g e (passed_arg arg_truthy a))
                              (List.filter (fun e => negb (Debrepack.skipped e))
                                           (List.map Py.strip lines))))%list, s).
Proof.
  induction lines as [|l lines IH]; intros entries s.
  - cbn. now rewrite app_nil_r.
  - cbn [fetch_entries List.map List.filter]. unfold Debrepack.skipped.
    destruct (Py.startswith (Py.strip l) "#"); cbn [orb negb]; [apply IH|].
    destruct (String.eqb (Py.strip l) EmptyString); cbn [negb]; [apply IH|].
    cbn [List.map concat]. rewrite app_assoc.
    destruct a as [x|]; [destruct (arg_truthy x) eqn:Hx|];
      rewrite (bind_eq _ _ _ _ _ (eq_refl : ret _ s = (Returned _, s))), IH;
      cbn [passed_arg]; rewrite ?Hx; reflexivity.
Qed.

(** The lines kept by the reading loop have the entries of the file. *)
Lemma kept_lines_entries (content : string) :
  List.filter (fun e => negb (Debrepack.skipped e))
    (List.map Py.strip
       (List.filter (fun line => negb (String.eqb line EmptyString))
                    (List.map Py.strip (Py.readlines content))))
  = series_entries content.
Proof.
  unfold series_entries.
  induction (Py.readlines content) as [|l ls IH]; [reflexivity|].
  cbn [List.map List.filter].
  destruct (String.eqb (Py.strip l) EmptyString) eqn:He; cbn [negb].
  - assert (Hsk : Debrepack.skipped (Py.strip l) = true)
      by (unfold Debrepack.skipped; rewrite He; apply orb_true_r).
    rewrite Hsk. exact IH.
  - cbn [List.map List.filter]. now rewrite strip_strip, IH.
Qed.

Lemma read_file_cases (p : string) (s : State O) :
  read_file p s
  = match lookup_path (sys s) p with
    | Some (File c) => (Returned c, s)
    | Some Dir => (Raised (IsADirectoryError p), s)
    | None => (Raised (FileNotFoundError p), s)
    end.
Proof.
  unfold read_file. unfold_monad. now destruct (lookup_path (sys s) p) as [[?|]|].
Qed.

(** X21: for a list file that can be read, [bc_safe_fetch] without a
    handler returns the lines of the file, stripped, without the empty
    ones and those that start with [#], in the order of the file; with
    a handler that computes lists it returns the concatenation of the
    handler's lists for these entries, the argument being passed only
    when it is true.  For a path that is not a readable file the call
    does not return the empty list: its except branches use the name
    [logger], which the module does not bind, and NameError is raised.
    In all cases the state is as it was. *)
Theorem X21_bc_safe_fetch (lst_file : string) (a : option Arg) (s : State O) :
  match lookup_path (sys s) lst_file with
  | Some (File content) =>
      Forall series_entry (series_entries content)
      /\ bc_safe_fetch arg_truthy lst_file None a s
         = (Ended (Returned (series_entries content)), s)
      /\ (forall g : string -> option Arg -> list string,
             bc_safe_fetch arg_truthy lst_file (Some (fun e x => ret (g e x))) a s
             = (Ended (Returned
                         (concat (List.map (fun e => g e (passed_arg arg_truthy a))
                                           (series_entries content)))), s))
  | _ =>
      forall h, bc_safe_fetch arg_truthy lst_file h a s = (NameError "logger", s)
  end.
Proof.
  unfold bc_safe_fetch. rewrite read_file_cases.
  destruct (lookup_path (sys s) lst_file) as [[content|]|]; try reflexivity.
  split; [apply series_entries_are_entries|]. split.
  - rewrite fetch_entries_plain, kept_lines_entries. reflexivity.
  - intros g. rewrite fetch_entries_pure, kept_lines_entries. reflexivity.
Qed.

End ListFiles.

(** ** Walks of bounded depth *)

Section LimitedWalk.
Context {O : Type}.
Import Utils.

Lemma count_char_append c a b :
  count_char c (a +:+ b) = (count_char c a + count_char c b)%nat.
Proof.
  induction a as [|x a IH]; [reflexivity|].
  rewrite app_cons. cbn [count_char]. rewrite IH. lia.
Qed.

Lemma span_not_slash_fst s : has_char "/" (Py.span_not_slash s).1 = false.
Proof.
  induction s as [|c s IH]; [reflexivity|]. cbn [Py.span_not_slash].
  destruct (Ascii.eqb c "/") eqn:Hc; [reflexivity|].
  destruct (Py.span_not_slash s) as [a b]. cbn [fst has_char] in *.
  now rewrite Hc, IH.
Qed.

(** A path that is its own base name has no slash. *)
Lemma basename_fixed r : Py.basename r = r -> has_char "/" r = false.
Proof.
  unfold Py.basename. intros H.
  rewrite <- H, has_char_rev. apply span_not_slash_fst.
Qed.

Lemma prefix_split a : forall k, String.prefix a k = true -> k = a +:+ Py.drop (String.length a) k.
Proof.
  induction a as [|c a IH]; intros k H; [reflexivity|].
  destruct k as [|x k]; [discriminate|]. cbn [String.prefix] in H.
  destruct (Ascii.ascii_dec c x) as [->|]; [|discriminate].
  rewrite app_cons. cbn [String.length Py.drop]. now rewrite <- (IH k H).
Qed.

(** The names of a listing have no slash, and each is the name of an
    entry of the tree. *)
Lemma listed_name (m : gmap string node) q d :
  In d (listdir_fs q m) ->
  has_char "/" d = false /\ is_Some (m !! (q +:+ "/" +:+ d)).
Proof.
  intros H. apply list_elem_of_In, list_elem_of_omap in H as ([k x] & Hk & Hc).
  apply elem_of_map_to_list in Hk. cbn [fst] in Hc. unfold child_name in Hc.
  destruct (under q k) eqn:Hu; [|discriminate].
  destruct (String.eqb_spec (Py.basename (Py.drop (String.length q + 1) k))
                            (Py.drop (String.length q + 1) k)) as [Hb|];
    [|discriminate].
  injection Hc as <-. split; [now apply basename_fixed|].
  unfold under, Py.startswith in Hu. apply prefix_split in Hu.
  rewrite length_append in Hu. cbn [String.length] in Hu.
  rewrite append_assoc in Hu. rewrite <- Hu. eauto.
Qed.

Lemma no_slash_start d : has_char "/" d = false -> Py.startswith d "/" = false.
Proof.
  destruct d as [|a d]; [reflexivity|]. cbn [has_char]. unfold Py.startswith.
  cbn [String.prefix]. intros H. apply orb_false_iff in H as [Ha _].
  destruct (Ascii.ascii_dec "/" a) as [<-|]; [discriminate|reflexivity].
Qed.

(** Joining a name without slash adds at most one separator, and stays
    below what the directory was below. *)
Lemma join_no_slash top d :
  has_char "/" d = false ->
  Py.join top d = top +:+ d \/ Py.join top d = top +:+ "/" +:+ d.
Proof.
  intros H. unfold Py.join. rewrite (no_slash_start d H).
  destruct (_ || _); auto.
Qed.

Lemma join_plain top d :
  plain_dir top -> has_char "/" d = false -> Py.join top d = top +:+ "/" +:+ d.
Proof.
  intros [Hne Hend] Hd. unfold Py.join. rewrite (no_slash_start d Hd), Hend, orb_false_r.
  destruct (String.eqb_spec top EmptyString); [contradiction|reflexivity].
Qed.

Lemma join_count top d :
  has_char "/" d = false ->
  (count_char "/" (Py.join top d) <= count_char "/" top + 1)%nat.
Proof.
  intros H. pose proof (proj1 (has_char_count "/" d) H) as Hd.
  destruct (join_no_slash top d H) as [-> | ->];
    rewrite !count_char_append, Hd; cbn; lia.
Qed.

Lemma prefix_append_more a b c :
  String.prefix a b = true -> String.prefix a (b +:+ c) = true.
Proof.
  revert b. induction a as [|x a IH]; intros b H; [now destruct (b +:+ c)|].
  destruct b as [|y b]; [discriminate|]. rewrite app_cons.
  cbn [String.prefix] in *. destruct (Ascii.ascii_dec x y); [auto|discriminate].
Qed.

Section Pruned.
Context (w : Sys) (dir : string) (max_depth : Z).

Let prune (root : string) : bool :=
  (Z.of_nat (count_char "/" dir) + max_depth <=? Z.of_nat (count_char "/" root))%Z.

Let bound : nat := (count_char "/" dir + Z.to_nat max_depth)%nat.

(** The roots of the walk stay within the bound. *)
Lemma os_walk_depth (fuel : nat) : forall top,
  (count_char "/" top <= bound)%nat ->
  Forall (fun t => (count_char "/" t.1.1 <= bound)%nat) (os_walk fuel prune w top).
Proof.
  induction fuel as [|fuel IH]; intros top Htop; [constructor|].
  cbn [os_walk]. destruct (isdir w top); [|constructor].
  constructor; [exact Htop|].
  destruct (prune top) eqn:Hp; [constructor|].
  apply Forall_forall. intros t Ht.
  apply list_elem_of_In, in_flat_map in Ht as (d & Hd & Ht).
  apply filter_In in Hd as [Hd _]. apply listed_name in Hd as [Hd _].
  assert (Hc : (count_char "/" (Py.join top d) <= bound)%nat).
  { pose proof (join_count top d Hd). subst prune bound. cbv beta in Hp.
    apply Z.leb_gt in Hp. lia. }
  specialize (IH _ Hc). rewrite Forall_forall in IH.
  apply IH, list_elem_of_In, Ht.
Qed.

(** The roots of the walk are the directory or lie below it. *)
Lemma os_walk_below (fuel : nat) : forall top,
  top = dir \/ under dir top = true ->
  plain_dir dir ->
  Forall (fun t => t.1.1 = dir \/ under dir t.1.1 = true) (os_walk fuel prune w top).
Proof.
  induction fuel as [|fuel IH]; intros top Htop Hdir; [constructor|].
  cbn [os_walk]. destruct (isdir w top); [|constructor].
  constructor; [exact Htop|].
  destruct (prune top); [constructor|].
  apply Forall_forall. intros t Ht.
  apply list_elem_of_In, in_flat_map in Ht as (d & Hd & Ht).
  apply filter_In in Hd as [Hd _]. apply listed_name in Hd as [Hd _].
  assert (Hb : under dir (Py.join top d) = true).
  { destruct Htop as [->|Hu].
    - rewrite (join_plain dir d Hdir Hd).
      unfold under, Py.startswith. rewrite <- append_assoc. apply prefix_append.
    - unfold under, Py.startswith in *.
      destruct (join_no_slash top d Hd) as [-> | ->];
        now apply prefix_append_more. }
  specialize (IH _ (or_intror Hb) Hdir). rewrite Forall_forall in IH.
  apply IH, list_elem_of_In, Ht.
Qed.

End Pruned.

Lemma rstrip_slashes dir : Py.all_slashes dir = true ->
  Py.rstrip_chars (Ascii.eqb "/") dir = EmptyString.
Proof.
  intros H. unfold Py.rstrip_chars.
  assert (Hn : none_of (fun c => negb (Ascii.eqb "/" c)) dir = true).
  { induction dir as [|c dir IH]; [reflexivity|]. cbn [Py.all_slashes none_of] in *.
    apply andb_true_iff in H as [Hc H]. rewrite (IH H), andb_true_r.
    rewrite negb_involutive, Ascii.eqb_sym. exact Hc. }
  rewrite <- none_of_rev in Hn. clear H.
  induction (String.rev dir) as [|c r IH]; [reflexivity|].
  cbn [none_of Py.lstrip_chars] in *. apply andb_true_iff in Hn as [Hc Hn].
  rewrite negb_involutive in Hc. rewrite Hc. exact (IH Hn).
Qed.

Lemma endswith_last s :
  Py.endswith s "/" = false <-> last_char s <> Some "/"%char.
Proof.
  unfold Py.endswith, last_char. change (String.rev "/") with "/"%string.
  destruct (String.rev s) as [|c r]; cbn [String.prefix first_char]; [easy|].
  destruct (Ascii.ascii_dec "/" c) as [<-|Hc].
  - destruct r; split; try easy; intros H; now contradiction H.
  - split; [|reflexivity]. intros _ [= ->]. now contradiction Hc.
Qed.

Lemma rstrip_plain dir :
  Py.rstrip_chars (Ascii.eqb "/") dir <> EmptyString ->
  plain_dir (Py.rstrip_chars (Ascii.eqb "/") dir).
Proof.
  intros Hne. split; [exact Hne|]. apply endswith_last. intros H.
  apply rstrip_last in H. discriminate.
Qed.

Lemma isdir_nonempty (w : Sys) p : isdir w p = true -> p <> EmptyString.
Proof. now destruct p. Qed.

(** X22: [limited_walk] strips the slashes at the end of [dir] and
    asserts that what is left is a directory: a path made of slashes
    only, the root directory in particular, fails with AssertionError,
    and so does any path that is not a directory.  Otherwise the first
    triple yielded is that of the stripped directory itself, every
    root yielded is that directory or lies below it, and none has more
    than [max_depth] separators more than it; with [max_depth] zero or
    negative the directory itself is the only root.  The state is as it
    was. *)
Theorem X22_limited_walk_depth (fuel : nat) (dir : string) (max_depth : Z)
    (s : State O) :
  let top := Py.rstrip_chars (Ascii.eqb "/") dir in
  (Py.all_slashes dir = true ->
   limited_walk fuel dir max_depth s = (AssertionError, s))
  /\ (isdir (sys s) top = false ->
      limited_walk fuel dir max_depth s = (AssertionError, s))
  /\ (isdir (sys s) top = true ->
      exists dirs files rest,
        limited_walk (S fuel) dir max_depth s
        = (Ended (Returned ((top, dirs, files) :: rest)), s)
        /\ Forall (fun t =>
                     (t.1.1 = top \/ under top t.1.1 = true)
                     /\ (count_char "/" t.1.1
                         <= count_char "/" top + Z.to_nat max_depth)%nat)
                  ((top, dirs, files) :: rest)
        /\ ((max_depth <= 0)%Z -> rest = [])).
Proof.
  intros top. split; [|split].
  - intros H. unfold limited_walk. now rewrite (rstrip_slashes dir H).
  - intros H. unfold limited_walk. fold top. now rewrite H.
  - intros H. unfold limited_walk. fold top. rewrite H. cbn [negb].
    pose proof (rstrip_plain dir (isdir_nonempty _ _ H)) as Hplain. fold top in Hplain.
    set (prune := fun root : string =>
                    (Z.of_nat (count_char "/" top) + max_depth
                     <=? Z.of_nat (count_char "/" root))%Z).
    pose proof (os_walk_depth (sys s) top max_depth (S fuel) top
                  ltac:(lia)) as Hdepth.
    pose proof (os_walk_below (sys s) top max_depth (S fuel) top
                  (or_introl eq_refl) Hplain) as Hbelow.
    cbv zeta. fold prune in Hdepth, Hbelow |- *.
    cbn [os_walk] in *. rewrite H in *.
    eexists _, _, _. split; [reflexivity|]. split.
    + apply Forall_forall. intros t Ht.
      rewrite Forall_forall in Hdepth, Hbelow. auto.
    + intros Hmd. unfold prune at 1.
      destruct (Z.leb_spec (Z.of_nat (count_char "/" top) + max_depth)
                           (Z.of_nat (count_char "/" top))); [reflexivity|lia].
Qed.

Lemma tidy_tree_lookup (m : gmap string node) k x :
  tidy_tree m = true -> m !! k = Some x ->
  k = "/"%string \/ Py.endswith k "/" = false.
Proof.
  unfold tidy_tree. rewrite forallb_forall. intros H Hk.
  apply elem_of_map_to_list, list_elem_of_In, H in Hk. cbn [fst] in Hk.
  apply orb_true_iff in Hk as [Hk|Hk].
  - left. now apply String.eqb_eq.
  - right. now apply negb_true_iff.
Qed.

Lemma endswith_slash q : Py.endswith (q +:+ "/") "/" = true.
Proof.
  unfold Py.endswith. rewrite rev_append.
  change (String.rev "/") with "/"%string. apply prefix_append.
Qed.

Lemma resolve_nonempty (w : Sys) p :
  Debrepack.isabs (cwd w) = true -> resolve w p <> EmptyString.
Proof.
  intros Habs. assert (Hc : cwd w <> EmptyString) by (now destruct (cwd w)).
  unfold resolve. destruct (drop_dot_slash p) as [|a r]; [exact Hc|].
  unfold Py.join. destruct (Py.startswith (String a r) "/"); [discriminate|].
  destruct (cwd w) as [|c d]; [contradiction|].
  destruct (_ || _); discriminate.
Qed.

Lemma rev_nonempty d : d <> EmptyString -> String.rev d <> EmptyString.
Proof.
  intros Hd H. apply Hd. rewrite <- (rev_involutive d), H. reflexivity.
Qed.

(** A directory extended by a name stays plain. *)
Lemma plain_dir_child top d :
  d <> EmptyString -> has_char "/" d = false -> plain_dir (top +:+ "/" +:+ d).
Proof.
  intros Hd Hs. split; [now destruct top|].
  apply endswith_last. unfold last_char.
  rewrite !rev_append, first_char_append.
  pose proof (rev_nonempty d Hd) as Hr.
  rewrite <- (has_char_rev "/" d) in Hs.
  destruct (String.rev d) as [|c r]; [contradiction|].
  cbn [first_char has_char] in *. apply orb_false_iff in Hs as [Hc _].
  intros [= ->]. discriminate.
Qed.

Section Fuel.
Context (w : Sys) (cd : nat) (max_depth : Z).
Hypothesis tidy : tidy_tree (fs w) = true.
Hypothesis rooted : Debrepack.isabs (cwd w) = true.

Let prune (root : string) : bool :=
  (Z.of_nat cd + max_depth <=? Z.of_nat (count_char "/" root))%Z.

(** The names of the directories found in a plain directory of a tidy
    tree are plain. *)
Lemma listed_dir top d :
  In d (listdir_fs (resolve w top) (fs w)) ->
  d <> EmptyString /\ has_char "/" d = false.
Proof.
  intros H. apply listed_name in H as [Hs [x Hx]]. split; [|exact Hs].
  intros ->. change ("/" +:+ "") with "/"%string in Hx.
  destruct (tidy_tree_lookup _ _ _ tidy Hx) as [Hk|Hk].
  - apply (resolve_nonempty w top rooted).
    destruct (resolve w top) as [|c r]; [reflexivity|].
    rewrite app_cons in Hk. injection Hk as _ Hk. now destruct r.
  - now rewrite endswith_slash in Hk.
Qed.

(** A walk that is at most [k] levels above the depth at which it is
    cut does not need more than [k + 1] levels of descent. *)
Lemma os_walk_fuel (k : nat) : forall (fuel fuel' : nat) (top : string),
  plain_dir top ->
  (Z.of_nat cd + max_depth <= Z.of_nat (count_char "/" top) + Z.of_nat k)%Z ->
  (k < fuel)%nat -> (k < fuel')%nat ->
  os_walk fuel prune w top = os_walk fuel' prune w top.
Proof.
  induction k as [|k IH]; intros fuel fuel' top Hplain Hk Hf Hf';
    (destruct fuel as [|fuel]; [lia|]); (destruct fuel' as [|fuel']; [lia|]);
    cbn [os_walk]; destruct (isdir w top); try reflexivity; f_equal;
    destruct (prune top) eqn:Hp; try reflexivity.
  - subst prune. cbv beta in Hp. apply Z.leb_gt in Hp. lia.
  - assert (Hall : forall d, In d (listdir_fs (resolve w top) (fs w)) ->
                     os_walk fuel prune w (Py.join top d)
                     = os_walk fuel' prune w (Py.join top d)).
    { intros d Hd. apply listed_dir in Hd as [Hne Hs].
      rewrite (join_plain top d Hplain Hs).
      apply IH; [now apply plain_dir_child| |lia|lia].
      rewrite !count_char_append.
      rewrite (proj1 (has_char_count "/" d) Hs). cbn [count_char Ascii.eqb]. cbn. lia. }
    revert Hall. generalize (listdir_fs (resolve w top) (fs w)).
    intros l Hall. induction l as [|d l IHl]; [reflexivity|].
    cbn [List.filter]. destruct (isdir w (Py.join top d)).
    + cbn [flat_map]. rewrite (Hall d (or_introl eq_refl)).
      f_equal. apply IHl. intros d' Hd'. apply Hall. now right.
    + apply IHl. intros d' Hd'. apply Hall. now right.
Qed.

End Fuel.

(** X23: over a tree without stray slashes and from a working directory
    given by an absolute path, the walk of [limited_walk] never descends
    more than [max_depth] levels: a depth of descent above [max_depth]
    is never used up, and the triples yielded are the same for every
    such depth. *)
Theorem X23_limited_walk_ends (fuel fuel' : nat) (dir : string) (max_depth : Z)
    (s : State O) :
  tidy_tree (fs (sys s)) = true ->
  Debrepack.isabs (cwd (sys s)) = true ->
  (Z.to_nat max_depth < fuel)%nat -> (Z.to_nat max_depth < fuel')%nat ->
  limited_walk fuel dir max_depth s = limited_walk fuel' dir max_depth s.
Proof.
  intros Htidy Habs Hf Hf'. unfold limited_walk.
  destruct (isdir (sys s) (Py.rstrip_chars (Ascii.eqb "/") dir)) eqn:Hd;
    [|reflexivity].
  cbn [negb]. cbv zeta. do 3 f_equal.
  apply (os_walk_fuel (sys s) _ max_depth Htidy Habs (Z.to_nat max_depth));
    [apply rstrip_plain, (isdir_nonempty _ _ Hd)|lia|exact Hf|exact Hf'].
Qed.

End LimitedWalk.

(** A walk of depth one in a tree four levels deep. *)
Lemma X23_limited_walk_ends_witness :
  Utils.limited_walk 2 "/srv/" 1 (mkState Sample.deep_sys tt)
  = Utils.limited_walk 9 "/srv/" 1 (mkState Sample.deep_sys tt).
Proof.
  apply X23_limited_walk_ends; [vm_compute; reflexivity|reflexivity|cbn; lia|cbn; lia].
Defined.

(** ** The origins of a download *)

Section Origins.
Context (E : Env).
Import Debrepack.

Lemma only_runs_weaken {A} (ok ok' : command -> Prop) (m : M Parser A) :
  (forall c, ok c -> ok' c) -> only_runs ok m -> only_runs ok' m.
Proof.
  intros H Hm s. destruct (Hm s) as (cmds & Ht & Hok). exists cmds.
  split; [exact Ht|]. eapply Forall_impl; eauto.
Qed.

Lemma only_runs_fetch_entry dl_file url sha md5 failure :
  only_runs is_transfer (fetch_entry E dl_file url sha md5 failure).
Proof.
  assert (Hck : forall f x c, only_runs is_transfer (checksum E f x c : M Parser bool)).
  { intros f x c. apply (only_runs_weaken (is_checksum_of c));
      [now intros ? [? ->]|apply only_runs_checksum]. }
  unfold fetch_entry, download_phase, verify_download, download.
  repeat first [apply Hck | only_runs_step].
Qed.

Lemma only_runs_checksum_dsc dsc :
  only_runs is_transfer (checksum_dsc E dsc).
Proof.
  unfold checksum_dsc. only_runs_auto.
  apply (only_runs_weaken (is_checksum_of "sha256sum"));
    [now intros ? [? ->]|apply only_runs_checksum_dsc_members].
Qed.

(** X24: which tools [Parser.download] uses depends on what the
    package declares, in this order.  Whatever else is declared, the
    files of [dl_files] are checked and fetched with the checksum tools
    and curl.  With [dl_path] declared nothing else is run: neither
    an [archive] nor apt is consulted.  Without [dl_path] and with an
    [archive], dget may be run as well, not apt.  With neither, apt-get
    source (and the upload that may follow it) is run only when the
    package declares neither [src_path] nor [dl_hook].  When the
    metadata of the package cannot be read nothing is run at all. *)
Theorem X24_download_tools (pkgpath mirror : string) (s : State Parser) :
  exists cmds,
    trace (sys (Parser_download E pkgpath mirror s).2) = (trace (sys s) ++ cmds)%list
    /\ match lookup_path (sys s)
                (Py.join (Py.join (abspath (sys s) pkgpath) "debian") "meta_data.yaml")
       with
       | Some (File c) => Forall (download_tools (yaml_full_load E c)) cmds
       | _ => cmds = []
       end.
Proof.
  unfold Parser_download. unfold bind at 1.
  destruct (setup E pkgpath s) as [[[]|e] s1] eqn:Hs.
  - destruct (setup_inv E _ _ _ Hs) as (c & ver & bv & _ & _ & Hc & _ & _ & Hsys & Hself & _).
    cbv zeta in Hc, Hself. rewrite Hc.
    set (md := yaml_full_load E c) in *.
    rewrite (bind_eq _ _ _ _ _ (os_path_exists_eq mirror s1)).
    destruct (lookup_path (sys s1) mirror) as [n|]; cbn [negb].
    + rewrite (bind_eq _ _ _ _ _ (get_self_eq s1)).
      match goal with
      | |- context [sys (?m s1).2] =>
          assert (Hor : only_runs (download_tools md) m)
      end.
      { rewrite Hself.
        cbn [meta_data pkginfo versions srcrepo pkgname pi_debname full_version
             dl_files dl_path archive src_path dl_hook with_src_files with_src_path].
        assert (Hfe : forall f u a b t,
                   only_runs (download_tools md) (fetch_entry E f u a b t)).
        { intros. apply (only_runs_weaken is_transfer); [now left|].
          apply only_runs_fetch_entry. }
        assert (Hcd : forall d, only_runs (download_tools md) (checksum_dsc E d)).
        { intros. apply (only_runs_weaken is_transfer); [now left|].
          apply only_runs_checksum_dsc. }
        apply only_runs_bind; [only_runs_auto|intros ?].
        apply only_runs_bind; [only_runs_auto|intros ?].
        apply only_runs_bind; [only_runs_auto|intros ?].
        apply only_runs_bind; [only_runs_auto|intros ?].
        apply only_runs_bind.
        { destruct (dl_files md) as [entries|]; [|apply only_runs_ret].
          apply only_runs_foreach. intros [f info]. apply Hfe. }
        intros ?. unfold download_tools.
        destruct (dl_path md) as [dp|] eqn:Hdp.
        { apply only_runs_bind; [|intros ?; only_runs_auto].
          apply (only_runs_weaken is_transfer); [now left|].
          apply only_runs_fetch_entry. }
        destruct (archive md) as [arch|] eqn:Har.
        { apply only_runs_bind.
          - apply (only_runs_weaken is_transfer); [now left|].
            apply only_runs_checksum_dsc.
          - intros ok. apply only_runs_bind; [|intros ?; only_runs_auto].
            apply only_runs_when. unfold dget.
            repeat first
              [ match goal with
                | |- only_runs _ (run_shell_cmd _ _) =>
                    apply only_runs_run_shell_cmd; right; hnf; eauto
                end
              | only_runs_step ]. }
        assert (Hsp : located_src_path E (sys s) (abspath (sys s) pkgpath) (src_path md)
                      = None <-> src_path md = None).
        { unfold located_src_path. destruct (src_path md) as [[d|]|]; [| |easy].
          - destruct (negb _); split; discriminate.
          - split; discriminate. }
        destruct (located_src_path E (sys s) (abspath (sys s) pkgpath) (src_path md))
          as [sp|] eqn:Hl.
        { destruct (src_path md) as [sp'|]; [|discriminate (proj2 Hsp eq_refl)].
          only_runs_auto. }
        rewrite (proj1 Hsp eq_refl).
        destruct (dl_hook md) as [hook|]; [only_runs_auto|].
        apply only_runs_bind.
        { apply (only_runs_weaken is_transfer); [now left|].
          apply only_runs_checksum_dsc. }
        intros ok. unfold upload_deb_package.
        repeat first
          [ match goal with
            | |- only_runs _ (run_shell_cmd _ _) =>
                apply only_runs_run_shell_cmd; right; hnf; eauto
            end
          | only_runs_step ]. }
      destruct (Hor s1) as (cmds & Ht & Hok). exists cmds.
      rewrite Ht, Hsys. auto.
    + exists []. unfold raise. cbn [snd]. rewrite Hsys, app_nil_r. auto.
  - exists []. cbn [snd]. rewrite app_nil_r.
    assert (Hsys : sys s1 = sys s).
    { pose proof (maintains_setup E (sys s) (self s) pkgpath s) as Hm.
      destruct Hm as [[Hm _] _].
      - split; [reflexivity|]. unfold same_settings. auto.
      - now rewrite Hs in Hm. }
    rewrite Hsys. split; [reflexivity|].
    now destruct (lookup_path _ _) as [[?|]|].
Qed.

End Origins.

(** ** A package made from a source directory *)

Section SourceDirectory.
Context (E : Env).
Import Debrepack.

Section RunsAs.
Context (P0 : Parser) (ok : command -> Prop).




End RunsAs.

Ltac runs cmd :=
  repeat first
    [ match goal with
      | |- only_runs _ (run_shell_cmd _ _) =>
          apply only_runs_run_shell_cmd; cmd
      end
    | only_runs_step ].

Ltac stays_self :=
  keeps_auto; try apply keeps_self_os_chdir.











End SourceDirectory.

(** ** The build type *)

Section BuildType.
Context (E : Env).
Import Debrepack.



End BuildType.


(** ** The signature of a bundle *)

Section BundleSignature.
Context (T : PatchBuilder.Tools).
Import PatchBuilder.

Lemma missing_dirs_absent (m : gmap string node) (fuel : nat) : forall q d,
  In d (missing_dirs fuel m q) -> m !! d = None.
Proof.
  induction fuel as [|fuel IH]; intros q d H; [contradiction|].
  cbn [missing_dirs] in H. destruct (m !! q) eqn:Hq; [contradiction|].
  destruct (String.eqb (Py.dirname q) q).
  - destruct H as [<-|[]]. exact Hq.
  - apply in_app_or in H as [H|[<-|[]]]; [eauto|exact Hq].
Qed.

Lemma insert_dirs_other (l : list string) : forall (m : gmap string node) k,
  ~ In k l -> foldl (fun m d => <[d := Dir]> m) m l !! k = m !! k.
Proof.
  induction l as [|d l IH]; intros m k Hk; [reflexivity|].
  cbn [foldl]. rewrite IH by (intros H; apply Hk; now right).
  apply lookup_insert_ne. intros ->. apply Hk. now left.
Qed.

(** Making directories leaves what is there as it is. *)
Lemma os_makedirs_keeps p (t t' : State Builder) r k x :
  os_makedirs p t = (r, t') ->
  fs (sys t) !! k = Some x -> fs (sys t') !! k = Some x.
Proof.
  unfold os_makedirs. unfold_monad. cbn [sys].
  destruct (fs (sys t) !! resolve (sys t) p); intros [= _ <-] Hk; [exact Hk|].
  cbn [sys fs set_fs]. rewrite insert_dirs_other; [exact Hk|].
  intros Hin.
  apply (missing_dirs_absent (fs (sys t)) (S (String.length (resolve (sys t) p)))
           (resolve (sys t) p)) in Hin. congruence.
Qed.

Lemma append_cancel a : forall x y, a +:+ x = a +:+ y -> x = y.
Proof.
  induction a as [|c a IH]; intros x y H; [exact H|].
  rewrite !app_cons in H. injection H as H. now apply IH.
Qed.

(** The two signature files are two files. *)
Lemma signature_files_differ (w : Sys) :
  resolve w detached_signature_file <> resolve w mdsum_signature_file.
Proof.
  unfold resolve, detached_signature_file, mdsum_signature_file.
  cbn [drop_dot_slash Ascii.eqb Bool.eqb andb]. unfold Py.join.
  change (Py.startswith "signature.v2" "/") with false.
  change (Py.startswith "signature" "/") with false. cbv iota.
  destruct (_ || _); intros H; apply append_cancel in H; discriminate.
Qed.

(** The local signature that a run of [__sign_and_pack] leaves behind
    is the one computed over the members of the bundle. *)
Lemma sign_and_pack_signature (patch_file : string) (s s' : State Builder)
    (contents : list string) :
  Forall2 (fun f c => member_content (sys s) f = Some c)
          (filelist_of (metadata (self s))) contents ->
  sign_and_pack T patch_file s = (Returned tt, s') ->
  resolve (sys s) (Py.join (PATCH_OUTPUT T) patch_file)
  <> resolve (sys s) mdsum_signature_file ->
  lookup_path (sys s') mdsum_signature_file
  = Some (File (Py.hex_of_int (aggregate_signature (List.map (md5_int T) contents)))).
Proof.
  intros Hmem H Hout. unfold sign_and_pack in H.
  apply bind_Returned in H as (B & t1 & HB & H). injection HB as <- <-.
  apply bind_Returned in H as ([] & t2 & Hsig & H).
  rewrite (write_mdsum_signature_files T s _ contents Hmem) in Hsig.
  apply write_file_store in Hsig.
  apply bind_Returned in H as (w0 & t3 & Hw & H). injection Hw as <- <-.
  destruct (sign_files T _ (sys t2)) as [[sg need]|]; [|discriminate].
  apply bind_Returned in H as ([] & t4 & Hdet & H).
  apply write_file_store in Hdet.
  apply bind_Returned in H as (names & t5 & Hls & H).
  apply os_listdir_inv in Hls as [-> ->].
  rewrite (bind_eq _ _ _ _ _ (only_files_filter _ t4)) in H.
  apply bind_Returned in H as (present & t7 & Hp & H).
  rewrite os_path_exists_eq in Hp. injection Hp as _ <-.
  apply bind_Returned in H as ([] & t8 & Hmk & H).
  apply bind_Returned in H as (w' & t9 & Hw & H). injection Hw as <- <-.
  assert (Hc8 : cwd (sys t8) = cwd (sys s)).
  { transitivity (cwd (sys t4)).
    - eapply (keeps_eq (fun s : State Builder => cwd (sys s))); [|exact Hmk]. keeps_auto.
    - now rewrite Hdet, Hsig. }
  assert (H4 : fs (sys t4) !! resolve (sys s) mdsum_signature_file
               = Some (File (Py.hex_of_int
                               (aggregate_signature (List.map (md5_int T) contents))))).
  { rewrite Hdet, Hsig. cbn [sys fs set_fs].
    change (resolve (set_fs _ (sys s)) detached_signature_file)
      with (resolve (sys s) detached_signature_file).
    rewrite lookup_insert_ne by apply signature_files_differ.
    apply lookup_insert_eq. }
  assert (H8 : fs (sys t8) !! resolve (sys s) mdsum_signature_file
               = Some (File (Py.hex_of_int
                               (aggregate_signature (List.map (md5_int T) contents))))).
  { destruct (negb _); cbn [when] in Hmk.
    - exact (os_makedirs_keeps _ _ _ _ _ _ Hmk H4).
    - now injection Hmk as <-. }
  apply write_file_store in H. rewrite H. unfold lookup_path. cbn [sys fs set_fs].
  rewrite !(resolve_cwd (set_fs _ (sys t8)) (sys s)) by exact Hc8.
  rewrite !(resolve_cwd (sys t8) (sys s)) by exact Hc8.
  rewrite lookup_insert_ne by exact Hout. exact H8.
Qed.

(** C1: the signature that [__sign_and_pack] computes and leaves in the
    file [signature] when it packs a patch is the exclusive-or fold of
    the MD5 digests of the listed members (metadata.tar, software.tar
    and the declared pre-install and post-install scripts), each a
    128-bit integer, into an accumulator of 128 ones; it does not
    depend on the order of the members, and a member listed an even
    number of times contributes nothing. *)
Theorem C1_aggregate_signature (s : State Builder) (filelist contents : list string) :
  Forall2 (fun f c => member_content (sys s) f = Some c) filelist contents ->
  (forall md,
      filelist_of md
      = (["metadata.tar"; "software.tar"]
         ++ (if Py.truthy (pre_install md) then ["pre-install.sh"] else [])
         ++ (if Py.truthy (post_install md) then ["post-install.sh"] else []))%list)
  /\ all_ones = (2 ^ 128 - 1)%Z
  /\ write_mdsum_signature T filelist s
     = write_file "signature"
         (Py.hex_of_int (aggregate_signature (List.map (md5_int T) contents))) s
  /\ (forall filelist',
         Permutation filelist filelist' ->
         write_mdsum_signature T filelist' s = write_mdsum_signature T filelist s)
  /\ (forall f,
         Nat.even (count_occ string_dec filelist f) = true ->
         write_mdsum_signature T (List.remove string_dec f filelist) s
         = write_mdsum_signature T filelist s)
  /\ (filelist = filelist_of (metadata (self s)) ->
      forall patch_file s',
        sign_and_pack T patch_file s = (Returned tt, s') ->
        resolve (sys s) (Py.join (PATCH_OUTPUT T) patch_file)
        <> resolve (sys s) "signature" ->
        lookup_path (sys s') "signature"
        = Some (File (Py.hex_of_int
                        (aggregate_signature (List.map (md5_int T) contents)))))
  /\ (forall contents',
         Permutation contents contents' ->
         aggregate_signature (List.map (md5_int T) contents')
         = aggregate_signature (List.map (md5_int T) contents)).
Proof.
  intros H. pose proof (members_present _ _ _ H) as Hall.
  split; [reflexivity|]. split; [reflexivity|].
  split; [now apply write_mdsum_signature_files|]. split; [|split; [|split]].
  - intros l Hp.
    rewrite !write_mdsum_signature_present; trivial.
    + do 3 f_equal. apply xor_all_perm, Permutation_map. now symmetry.
    + eapply Permutation_Forall; eauto.
  - intros f Heven.
    assert (Hrem : Forall (fun f => is_Some (member_content (sys s) f))
                          (List.remove string_dec f filelist)).
    { rewrite List.Forall_forall in *. intros x Hx.
      apply Hall. now apply in_remove in Hx. }
    rewrite !write_mdsum_signature_present; trivial.
    rewrite (xor_all_remove _ f filelist), Heven. now rewrite Z.lxor_0_l.
  - intros -> patch_file s' Hrun Hout.
    exact (sign_and_pack_signature patch_file s s' contents H Hrun Hout).
  - intros contents' Hp.
    rewrite !aggregate_signature_xor_all. f_equal.
    apply xor_all_perm, Permutation_map. now symmetry.
Qed.

End BundleSignature.

(** The bundle of the sample world: two members of three and five
    bytes, signed when the patch is packed. *)
Lemma C1_aggregate_signature_witness :
  PatchBuilder.write_mdsum_signature Sample.tools ["metadata.tar"; "software.tar"]
    (mkState Sample.bundle_sys Sample.builder)
  = write_file "signature"
      (Py.hex_of_int (PatchBuilder.aggregate_signature [3; 5]%Z))
      (mkState Sample.bundle_sys Sample.builder)
  /\ lookup_path
       (sys (PatchBuilder.sign_and_pack Sample.tools "P1.patch"
               (mkState Sample.bundle_sys Sample.builder)).2) "signature"
     = Some (File (Py.hex_of_int (PatchBuilder.aggregate_signature [3; 5]%Z))).
Proof.
  assert (Hmem : Forall2 (fun f c => PatchBuilder.member_content Sample.bundle_sys f = Some c)
                         ["metadata.tar"; "software.tar"] ["abc"; "abcde"])
    by (repeat constructor).
  pose proof (C1_aggregate_signature Sample.tools
                (mkState Sample.bundle_sys Sample.builder)
                ["metadata.tar"; "software.tar"] ["abc"; "abcde"] Hmem)
    as (_ & _ & Hw & _ & _ & Hpack & _).
  split; [exact Hw|].
  assert (Hrun : PatchBuilder.sign_and_pack Sample.tools "P1.patch"
                   (mkState Sample.bundle_sys Sample.builder)
                 = (Returned tt,
                    (PatchBuilder.sign_and_pack Sample.tools "P1.patch"
                       (mkState Sample.bundle_sys Sample.builder)).2))
    by (vm_compute; reflexivity).
  apply (Hpack eq_refl "P1.patch" _ Hrun). vm_compute. discriminate.
Defined.

(** ** The working directory of an assembly *)

Section FreshAssembly.
Context (E : Env).
Import Debrepack.

(** [package] down to the reset of the working directory. *)
Lemma package_reset (pkgpath : string) (s t1 : State Parser) :
  let pack := Py.join (basedir (self s)) (package_dir_to_package_name E pkgpath) in
  setup E pkgpath s = (Returned tt, t1) ->
  isabs pack = true ->
  (forall c, fs (sys s) !! pack <> Some (File c)) ->
  fs (sys s) !! Py.dirname pack = Some Dir ->
  in_tree pack (Py.dirname pack) = false ->
  packdir (pkginfo (self t1)) = pack
  /\ (setup E pkgpath ;;; reset_packdir) s
     = (Returned tt,
        mkState (set_fs (fresh_tree pack (fs (sys s))) (sys s)) (self t1)).
Proof.
  intros pack Hsetup Habs Hnf Hpar Hout.
  destruct (setup_inv E pkgpath s t1 Hsetup)
    as (c & ver & bv & _ & _ & _ & _ & _ & Hsys & Hself & _).
  assert (Hpack : packdir (pkginfo (self t1)) = pack) by now rewrite Hself.
  split; [exact Hpack|].
  rewrite (bind_eq _ _ _ _ _ Hsetup).
  rewrite (reset_packdir_total t1); rewrite ?Hpack, ?Hsys; auto.
Qed.

(** C10: [package] deletes the working directory of the package, when
    there is one, with all that lies below it, and makes it again
    before it does anything else with it: after [setup] and the reset
    the directory is there, nothing lies below it, and the tree outside
    it, the working directory of the process and the trace are as they
    were; the build type, the log file, the copy of the mirror, the
    resolution of the origin, the patches and the harvest run from that
    state.  What an earlier assembly left below the directory has no
    influence: from two trees that differ below it only, on which
    [setup] describes the package alike, [package] gives the same files
    and leaves the same state. *)
Theorem C10_fresh_working_directory (pkgpath mirror : string)
    (s1 t1 : State Parser) :
  let pack := Py.join (basedir (self s1)) (package_dir_to_package_name E pkgpath) in
  setup E pkgpath s1 = (Returned tt, t1) ->
  isabs pack = true ->
  (forall c, fs (sys s1) !! pack <> Some (File c)) ->
  fs (sys s1) !! Py.dirname pack = Some Dir ->
  in_tree pack (Py.dirname pack) = false ->
  no_orphans pack (fs (sys s1)) ->
  exists t,
    (setup E pkgpath ;;; reset_packdir) s1 = (Returned tt, t)
    /\ self t = self t1
    /\ packdir (pkginfo (self t)) = pack
    /\ cwd (sys t) = cwd (sys s1)
    /\ trace (sys t) = trace (sys s1)
    /\ fs (sys t) !! pack = Some Dir
    /\ (forall q, under pack q = true -> fs (sys t) !! q = None)
    /\ (forall q, in_tree pack q = false -> fs (sys t) !! q = fs (sys s1) !! q)
    /\ package E pkgpath mirror s1
       = (prepare_packdir E mirror ;;; resolve_origin E ;;;
          apply_src_patches E ;;; repackage E) t
    /\ (forall s2 t2 : State Parser,
          setup E pkgpath s2 = (Returned tt, t2) ->
          self t2 = self t1 ->
          basedir (self s2) = basedir (self s1) ->
          cwd (sys s2) = cwd (sys s1) ->
          trace (sys s2) = trace (sys s1) ->
          (forall c, fs (sys s2) !! pack <> Some (File c)) ->
          no_orphans pack (fs (sys s2)) ->
          (forall q, in_tree pack q = false -> fs (sys s2) !! q = fs (sys s1) !! q) ->
          (setup E pkgpath ;;; reset_packdir) s2 = (Returned tt, t)
          /\ package E pkgpath mirror s2 = package E pkgpath mirror s1).
Proof.
  intros pack Hsetup Habs Hnf Hpar Hout Hwf1.
  destruct (package_reset pkgpath s1 t1 Hsetup Habs Hnf Hpar Hout) as [Hpack Hr1].
  fold pack in Hr1.
  assert (Hpkg : forall s t, (setup E pkgpath ;;; reset_packdir) s = (Returned tt, t) ->
            package E pkgpath mirror s
            = (prepare_packdir E mirror ;;; resolve_origin E ;;;
               apply_src_patches E ;;; repackage E) t).
  { intros s t H. unfold package, assemble_package.
    apply bind_Returned in H as ([] & u & Hu & H).
    rewrite (bind_eq _ _ _ _ _ Hu). now rewrite (bind_eq _ _ _ _ _ H). }
  destruct (fresh_tree_lookup pack (fs (sys s1)) Hwf1) as (Hp & Hu & Ho).
  eexists. split; [exact Hr1|]. cbn [sys self fs cwd trace set_fs].
  split; [reflexivity|]. split; [exact Hpack|].
  split; [reflexivity|]. split; [reflexivity|].
  split; [exact Hp|]. split; [exact Hu|]. split; [exact Ho|].
  split; [now apply Hpkg|].
  intros s2 t2 Hsetup2 Hself Hbase Hcwd Htrace Hnf2 Hwf2 Hagree.
  assert (Hpack2 : Py.join (basedir (self s2)) (package_dir_to_package_name E pkgpath)
                   = pack) by (unfold pack; now rewrite Hbase).
  destruct (package_reset pkgpath s2 t2 Hsetup2) as [_ Hr2];
    rewrite ?Hpack2; auto.
  { now rewrite Hagree. }
  rewrite Hpack2 in Hr2.
  assert (Heq : mkState (set_fs (fresh_tree pack (fs (sys s2))) (sys s2)) (self t2)
                = mkState (set_fs (fresh_tree pack (fs (sys s1))) (sys s1)) (self t1)).
  { rewrite (fresh_tree_agree pack (fs (sys s1)) (fs (sys s2))) by assumption.
    rewrite Hself. destruct s2 as [[f2 c2 r2] o2], s1 as [[f1 c1 r1] o1].
    cbn in *. now subst. }
  rewrite Heq in Hr2. split; [exact Hr2|].
  now rewrite (Hpkg _ _ Hr2), (Hpkg _ _ Hr1).
Qed.

End FreshAssembly.

(** The sample package assembled in a build area with the leftovers of
    an earlier assembly and in one without: the same files, the same
    state, and no leftover below the working directory. *)
Lemma C10_fresh_working_directory_witness :
  Debrepack.package Sample.harvest_env "/repo/pkg" "/mirror"
    (mkState Sample.harvest_stale_sys Sample.parser)
  = Debrepack.package Sample.harvest_env "/repo/pkg" "/mirror"
      (mkState Sample.harvest_sys Sample.parser)
  /\ (Debrepack.package Sample.harvest_env "/repo/pkg" "/mirror"
        (mkState Sample.harvest_stale_sys Sample.parser)).1
     = Returned ["pkg_1.4-3.dsc"; "pkg_1.4.orig.tar.gz"]
  /\ exists t,
       (Debrepack.setup Sample.harvest_env "/repo/pkg" ;;; Debrepack.reset_packdir)
         (mkState Sample.harvest_stale_sys Sample.parser) = (Returned tt, t)
       /\ fs (sys t) !! "/build/pkg" = Some Dir
       /\ fs (sys t) !! "/build/pkg/pkg-1.3/old.c" = None
       /\ fs (sys t) !! "/build/pkg/pkg_1.4-3.dsc" = None.
Proof.
  set (s1 := mkState Sample.harvest_stale_sys Sample.parser).
  set (s2 := mkState Sample.harvest_sys Sample.parser).
  assert (H1 : Debrepack.setup Sample.harvest_env "/repo/pkg" s1
               = (Returned tt, (Debrepack.setup Sample.harvest_env "/repo/pkg" s1).2))
    by (vm_compute; reflexivity).
  assert (H2 : Debrepack.setup Sample.harvest_env "/repo/pkg" s2
               = (Returned tt, (Debrepack.setup Sample.harvest_env "/repo/pkg" s2).2))
    by (vm_compute; reflexivity).
  destruct (C10_fresh_working_directory Sample.harvest_env "/repo/pkg" "/mirror"
              s1 _ H1)
    as (t & Hr & _ & _ & _ & _ & Hdir & Hbelow & _ & _ & Htwo);
    try (vm_compute; reflexivity).
  - intros c. vm_compute. discriminate.
  - apply no_orphans_check. vm_compute. reflexivity.
  - destruct (Htwo s2 _ H2) as [_ Heq]; try (vm_compute; reflexivity).
    + intros c. vm_compute. discriminate.
    + apply no_orphans_check. vm_compute. reflexivity.
    + apply agree_outside_check. vm_compute. reflexivity.
    + split; [symmetry; exact Heq|]. split; [vm_compute; reflexivity|].
      exists t. split; [exact Hr|]. split; [exact Hdir|].
      split; apply Hbelow; vm_compute; reflexivity.
Defined.
